(** * Dispider multimodal projectors: a shallow embedding of
      [dispider/model/multimodal_projector/builder.py]

    The development follows the Python module class by class.

    - [Py]       what the module uses of Python: exceptions and results,
                 attribute access, [int(math.sqrt(_))], strings and the one
                 regular expression.
    - [Torch]    the torch operations the [forward] methods call, on the
                 shapes of tensors, and the layers [nn.Linear],
                 [nn.LayerNorm], [nn.Sequential], [nn.MultiheadAttention].
    - [IdentityMap], [SlotAttention], [PerceiverSampler], [MultiProjector],
      [QwenResampler], [CompressProjector], [PoolProjector],
      [BaseProjector], [BaseMixProjector]: each class as the record of its
                 attributes, with [init] for [__init__] and [forward].
                 [MultiProjector.forward] threads the store that holds the
                 caller's tensors.
    - [Tensor]   the operations that [get_abs_pos] and the pooling of
                 [PoolProjector] call, as an interface, so that both are
                 written once and read on shapes and on entries.
    - [Factory]  [build_vision_projector].
    - [Grid]     tensors with their entries, in row-major order.
    - [Attn]     the attention weights of [SlotAttention] over the reals.
    - [Spec]     the words of the specification: recognized type strings,
                 well-shaped inputs, the tokens of a macro-grid cell.
    - [SimpleResBlock], [Resampler]: the two classes the factory does not
                 build.
    - [PosTable], [SinCos]: the sine-cosine position table with its
                 [cls_token] argument, on shapes and with its entries.
    - [Layout]   which results [MultiProjector.forward] appends.

    Tensor entries are floating-point numbers in the program.  Wherever a
    statement is about shapes or about which entries are combined, entries
    are kept abstract; only [Attn] interprets them, as real numbers. *)

From Stdlib Require Import ZArith QArith Reals Lra Lia String Ascii List Bool.
From stdpp Require Import base list.
Import ListNotations.

Local Open Scope string_scope.
Local Open Scope list_scope.
Local Open Scope Z_scope.

(* ===================================================================== *)
(** * Python-level values *)
(* ===================================================================== *)

Module Py.

(** The exceptions that the module can raise.  [ValueError] carries its
    message; [AttributeError] the name of the missing attribute;
    [RuntimeError] stands for the error torch raises on operands whose
    shapes do not fit the operation. *)
Inductive exn : Type :=
| ValueError (msg : string)
| AttributeError (attr : string)
| ZeroDivisionError
| AssertionError
| TypeError
| IndexError
| RuntimeError.

Inductive result (A : Type) : Type :=
| Ok (a : A)
| Raise (e : exn).
Arguments Ok {A} a.
Arguments Raise {A} e.

Definition bind {A B} (r : result A) (k : A -> result B) : result B :=
  match r with
  | Ok a => k a
  | Raise e => Raise e
  end.

(** [assert b] *)
Definition assert (b : bool) : result unit :=
  if b then Ok tt else Raise AssertionError.

(** [o.name] on an object whose attribute [name] may be unset. *)
Definition getattr {A} (name : string) (o : option A) : result A :=
  match o with
  | Some a => Ok a
  | None => Raise (AttributeError name)
  end.

(** [getattr(o, name, default)] *)
Definition getattr_default {A} (o : option A) (default : A) : A :=
  match o with
  | Some a => a
  | None => default
  end.

(** [hasattr(o, name)] *)
Definition hasattr {A} (o : option A) : bool :=
  match o with Some _ => true | None => false end.

(** [int(math.sqrt(n))] for an integer [n]: [math.sqrt] raises
    [ValueError] below zero; otherwise the square root is computed on
    doubles and truncated.  Below [2^52] that is the integer square root
    [Z.sqrt n]; from [2^52] on the rounding of the double can give one
    more (at [2^52 + 2^27], for one).  The model takes [Z.sqrt n]
    throughout, and statements that depend on the value keep [n] below
    [2^52]. *)
Definition int_sqrt (n : Z) : result Z :=
  if n <? 0 then Raise (ValueError "math domain error") else Ok (Z.sqrt n).

(** [int(np.sqrt(n))] for an integer [n]: [np.sqrt] gives NaN below zero,
    which [int] refuses; otherwise as [int_sqrt]. *)
Definition np_int_sqrt (n : Z) : result Z :=
  if n <? 0 then Raise (ValueError "cannot convert float NaN to integer")
  else Ok (Z.sqrt n).

(** [a // b] on integers.  Python's floor division is [Z.div]. *)
Definition floordiv (a b : Z) : result Z :=
  if b =? 0 then Raise ZeroDivisionError else Ok (a / b).

(** [n ** -0.5] for an integer base, kept symbolic; [0 ** -0.5] raises. *)
Inductive pow_neg_half : Type := PowNegHalf (base : Z).

Definition pow_neg_half_of (n : Z) : result pow_neg_half :=
  if n =? 0 then Raise ZeroDivisionError else Ok (PowNegHalf n).

(** ** Strings

    A [str] is modelled by a [string] whose characters are the code points
    below 256.  In that range the class [\d] is exactly ['0'..'9']. *)

Definition is_digit (c : ascii) : bool :=
  let n := Z.of_N (N_of_ascii c) in (48 <=? n) && (n <=? 57).

Definition digit_value (c : ascii) : Z := Z.of_N (N_of_ascii c) - 48.

(** The longest prefix of digits, and what follows it. *)
Fixpoint span_digits (s : string) : string * string :=
  match s with
  | EmptyString => (EmptyString, EmptyString)
  | String c r =>
      if is_digit c
      then let '(ds, rest) := span_digits r in (String c ds, rest)
      else (EmptyString, s)
  end.

(** If [p] is a prefix of [s], what follows it. *)
Fixpoint strip_prefix (p s : string) : option string :=
  match p, s with
  | EmptyString, _ => Some s
  | String a p', String b s' =>
      if Ascii.eqb a b then strip_prefix p' s' else None
  | String _ _, EmptyString => None
  end.

Definition newline : string := String (ascii_of_N 10) EmptyString.

(** [re.match(r'^mlp(\d+)x_gelu$', s)]: the result is group 1, or [None].
    [\d+] is greedy and what follows it starts with ['x'], so there is one
    way to match.  Without [re.MULTILINE], [$] matches at the end of the
    string and also just before a newline that ends the string.  A string
    is a string of 8-bit characters here: of the digits that [\d] matches
    in a [str], the ASCII digits are modelled. *)
Definition re_match_mlp_gelu (s : string) : option string :=
  match strip_prefix "mlp" s with
  | None => None
  | Some r =>
      let '(ds, rest) := span_digits r in
      match ds with
      | EmptyString => None
      | String _ _ =>
          if String.eqb rest "x_gelu"
             || String.eqb rest ("x_gelu" ++ newline)%string
          then Some ds else None
      end
  end.

(** [int(ds)] on a string of decimal digits. *)
Fixpoint int_of_digits_acc (acc : Z) (ds : string) : Z :=
  match ds with
  | EmptyString => acc
  | String c r => int_of_digits_acc (10 * acc + digit_value c) r
  end.

Definition int_of_digits (ds : string) : Z := int_of_digits_acc 0 ds.

(** [int(ds)] on a string of decimal digits.  Since Python 3.11 (and the
    security releases of 3.7 to 3.10) the conversion refuses a string of
    more than 4300 digits, leading zeros counted, with a [ValueError]
    whose message starts as below and goes on with the number of digits. *)
Definition int_max_str_digits : nat := 4300.

Definition int_limit_error : string :=
  "Exceeds the limit (4300 digits) for integer string conversion".

Definition int (ds : string) : result Z :=
  if (int_max_str_digits <? String.length ds)%nat
  then Raise (ValueError int_limit_error)
  else Ok (int_of_digits ds).

(** [needle in haystack] on strings. *)
Fixpoint contains (needle haystack : string) : bool :=
  match strip_prefix needle haystack with
  | Some _ => true
  | None =>
      match haystack with
      | EmptyString => false
      | String _ h => contains needle h
      end
  end.

End Py.

Notation "'do' x <- c1 ; c2" :=
  (Py.bind c1 (fun x => c2))
  (at level 10, x name, c1 at level 100, c2 at level 200).
Notation "'do' ' pat <- c1 ; c2" :=
  (Py.bind c1 (fun x => match x with pat => c2 end))
  (at level 10, pat pattern, c1 at level 100, c2 at level 200).

(* ===================================================================== *)
(** * Torch operations on shapes *)
(* ===================================================================== *)

(** A tensor is represented here by its shape, the list of its sizes.  Each
    operation returns the shape of its result, or raises when torch rejects
    the operands.  Memory layout (contiguity) is not represented. *)

Module Torch.
Import Py.

Definition shape := list Z.

Definition numel (s : shape) : Z := fold_right Z.mul 1 s.

(** [x.shape[i]], [x.size(i)] for [0 <= i] *)
Definition size (s : shape) (i : nat) : result Z :=
  match s !! i with
  | Some d => Ok d
  | None => Raise RuntimeError
  end.

(** [x.shape[-1]] *)
Definition size_last (s : shape) : result Z :=
  match last s with
  | Some d => Ok d
  | None => Raise RuntimeError
  end.

(** The shape [s] with its last size replaced. *)
Definition with_last (s : shape) (d : Z) : shape := removelast s ++ [d].

(** Two sizes that broadcast against each other, and the size they give. *)
Definition broadcast_dim (a b : Z) : result Z :=
  if a =? b then Ok a
  else if a =? 1 then Ok b
  else if b =? 1 then Ok a
  else Raise RuntimeError.

(** Broadcasting of reversed shapes (sizes aligned from the last one). *)
Fixpoint broadcast_rev (r1 r2 : shape) : result shape :=
  match r1, r2 with
  | [], _ => Ok r2
  | _, [] => Ok r1
  | a :: r1', b :: r2' =>
      do d <- broadcast_dim a b;
      do r <- broadcast_rev r1' r2';
      Ok (d :: r)
  end.

(** [x + y], [x - y], [x / y] on tensors *)
Definition broadcast (s1 s2 : shape) : result shape :=
  do r <- broadcast_rev (rev s1) (rev s2);
  Ok (rev r).

(** [x.view(sizes...)] and [x.reshape(sizes...)]: at most one size is [-1], and
    it is inferred. *)
Definition view (s : shape) (sizes : list Z) : result shape :=
  if existsb (fun d => d <? -1) sizes then Raise RuntimeError
  else
    let known := List.filter (fun d => negb (d =? -1)) sizes in
    let p := numel known in
    match (length sizes - length known)%nat with
    | O => if p =? numel s then Ok sizes else Raise RuntimeError
    | S O =>
        if (p =? 0) || negb (numel s mod p =? 0) then Raise RuntimeError
        else Ok (map (fun d => if d =? -1 then numel s / p else d) sizes)
    | _ => Raise RuntimeError
    end.

(** [x.permute(dims...)] for non-negative [dims] *)
Definition is_permutation (n : nat) (dims : list nat) : bool :=
  (length dims =? n)%nat
  && forallb (fun i => existsb (Nat.eqb i) dims) (seq 0 n).

Definition permute (s : shape) (dims : list nat) : result shape :=
  if is_permutation (length s) dims
  then Ok (map (fun i => nth i s 0) dims)
  else Raise RuntimeError.

(** [x.expand(sizes...)]: sizes beyond the rank of [x] are new leading
    dimensions; [-1] keeps a size; a size of 1 expands to any size. *)
Fixpoint expand_rev (r sizes : list Z) : result shape :=
  match r, sizes with
  | [], [] => Ok []
  | [], t :: sizes' =>
      if t <? 0 then Raise RuntimeError
      else do rest <- expand_rev [] sizes'; Ok (t :: rest)
  | _ :: _, [] => Raise RuntimeError
  | d :: r', t :: sizes' =>
      do rest <- expand_rev r' sizes';
      if t =? -1 then Ok (d :: rest)
      else if (t =? d) || ((d =? 1) && (0 <=? t)) then Ok (t :: rest)
      else Raise RuntimeError
  end.

Definition expand (s : shape) (sizes : list Z) : result shape :=
  do r <- expand_rev (rev s) (rev sizes);
  Ok (rev r).

(** [x.unsqueeze(i)] for [0 <= i <= x.ndim] *)
Definition unsqueeze (s : shape) (i : nat) : result shape :=
  if (i <=? length s)%nat then Ok (firstn i s ++ 1 :: skipn i s)
  else Raise RuntimeError.

(** [x.repeat(reps...)] with as many repetition counts as [x] has sizes *)
Definition repeat (s : shape) (reps : list Z) : result shape :=
  if (length reps =? length s)%nat && forallb (fun r => 0 <=? r) reps
  then Ok (zip_with Z.mul s reps)
  else Raise RuntimeError.

(** [x.flatten(0, k)]: the first [k+1] sizes are multiplied together *)
Definition flatten_to (s : shape) (k : nat) : result shape :=
  if (k <? length s)%nat then Ok (numel (firstn (S k) s) :: skipn (S k) s)
  else Raise RuntimeError.

(** [torch.mean(x, dim=i)] and [x.sum(dim=i)], with [keepdim] *)
Definition reduce (s : shape) (i : nat) (keepdim : bool) : result shape :=
  if (i <? length s)%nat
  then Ok (firstn i s ++ (if keepdim then [1] else []) ++ skipn (S i) s)
  else Raise RuntimeError.

(** A dimension counted from the end: [-1] is [from_end s 1]. *)
Definition from_end (s : shape) (k : nat) : nat := (length s - k)%nat.

(** [x.softmax(dim=i)] *)
Definition softmax (s : shape) (i : nat) : result shape :=
  if (i <? length s)%nat then Ok s else Raise RuntimeError.

(** [torch.cat(xs, dim=i)]: same rank, same sizes except along [i]. *)
Definition cat2 (i : nat) (s1 s2 : shape) : result shape :=
  if (i <? length s1)%nat
     && (length s1 =? length s2)%nat
     && forallb (fun j => (j =? i)%nat || (nth j s1 0 =? nth j s2 0))
                (seq 0 (length s1))
  then Ok (firstn i s1 ++ (nth i s1 0 + nth i s2 0) :: skipn (S i) s1)
  else Raise RuntimeError.

Fixpoint cat_from (i : nat) (acc : shape) (xs : list shape) : result shape :=
  match xs with
  | [] => Ok acc
  | x :: xs' => do acc' <- cat2 i acc x; cat_from i acc' xs'
  end.

Definition cat (xs : list shape) (i : nat) : result shape :=
  match xs with
  | [] => Raise RuntimeError
  | x :: xs' => cat_from i x xs'
  end.

(** A bound of a slice, as Python normalises it against a length. *)
Definition slice_bound (i n : Z) : Z :=
  if i <? 0 then Z.max 0 (i + n) else Z.min i n.

(** [x[a:b]] along the first dimension; a bound left out is [None]. *)
Definition slice0 (s : shape) (a b : option Z) : result shape :=
  match s with
  | [] => Raise RuntimeError
  | n :: rest =>
      let lo := match a with Some a => slice_bound a n | None => 0 end in
      let hi := match b with Some b => slice_bound b n | None => n end in
      Ok (Z.max 0 (hi - lo) :: rest)
  end.

(** [x[i]] with [0 <= i] along the first dimension *)
Definition getitem (s : shape) (i : Z) : result shape :=
  match s with
  | [] => Raise RuntimeError
  | n :: rest => if (0 <=? i) && (i <? n) then Ok rest else Raise RuntimeError
  end.

(** [torch.einsum('bid,bjd->bij', q, k)] *)
Definition einsum_bid_bjd_bij (q k : shape) : result shape :=
  match q, k with
  | [b; i; d], [b'; j; d'] =>
      do bb <- broadcast_dim b b';
      do _ <- broadcast_dim d d';
      Ok [bb; i; j]
  | _, _ => Raise RuntimeError
  end.

(** [torch.einsum('bjd,bij->bid', v, attn)] *)
Definition einsum_bjd_bij_bid (v attn : shape) : result shape :=
  match v, attn with
  | [b; j; d], [b'; i; j'] =>
      do bb <- broadcast_dim b b';
      do _ <- broadcast_dim j j';
      Ok [bb; i; d]
  | _, _ => Raise RuntimeError
  end.

(** [x @ w] for a matrix [w] and [x] of rank at least 2 *)
Definition matmul (x w : shape) : result shape :=
  match w with
  | [k; n] =>
      if (2 <=? length x)%nat && (default 0 (last x) =? k)
      then Ok (with_last x n) else Raise RuntimeError
  | _ => Raise RuntimeError
  end.

(** [F.interpolate(x, size=(h, w), mode="bicubic")] on a 4-D input: all
    spatial sizes, of the input and of the output, must be positive, and
    so must the number of channels (an empty batch is accepted). *)
Definition interpolate (x : shape) (h w : Z) : result shape :=
  match x with
  | [n; c; hin; win] =>
      if (0 <? hin) && (0 <? win) && (0 <? h) && (0 <? w) && (0 <? c)
      then Ok [n; c; h; w] else Raise RuntimeError
  | _ => Raise RuntimeError
  end.

(** ** Layers

    A layer is the record of the sizes it was built with.  The
    constructors of torch, [torch.randn] and [torch.zeros] refuse a size
    that is negative ([RuntimeError]) or that does not fit a signed 64-bit
    integer ([TypeError]), and a module has to fit in memory; none of this
    is modelled as failing.  What is stated of a built module is meant for
    sizes that torch accepts. *)

Record Linear := mkLinear { in_features : Z; out_features : Z }.
Record LayerNorm := mkLayerNorm { normalized_shape : Z }.

(** The members of an [nn.Sequential] built by this module. *)
Inductive Layer : Type :=
| LinearLayer (l : Linear)
| GELU.

Definition Sequential := list Layer.

Definition Linear_forward (l : Linear) (x : shape) : result shape :=
  match last x with
  | Some d =>
      if d =? in_features l then Ok (with_last x (out_features l))
      else Raise RuntimeError
  | None => Raise RuntimeError
  end.

Definition LayerNorm_forward (l : LayerNorm) (x : shape) : result shape :=
  match last x with
  | Some d => if d =? normalized_shape l then Ok x else Raise RuntimeError
  | None => Raise RuntimeError
  end.

Definition Layer_forward (l : Layer) (x : shape) : result shape :=
  match l with
  | LinearLayer l => Linear_forward l x
  | GELU => Ok x
  end.

Fixpoint Sequential_forward (m : Sequential) (x : shape) : result shape :=
  match m with
  | [] => Ok x
  | l :: m' => do y <- Layer_forward l x; Sequential_forward m' y
  end.

(** [nn.MultiheadAttention(embed_dim, num_heads)] in its default layout
    (sequence, batch, channel): the first element of what [forward]
    returns. *)
Record MultiheadAttention := mkMHA { mha_embed_dim : Z; mha_num_heads : Z }.

(** [nn.MultiheadAttention(embed_dim, num_heads)]: the constructor (of
    torch 2) refuses arguments that are not positive, and asserts that the
    heads divide the width. *)
Definition MultiheadAttention_init (embed_dim num_heads : Z)
    : result MultiheadAttention :=
  if (embed_dim <=? 0) || (num_heads <=? 0)
  then Raise (ValueError "embed_dim and num_heads must be greater than 0")
  else
    do _ <- assert (embed_dim / num_heads * num_heads =? embed_dim);
    Ok (mkMHA embed_dim num_heads).

Definition MultiheadAttention_forward
    (m : MultiheadAttention) (query key value : shape) : result shape :=
  match query, key, value with
  | [l; n; e], [s; nk; ek], [sv; nv; ev] =>
      if (e =? mha_embed_dim m) && (ek =? e) && (ev =? e)
         && (nk =? n) && (nv =? n) && (sv =? s)
      then Ok [l; n; e] else Raise RuntimeError
  | _, _, _ => Raise RuntimeError
  end.

(** What a [forward] receives and returns: a tensor, a list (or tuple) of
    tensors, or [None]. *)
Inductive value : Type :=
| Tensor (s : shape)
| TensorList (xs : list shape)
| NoneValue.

End Torch.

(* ===================================================================== *)
(** * The classes of [builder.py], on shapes *)
(* ===================================================================== *)

(** [range(n)] and [range(a, b)] *)
Definition range_from (a b : Z) : list Z :=
  map (fun i => a + Z.of_nat i) (seq 0 (Z.to_nat (b - a))).

Definition range (n : Z) : list Z := range_from 0 n.

(** ** [IdentityMap] *)

Module IdentityMap.
Import Py Torch.

Definition forward (x : value) : result value := Ok x.

(** The [config] property: the dictionary
    [{"mm_projector_type": 'identity'}]. *)
Definition config : list (string * string) :=
  [("mm_projector_type", "identity")].

End IdentityMap.

(** ** [SlotAttention] *)

Module SlotAttention.
Import Py Torch.

Record t := mk {
  eps : Q;
  iters : Z;
  num_slots : Z;
  scale : pow_neg_half;
  norm_input : LayerNorm;
  norm_slots : LayerNorm;
  norm_pre_ff : LayerNorm;
  slots_embedding : shape;
  project_q : Linear;
  project_k : Linear;
  project_v : Linear;
  mlp : Sequential;
  head : Linear
}.

(** The default [eps=1e-4] of the constructor. *)
Definition default_eps : Q := 1 # 10000.

(** [__init__(self, num_slots, encoder_dims, iters, hidden_dim, out_dim,
    eps)] *)
Definition init (num_slots encoder_dims iters hidden_dim out_dim : Z)
    (eps : Q) : result t :=
  do scale <- pow_neg_half_of encoder_dims;
  let hidden_dim := Z.max encoder_dims hidden_dim in
  Ok {| eps := eps;
        iters := iters;
        num_slots := num_slots;
        scale := scale;
        norm_input := mkLayerNorm encoder_dims;
        norm_slots := mkLayerNorm encoder_dims;
        norm_pre_ff := mkLayerNorm encoder_dims;
        slots_embedding := [1; num_slots; encoder_dims];
        project_q := mkLinear encoder_dims encoder_dims;
        project_k := mkLinear encoder_dims encoder_dims;
        project_v := mkLinear encoder_dims encoder_dims;
        mlp := [LinearLayer (mkLinear encoder_dims hidden_dim);
                GELU;
                LinearLayer (mkLinear hidden_dim encoder_dims)];
        head := mkLinear encoder_dims out_dim |}.

(** [b, n, d = inputs.shape] *)
Definition unpack3 (s : shape) : result (Z * Z * Z) :=
  match s with
  | [b; n; d] => Ok (b, n, d)
  | _ => Raise (ValueError "unpack")
  end.

(** The body of [for t in range(self.iters)]. *)
Definition round (m : t) (k v init_slots : shape) (t : Z) (slots : shape)
    : result shape :=
  let slots_prev := slots in
  do slots <- LayerNorm_forward (norm_slots m) slots;
  do q <- Linear_forward (project_q m) slots;
  do dots <- einsum_bid_bjd_bij q k;
  do attn <- softmax dots 1;
  do denom <- reduce attn (from_end attn 1) true;
  do attn <- broadcast attn denom;
  do updates <- einsum_bjd_bij_bid v attn;
  do slots <- broadcast slots_prev updates;
  do normed <- LayerNorm_forward (norm_pre_ff m) slots;
  do ff <- Sequential_forward (mlp m) normed;
  do slots <- broadcast slots ff;
  if t =? iters m - 2
  then do diff <- broadcast slots init_slots; broadcast diff init_slots
  else Ok slots.

Fixpoint rounds (m : t) (k v init_slots : shape) (ts : list Z) (slots : shape)
    : result shape :=
  match ts with
  | [] => Ok slots
  | t :: ts' =>
      do slots' <- round m k v init_slots t slots;
      rounds m k v init_slots ts' slots'
  end.

Definition forward (m : t) (inputs : shape) : result shape :=
  do inputs <- LayerNorm_forward (norm_input m) inputs;
  do k <- Linear_forward (project_k m) inputs;
  do v <- Linear_forward (project_v m) inputs;
  do '(b, n, d) <- unpack3 inputs;
  do init_slots <- expand (slots_embedding m) [b; -1; -1];
  do slots <- rounds m k v init_slots (range (iters m)) init_slots;
  Linear_forward (head m) slots.

End SlotAttention.

(** ** [PerceiverSampler] *)

Module PerceiverSampler.
Import Py Torch.

(** Modelled from the spec: [BertConfig] and [BertLMHeadModel] come from
    [modeling_sampler], which is not part of this file.  Of [BertConfig()]
    only the default [hidden_size] is used; it is a field of the record
    below.  Of the encoder, section 4.3 says that the learned query tokens
    attend over the encoder features: its last hidden state has the shape
    of the query tokens, one row per query, provided that the features are
    [batch x tokens x encoder_width] for the same batch and the mask covers
    them. *)
Record BertConfig := mkBertConfig { bert_hidden_size : Z }.

Record Qformer_t := mkQformer {
  hidden_size : Z;
  encoder_width : Z;
  query_length : Z
}.

Definition bert_forward (q : Qformer_t)
    (query_embeds encoder_hidden_states encoder_attention_mask : shape)
    : result shape :=
  match query_embeds, encoder_hidden_states, encoder_attention_mask with
  | [b; nq; h], [b'; n; w], [bm; nm] =>
      if (h =? hidden_size q) && (w =? encoder_width q)
         && (b' =? b) && (bm =? b) && (nm =? n)
      then Ok [b; nq; h] else Raise RuntimeError
  | _, _, _ => Raise RuntimeError
  end.

Record t := mk {
  Qformer : Qformer_t;
  query_tokens : shape;
  ln_vision : LayerNorm;
  head : Linear
}.

(** [init_qformer(cls, num_query_token, vision_width)] *)
Definition init_qformer (cfg : BertConfig) (num_query_token vision_width : Z)
    : Qformer_t * shape :=
  ({| hidden_size := bert_hidden_size cfg;
      encoder_width := vision_width;
      query_length := num_query_token |},
   [1; num_query_token; bert_hidden_size cfg]).

Definition init (cfg : BertConfig)
    (num_query_token num_vision_features out_size : Z) : t :=
  let '(qformer, query_tokens) :=
    init_qformer cfg num_query_token num_vision_features in
  {| Qformer := qformer;
     query_tokens := query_tokens;
     ln_vision := mkLayerNorm num_vision_features;
     head := mkLinear (hidden_size qformer) out_size |}.

Definition forward (m : t) (inputs : shape) : result shape :=
  do image_embeds <- LayerNorm_forward (ln_vision m) inputs;
  let image_atts := removelast image_embeds in
  do b <- size image_embeds 0;
  do query_tokens <- expand (query_tokens m) [b; -1; -1];
  do last_hidden_state <-
    bert_forward (Qformer m) query_tokens image_embeds image_atts;
  Linear_forward (head m) last_hidden_state.

End PerceiverSampler.

(** ** [MultiProjector] *)

Module MultiProjector.
Import Py.

(** [random.randint(a, b)]: [drawn] is the number the process-global
    generator yields, some integer with [a <= drawn <= b]; an empty range
    raises. *)
Definition randint (a b drawn : Z) : result Z :=
  if b <? a then Raise (ValueError "empty range for randrange()")
  else Ok drawn.

(** The assignment tensor has one column; it is the list of the entries of
    that column.  [torch.where(projector == v)[0]], the rows whose entry
    is [v], in increasing order: *)
Fixpoint where_from (i : Z) (projector : list Z) (v : Z) : list Z :=
  match projector with
  | [] => []
  | x :: rest =>
      (if x =? v then [i] else []) ++ where_from (i + 1) rest v
  end.

Definition where_eq (projector : list Z) (v : Z) : list Z :=
  where_from 0 projector v.

(** [projector[i, 0] = v], an in-place write into the caller's tensor. *)
Definition setitem (projector : list Z) (i v : Z) : result (list Z) :=
  if (0 <=? i) && (i <? Z.of_nat (length projector))
  then Ok (<[Z.to_nat i := v]> projector)
  else Raise IndexError.

(** [i in idx] for a tensor of indices *)
Definition contains (idx : list Z) (i : Z) : bool := existsb (Z.eqb i) idx.

(** The two [if len(...) == 0] branches that rewrite the assignment. *)
Definition rebalance (idx_mlp idx_sa projector : list Z) (drawn : Z)
    : result (list Z) :=
  if (length idx_mlp =? 0)%nat then
    do i <- randint 0 (Z.of_nat (length projector) - 1) drawn;
    setitem projector i 0
  else if (length idx_sa =? 0)%nat then
    do i <- randint 0 (Z.of_nat (length projector) - 1) drawn;
    setitem projector i 1
  else Ok projector.

Section Generic.
(** [forward] does not depend on what a tensor is: [X] is the type of the
    batch it receives, [Y] of the batch a branch returns, [F] of one
    element of such a batch. *)
Context {X Y F : Type}.
Variable mlp : X -> result Y.
Variable sa : X -> result Y.
(** [inputs.shape[0]] and [feat[i]] *)
Variable shape0 : X -> result Z.
Variable getitem : Y -> Z -> result F.

(** The two objects the caller owns and passes in: the assignment tensor
    ([None] when the argument is left out) and the features. *)
Record store := mkStore {
  projector : option (list Z);
  inputs : X
}.

Inductive output : Type :=
| Batch (y : Y)
| Elements (fs : list F).

(** [for i in range(inputs.shape[0])] with its two [append]s *)
Fixpoint collect (idx_mlp idx_sa : list Z) (feat_mlp feat_sa : Y)
    (rows : list Z) (out : list F) : result (list F) :=
  match rows with
  | [] => Ok out
  | i :: rows' =>
      do out <- (if contains idx_mlp i
                 then do f <- getitem feat_mlp i; Ok (out ++ [f])
                 else Ok out);
      do out <- (if contains idx_sa i
                 then do f <- getitem feat_sa i; Ok (out ++ [f])
                 else Ok out);
      collect idx_mlp idx_sa feat_mlp feat_sa rows' out
  end.

(** [forward(self, inputs, projector=None)]: what it returns or raises,
    and the store it leaves. *)
Definition forward (training : bool) (drawn : Z) (st : store)
    : result output * store :=
  if negb training then
    (do y <- mlp (inputs st); Ok (Batch y), st)
  else
    match projector st with
    | None => (Raise TypeError, st)
    | Some p =>
        let idx_mlp := where_eq p 0 in
        let idx_sa := where_eq p 1 in
        match mlp (inputs st) with
        | Raise e => (Raise e, st)
        | Ok feat_mlp =>
        match sa (inputs st) with
        | Raise e => (Raise e, st)
        | Ok feat_sa =>
        match rebalance idx_mlp idx_sa p drawn with
        | Raise e => (Raise e, st)
        | Ok p' =>
            let st' := mkStore (Some p') (inputs st) in
            let idx_mlp := where_eq p' 0 in
            let idx_sa := where_eq p' 1 in
            (do b <- shape0 (inputs st);
             do out <- collect idx_mlp idx_sa feat_mlp feat_sa (range b) [];
             do _ <- assert (Z.of_nat (length out) =? b);
             Ok (Elements out),
             st')
        end end end
    end.
End Generic.

Arguments store : clear implicits.
Arguments output : clear implicits.

(** The module object: [nn.Module] starts in training mode; [eval()] and
    [train()] switch the flag. *)
Record t := mk {
  training : bool;
  mlp : Torch.Sequential;
  sa : SlotAttention.t
}.

Definition init (mlp : Torch.Sequential) (sa : SlotAttention.t) : t :=
  {| training := true; mlp := mlp; sa := sa |}.

Definition set_training (mode : bool) (m : t) : t :=
  {| training := mode; mlp := mlp m; sa := sa m |}.

(** [forward] on shapes. *)
Definition forward_shape (m : t) (drawn : Z) (st : store Torch.shape)
    : result (output Torch.shape Torch.shape) * store Torch.shape :=
  forward (Torch.Sequential_forward (mlp m)) (SlotAttention.forward (sa m))
          (fun x => Torch.size x 0) Torch.getitem
          (training m) drawn st.

(** [forward] on batches given sample by sample: both branches treat a
    batch element by element ([f] is what [self.mlp] makes of one sample,
    [g] what [self.sa] makes of it), [feat[i]] is the [i]-th element. *)
Section Samples.
Context {A F : Type}.
Variable f g : A -> F.

Definition getitem_sample (feat : list F) (i : Z) : result F :=
  if i <? 0 then Raise IndexError
  else match feat !! Z.to_nat i with
       | Some x => Ok x
       | None => Raise IndexError
       end.

Definition forward_samples (training : bool) (drawn : Z)
    (st : store (list A)) : result (output (list F) F) * store (list A) :=
  forward (fun xs => Ok (map f xs)) (fun xs => Ok (map g xs))
          (fun xs => Ok (Z.of_nat (length xs))) getitem_sample
          training drawn st.
End Samples.

End MultiProjector.

(* ===================================================================== *)
(** * Tensors as an interface *)
(* ===================================================================== *)

(** [get_abs_pos] and the pooling of [PoolProjector] are written once,
    against the operations they call.  The operations are interpreted on
    shapes here, and on tensors that carry their entries in [Grid]. *)

Module Tensor.
Import Py.

Class Ops (T : Type) := {
  shape_of : T -> Torch.shape;
  view : T -> list Z -> result T;
  permute : T -> list nat -> result T;
  mean : T -> nat -> bool -> result T;
  interpolate : T -> Z -> Z -> result T;
  flatten_to : T -> nat -> result T;
  cat : list T -> nat -> result T
}.

#[global] Instance shape_ops : Ops Torch.shape := {|
  shape_of := fun s => s;
  view := Torch.view;
  permute := Torch.permute;
  mean := Torch.reduce;
  interpolate := Torch.interpolate;
  flatten_to := Torch.flatten_to;
  cat := Torch.cat
|}.

Definition size {T} `{Ops T} (x : T) (i : nat) : result Z :=
  Torch.size (shape_of x) i.

Definition size_last {T} `{Ops T} (x : T) : result Z :=
  Torch.size_last (shape_of x).

Definition ndim {T} `{Ops T} (x : T) : nat := length (shape_of x).

End Tensor.

(** ** [get_abs_pos] *)

Section GetAbsPos.
Import Py.
Context {T : Type} `{Tensor.Ops T}.

(** [abs_pos] is [L x C], [tgt_size] is [M]. *)
Definition get_abs_pos (abs_pos : T) (tgt_size : Z) : result T :=
  do l <- Tensor.size abs_pos 0;
  do src_size <- int_sqrt l;
  do tgt_size <- int_sqrt tgt_size;
  if negb (src_size =? tgt_size) then
    do x <- Tensor.view abs_pos [1; src_size; src_size; -1];
    do x <- Tensor.permute x [0; 3; 1; 2]%nat;
    do x <- Tensor.interpolate x tgt_size tgt_size;
    do x <- Tensor.permute x [0; 2; 3; 1]%nat;
    Tensor.flatten_to x 2
  else
    Ok abs_pos.
End GetAbsPos.

(** ** The sine-cosine position table (numpy arrays, on shapes) *)

Module PosEmbed.
Import Py Torch.

(** [get_1d_sincos_pos_embed_from_grid(embed_dim, pos)] *)
Definition get_1d_sincos_pos_embed_from_grid (embed_dim : Z) (pos : shape)
    : result shape :=
  do _ <- assert (embed_dim mod 2 =? 0);
  let omega := [Z.max 0 (embed_dim / 2)] in
  do pos <- view pos [-1];
  let out := pos ++ omega in
  cat [out; out] 1.

(** [get_2d_sincos_pos_embed_from_grid(embed_dim, grid)]; [grid[0]] and
    [grid[1]] have the shape of [grid] without its first size. *)
Definition get_2d_sincos_pos_embed_from_grid (embed_dim : Z) (grid : shape)
    : result shape :=
  do _ <- assert (embed_dim mod 2 =? 0);
  do g0 <- getitem grid 0;
  do emb_h <- get_1d_sincos_pos_embed_from_grid (embed_dim / 2) g0;
  do g1 <- getitem grid 1;
  do emb_w <- get_1d_sincos_pos_embed_from_grid (embed_dim / 2) g1;
  cat [emb_h; emb_w] 1.

(** [get_2d_sincos_pos_embed(embed_dim, grid_size)], with [cls_token=False] *)
Definition get_2d_sincos_pos_embed (embed_dim grid_size : Z) : result shape :=
  let n := Z.max 0 grid_size in
  let grid := [2; n; n] in
  do grid <- view grid [2; 1; grid_size; grid_size];
  get_2d_sincos_pos_embed_from_grid embed_dim grid.

End PosEmbed.

(** ** [QwenResampler] *)

Module QwenResampler.
Import Py Torch.

Record t := mk {
  num_queries : Z;
  embed_dim : Z;
  num_heads : Z;
  pos_embed : shape;
  query : shape;
  (** [None]: the attribute was never set *)
  src_kv_proj : option Linear;
  (** [None]: [nn.Identity()] *)
  kv_proj : option Linear;
  attn : MultiheadAttention;
  ln_q : LayerNorm;
  ln_kv : LayerNorm;
  ln_post : LayerNorm;
  proj_scale : pow_neg_half;
  proj : shape
}.

(** [__init__(self, grid_size, embed_dim, num_heads, kv_dim, tgt_embed_dim,
    src_kv_dim)]; [kv_dim] may be [None]. *)
Definition init (grid_size embed_dim num_heads : Z) (kv_dim : option Z)
    (tgt_embed_dim src_kv_dim : Z) : result t :=
  let num_queries := grid_size ^ 2 in
  do pos_embed <- PosEmbed.get_2d_sincos_pos_embed embed_dim grid_size;
  let query := [num_queries; embed_dim] in
  let '(src_kv_proj, kv_proj) :=
    match kv_dim with
    | Some kv =>
        if negb (kv =? embed_dim)
        then (Some (mkLinear src_kv_dim kv), Some (mkLinear kv embed_dim))
        else (None, None)
    | None => (None, None)
    end in
  do attn <- MultiheadAttention_init embed_dim num_heads;
  do proj_scale <- pow_neg_half_of tgt_embed_dim;
  Ok {| num_queries := num_queries;
        embed_dim := embed_dim;
        num_heads := num_heads;
        pos_embed := pos_embed;
        query := query;
        src_kv_proj := src_kv_proj;
        kv_proj := kv_proj;
        attn := attn;
        ln_q := mkLayerNorm embed_dim;
        ln_kv := mkLayerNorm embed_dim;
        ln_post := mkLayerNorm embed_dim;
        proj_scale := proj_scale;
        proj := [embed_dim; tgt_embed_dim] |}.

(** [_repeat(self, query, N)] *)
Definition _repeat (query : shape) (n : Z) : result shape :=
  do q <- unsqueeze query 1;
  repeat q [1; n; 1].

(** [forward(self, x, attn_mask=None)] *)
Definition forward (m : t) (x : shape) : result shape :=
  do n_tokens <- size x 1;
  do pos_embed <- get_abs_pos (pos_embed m) n_tokens;
  do src <- getattr "src_kv_proj" (src_kv_proj m);
  do x <- Linear_forward src x;
  do x <- match kv_proj m with
          | Some l => Linear_forward l x
          | None => Ok x
          end;
  do x <- LayerNorm_forward (ln_kv m) x;
  do x <- permute x [1; 0; 2]%nat;
  do n <- size x 1;
  do q <- LayerNorm_forward (ln_q m) (query m);
  do rq <- _repeat q n;
  do pe_q <- unsqueeze (QwenResampler.pos_embed m) 1;
  do queries <- broadcast rq pe_q;
  do pe_k <- unsqueeze pos_embed 1;
  do keys <- broadcast x pe_k;
  do out <- MultiheadAttention_forward (attn m) queries keys x;
  do out <- permute out [1; 0; 2]%nat;
  do out <- LayerNorm_forward (ln_post m) out;
  matmul out (proj m).

End QwenResampler.

(** ** The projectors built around an MLP *)

(** Three [forward] methods share, line for line, the same five statements
    on a pair [concat_images], [concat_features]: flatten both to rows,
    concatenate, apply the MLP, cut the rows back in two and restore the
    first two sizes of each.  The second cut reads the sizes of the already
    rebuilt [concat_images]. *)
Definition combine_project (mlp : Torch.Sequential)
    (concat_images concat_features : Torch.shape)
    : Py.result (Torch.shape * Torch.shape) :=
  let view := Torch.view in
  do ci <- Torch.size_last concat_images;
  do rows_i <- view concat_images [-1; ci];
  do cf <- Torch.size_last concat_features;
  do rows_f <- view concat_features [-1; cf];
  do concat_combine <- Torch.cat [rows_i; rows_f] 0;
  do concat_combine <- Torch.Sequential_forward mlp concat_combine;
  do i0 <- Torch.size concat_images 0;
  do i1 <- Torch.size concat_images 1;
  do head <- Torch.slice0 concat_combine None (Some (i0 * i1));
  do concat_images <- view head (firstn 2 concat_images ++ [-1]);
  do j0 <- Torch.size concat_images 0;
  do j1 <- Torch.size concat_images 1;
  do tail <- Torch.slice0 concat_combine (Some (j0 * j1)) None;
  do concat_features <- view tail (firstn 2 concat_features ++ [-1]);
  Py.Ok (concat_images, concat_features).

(** [a, b = inputs] *)
Definition unpack_pair {A} (xs : list A) : Py.result (A * A) :=
  match xs with
  | [a; b] => Py.Ok (a, b)
  | _ => Py.Raise (Py.ValueError "unpack")
  end.

Module CompressProjector.
Import Py Torch.

Record t := mk {
  mlp : Sequential;
  num_slot : Z;
  query : shape
}.

Definition init (mlp : Sequential) (num_slot embed_dim : Z) : t :=
  {| mlp := mlp; num_slot := num_slot; query := [num_slot; embed_dim] |}.

(** [torch.cat([x, self.query.expand(x.shape[0], -1, -1)], dim=1)] *)
Definition append_query (m : t) (x : shape) : result shape :=
  do b <- size x 0;
  do q <- expand (query m) [b; -1; -1];
  cat [x; q] 1.

Definition forward (m : t) (inputs : value) : result value :=
  match inputs with
  | TensorList xs =>
      do '(concat_images, concat_features) <- unpack_pair xs;
      do '(concat_images, concat_features) <-
        combine_project (mlp m) concat_images concat_features;
      do concat_images <- append_query m concat_images;
      do concat_features <- append_query m concat_features;
      Ok (TensorList [concat_images; concat_features])
  | Tensor inputs =>
      do output <- Sequential_forward (mlp m) inputs;
      do output <- append_query m output;
      Ok (Tensor output)
  | NoneValue => Raise TypeError
  end.

End CompressProjector.

Module PoolProjector.
Import Py.

Record t := mk {
  mlp : Torch.Sequential;
  pool_num : Z;
  resolution : Z
}.

Definition init (mlp : Torch.Sequential) (resolution pool_num : Z) : t :=
  {| mlp := mlp; pool_num := pool_num; resolution := resolution |}.

Section Pooling.
Context {T : Type} `{Tensor.Ops T}.
Variable resolution pool_num : Z.

(** One [item] of the list, [k x c]: the block means [slot], [tp x c]. *)
Definition item_slot (item : T) : result T :=
  do k <- Tensor.size item 0;
  do t <- floordiv k resolution;
  do c <- Tensor.size_last item;
  do h <- np_int_sqrt resolution;
  do grid <- np_int_sqrt pool_num;
  do feat <- Tensor.view item [t; resolution; c];
  do feat <- Tensor.view feat [t; h; h; c];
  do hg <- floordiv h grid;
  do feat <- Tensor.view feat [t; grid; hg; grid; hg; c];
  do feat <- Tensor.permute feat [0; 1; 3; 2; 4; 5]%nat;
  do rp <- floordiv resolution pool_num;
  do feat <- Tensor.view feat [t; pool_num; rp; c];
  do means <- Tensor.mean feat (Tensor.ndim feat - 2) false;
  Tensor.view means [t * pool_num; c].

(** The body of [for item in inputs]: [concat_feat], [tk+tp+1 x c]. *)
Definition item_concat (item : T) : result T :=
  do slot <- item_slot item;
  do slot_global <- Tensor.mean item 0 true;
  Tensor.cat [item; slot; slot_global] 0.

(** A batch [inputs], [n x k x c]: the block means [slot]. *)
Definition batch_slot (inputs : T) : result T :=
  do '(n, k, c) <- SlotAttention.unpack3 (Tensor.shape_of inputs);
  do h <- np_int_sqrt resolution;
  do grid <- np_int_sqrt pool_num;
  do t <- floordiv k resolution;
  do maps <- Tensor.view inputs [n; t; h; h; c];
  do hg <- floordiv h grid;
  do maps <- Tensor.view maps [n; t; grid; hg; grid; hg; c];
  do maps <- Tensor.permute maps [0; 1; 2; 4; 3; 5; 6]%nat;
  do rp <- floordiv resolution pool_num;
  do maps <- Tensor.view maps [n; t; pool_num; rp; c];
  do means <- Tensor.mean maps (Tensor.ndim maps - 2) false;
  Tensor.view means [n; t * pool_num; c].

(** [torch.cat([inputs, slot, global_pool], dim=1)] *)
Definition batch_concat (inputs : T) : result T :=
  do slot <- batch_slot inputs;
  do global_pool <- Tensor.mean inputs 1 true;
  Tensor.cat [inputs; slot; global_pool] 1.
End Pooling.

Import Torch.

Fixpoint map_result {A B} (f : A -> result B) (xs : list A) : result (list B) :=
  match xs with
  | [] => Ok []
  | x :: xs' => do y <- f x; do ys <- map_result f xs'; Ok (y :: ys)
  end.

(** The second loop: [concat_proj] is cut at the row counts of the
    members of [concat_combine]. *)
Fixpoint split_rows (concat_proj : shape) (feat_index : Z)
    (concat_combine : list shape) : result (list shape) :=
  match concat_combine with
  | [] => Ok []
  | item :: rest =>
      do rows <- size item 0;
      do piece <-
        slice0 concat_proj (Some feat_index) (Some (feat_index + rows));
      do pieces <- split_rows concat_proj (feat_index + rows) rest;
      Ok (piece :: pieces)
  end.

Definition forward (m : t) (inputs : value) : result value :=
  match inputs with
  | TensorList items =>
      do concat_combine <-
        map_result (item_concat (resolution m) (pool_num m)) items;
      do all_rows <- cat concat_combine 0;
      do concat_proj <- Sequential_forward (mlp m) all_rows;
      do concat_result <- split_rows concat_proj 0 concat_combine;
      Ok (TensorList concat_result)
  | Tensor inputs =>
      do x <- batch_concat (resolution m) (pool_num m) inputs;
      do output <- Sequential_forward (mlp m) x;
      Ok (Tensor output)
  | NoneValue => Raise (AttributeError "shape")
  end.

End PoolProjector.

Module BaseProjector.
Import Py Torch.

Record t := mk { mlp : Sequential }.

Definition init (mlp : Sequential) : t := {| mlp := mlp |}.

Definition forward (m : t) (inputs : value) : result value :=
  match inputs with
  | TensorList xs =>
      do '(concat_images, concat_features) <- unpack_pair xs;
      do time_token <- reduce concat_features 2 false;
      do spatial_token <- reduce concat_features 1 false;
      do concat_features <- cat [time_token; spatial_token] 1;
      do '(concat_images, concat_features) <-
        combine_project (mlp m) concat_images concat_features;
      Ok (TensorList [concat_images; concat_features])
  | Tensor inputs =>
      if (length inputs =? 3)%nat then
        do output <- Sequential_forward (mlp m) inputs;
        Ok (Tensor output)
      else if (length inputs =? 4)%nat then
        do time_token <- reduce inputs 2 false;
        do spatial_token <- reduce inputs 1 false;
        do token <- cat [time_token; spatial_token] 1;
        do output <- Sequential_forward (mlp m) token;
        Ok (Tensor output)
      else Ok NoneValue
  | NoneValue => Raise (AttributeError "ndim")
  end.

End BaseProjector.

Module BaseMixProjector.
Import Py Torch.

Record t := mk { mlp : Sequential }.

Definition init (mlp : Sequential) : t := {| mlp := mlp |}.

(** [n, t, k, c = x.shape] *)
Definition unpack4 (s : shape) : result (Z * Z * Z * Z) :=
  match s with
  | [n; t; k; c] => Ok (n, t, k, c)
  | _ => Raise (ValueError "unpack")
  end.

Definition forward (m : t) (inputs : value) : result value :=
  match inputs with
  | TensorList xs =>
      do '(concat_images, concat_features) <- unpack_pair xs;
      do '(n, t, k, c) <- unpack4 concat_features;
      do concat_features <- view concat_features [n; t * k; c];
      do '(concat_images, concat_features) <-
        combine_project (mlp m) concat_images concat_features;
      Ok (TensorList [concat_images; concat_features])
  | Tensor inputs =>
      if (length inputs =? 3)%nat then
        do output <- Sequential_forward (mlp m) inputs;
        Ok (Tensor output)
      else if (length inputs =? 4)%nat then
        do '(n, t, k, c) <- unpack4 inputs;
        do token <- view inputs [n; t * k; c];
        do output <- Sequential_forward (mlp m) token;
        Ok (Tensor output)
      else Ok NoneValue
  | NoneValue => Raise (AttributeError "ndim")
  end.

End BaseMixProjector.

(* ===================================================================== *)
(** * [build_vision_projector] *)
(* ===================================================================== *)

Module Factory.
Import Py Torch.

(** The configuration object.  [mm_hidden_size] and [hidden_size] are
    always there; the other attributes may be unset. *)
Record Config := mkConfig {
  mm_projector_type : option string;
  mm_hidden_size : Z;
  hidden_size : Z;
  n_slot : option Z;
  resolution : option Z;
  pool_num : option Z
}.

(** What the factory returns. *)
Inductive Projector : Type :=
| Linear_ (m : Linear)
| Sequential_ (m : Sequential)
| IdentityMap_
| SlotAttention_ (m : SlotAttention.t)
| PerceiverSampler_ (m : PerceiverSampler.t)
| MultiProjector_ (m : MultiProjector.t)
| CompressProjector_ (m : CompressProjector.t)
| PoolProjector_ (m : PoolProjector.t)
| BaseProjector_ (m : BaseProjector.t)
| BaseMixProjector_ (m : BaseMixProjector.t)
| QwenResampler_ (m : QwenResampler.t).

(** [modules = [nn.Linear(first, hidden)]] followed by
    [for _ in range(1, mlp_depth): modules.append(nn.GELU());
    modules.append(nn.Linear(hidden, hidden))] *)
Definition mlp_modules (first hidden mlp_depth : Z) : Sequential :=
  fold_left
    (fun modules _ =>
       (modules ++ [GELU]) ++ [LinearLayer (mkLinear hidden hidden)])
    (range_from 1 mlp_depth)
    [LinearLayer (mkLinear first hidden)].

Definition unknown_projector_type (projector_type : string) : string :=
  ("Unknown projector type: " ++ projector_type)%string.

(** [build_vision_projector(config)].  [bert] is [BertConfig()], which
    [PerceiverSampler] reads. *)
Definition build_vision_projector (bert : PerceiverSampler.BertConfig)
    (config : Config) : result Projector :=
  let projector_type := getattr_default (mm_projector_type config) "linear" in
  if String.eqb projector_type "linear" then
    Ok (Linear_ (mkLinear (mm_hidden_size config) (hidden_size config)))
  else
  match re_match_mlp_gelu projector_type with
  | Some group1 =>
      do mlp_depth <- int group1;
      Ok (Sequential_
            (mlp_modules (mm_hidden_size config) (hidden_size config)
               mlp_depth))
  | None =>
  if String.eqb projector_type "identity" then
    Ok IdentityMap_
  else if String.eqb projector_type "slot" then
    do n <- getattr "n_slot" (n_slot config);
    do sa <- SlotAttention.init n (mm_hidden_size config) 3
               (hidden_size config) (hidden_size config)
               SlotAttention.default_eps;
    Ok (SlotAttention_ sa)
  else if String.eqb projector_type "perceiver" then
    do n <- getattr "n_slot" (n_slot config);
    Ok (PerceiverSampler_
          (PerceiverSampler.init bert n (mm_hidden_size config)
             (hidden_size config)))
  else if String.eqb projector_type "mlpslot" then
    let mlp := mlp_modules (mm_hidden_size config) (hidden_size config) 2 in
    do n <- getattr "n_slot" (n_slot config);
    do sa <- SlotAttention.init n (mm_hidden_size config) 3
               (hidden_size config) (hidden_size config)
               SlotAttention.default_eps;
    Ok (MultiProjector_ (MultiProjector.init mlp sa))
  else if String.eqb projector_type "compress" then
    let mlp :=
      mlp_modules (4 * mm_hidden_size config) (hidden_size config) 2 in
    do n <- getattr "n_slot" (n_slot config);
    Ok (CompressProjector_ (CompressProjector.init mlp n (hidden_size config)))
  else if String.eqb projector_type "pool" then
    let mlp :=
      mlp_modules (4 * mm_hidden_size config) (hidden_size config) 2 in
    let pool_num :=
      if hasattr (pool_num config)
      then getattr_default (pool_num config) 1 else 1 in
    do res <- getattr "resolution" (resolution config);
    Ok (PoolProjector_ (PoolProjector.init mlp res pool_num))
  else if String.eqb projector_type "base" then
    let mlp := mlp_modules (mm_hidden_size config) (hidden_size config) 2 in
    Ok (BaseProjector_ (BaseProjector.init mlp))
  else if String.eqb projector_type "base_mix" then
    let mlp :=
      mlp_modules (4 * mm_hidden_size config) (hidden_size config) 2 in
    Ok (BaseMixProjector_ (BaseMixProjector.init mlp))
  else if String.eqb projector_type "resampler" then
    do n <- getattr "n_slot" (n_slot config);
    do grid_size <- int_sqrt n;
    do m <- QwenResampler.init grid_size 4096 (4096 / 128) (Some 1664)
              (hidden_size config) (mm_hidden_size config);
    Ok (QwenResampler_ m)
  else
    Raise (ValueError (unknown_projector_type projector_type))
  end.

(** Calling what the factory returned: [m(inputs)], and
    [m(inputs, projector)] for the classes whose [forward] declares that
    argument.  The classes that work on one tensor raise on a list. *)
Definition on_tensor (f : shape -> result shape) (inputs : value)
    : result value :=
  match inputs with
  | Tensor x => do y <- f x; Ok (Tensor y)
  | _ => Raise TypeError
  end.

Definition forward (m : Projector) (inputs : value)
    (projector : option (list Z)) (drawn : Z) : result value :=
  match m with
  | Linear_ l => on_tensor (Linear_forward l) inputs
  | Sequential_ s => on_tensor (Sequential_forward s) inputs
  | IdentityMap_ => IdentityMap.forward inputs
  | SlotAttention_ sa => on_tensor (SlotAttention.forward sa) inputs
  | PerceiverSampler_ ps => on_tensor (PerceiverSampler.forward ps) inputs
  | MultiProjector_ mp =>
      match inputs with
      | Tensor x =>
          do out <- fst (MultiProjector.forward_shape mp drawn
                           (MultiProjector.mkStore projector x));
          match out with
          | MultiProjector.Batch y => Ok (Tensor y)
          | MultiProjector.Elements fs => Ok (TensorList fs)
          end
      | _ => Raise TypeError
      end
  | CompressProjector_ cp => CompressProjector.forward cp inputs
  | PoolProjector_ pp => PoolProjector.forward pp inputs
  | BaseProjector_ bp => BaseProjector.forward bp inputs
  | BaseMixProjector_ bp => BaseMixProjector.forward bp inputs
  | QwenResampler_ q => on_tensor (QwenResampler.forward q) inputs
  end.

(** [m.train(mode)]; [m.eval()] is [m.train(False)].  Only
    [MultiProjector.forward] reads the flag. *)
Definition train (mode : bool) (m : Projector) : Projector :=
  match m with
  | MultiProjector_ mp => MultiProjector_ (MultiProjector.set_training mode mp)
  | _ => m
  end.

End Factory.

(* ===================================================================== *)
(** * Tensors with their entries *)
(* ===================================================================== *)

(** A tensor is its shape and its entries in row-major order.  The entries
    are of an arbitrary type [E]; the model fixes which entries an operation
    reads and where it writes its results, and leaves the arithmetic to two
    functions: [mean_entries], what [torch.mean] makes of the entries it
    reduces (given in the order of the reduced dimension), and [bicubic],
    the entries [F.interpolate] computes.  [pad] is what a read outside the
    data yields; a tensor with as many entries as its shape announces is
    never read outside. *)

Module Grid.
Import Py.

Definition prod (ns : list nat) : nat := fold_right Nat.mul 1%nat ns.

(** Row-major position of a multi-index, and back. *)
Fixpoint ravel (sizes idx : list nat) : nat :=
  match sizes, idx with
  | _ :: sizes', i :: idx' => (i * prod sizes' + ravel sizes' idx')%nat
  | _, _ => O
  end.

Fixpoint unravel (sizes : list nat) (j : nat) : list nat :=
  match sizes with
  | [] => []
  | _ :: sizes' =>
      (j / prod sizes')%nat :: unravel sizes' (j mod prod sizes')%nat
  end.

(** The position of [a] in [dims]. *)
Fixpoint index_of (a : nat) (dims : list nat) : nat :=
  match dims with
  | [] => O
  | d :: dims' => if (d =? a)%nat then O else S (index_of a dims')
  end.

(** The index read by [x.permute(dims)] at the index [idx]: its
    coordinate along the axis [a] of [x] is the coordinate of [idx] at the
    place where [dims] names [a]. *)
Definition source_index (dims idx : list nat) : list nat :=
  map (fun a => nth (index_of a dims) idx O) (seq 0 (length dims)).

Section Entries.
Variable E : Type.
Variable mean_entries : list E -> E.
Variable bicubic : Torch.shape -> Z -> Z -> list E -> list E.
Variable pad : E.

Record tensor := mkTensor { dims : Torch.shape; data : list E }.

Definition sizes (x : tensor) : list nat := map Z.to_nat (dims x).

(** [x[idx]] *)
Definition entry (x : tensor) (idx : list nat) : E :=
  nth (ravel (sizes x) idx) (data x) pad.

Definition view (x : tensor) (new_sizes : list Z) : result tensor :=
  do d <- Torch.view (dims x) new_sizes;
  Ok (mkTensor d (data x)).

Definition flatten_to (x : tensor) (k : nat) : result tensor :=
  do d <- Torch.flatten_to (dims x) k;
  Ok (mkTensor d (data x)).

Definition permute (x : tensor) (axes : list nat) : result tensor :=
  do d <- Torch.permute (dims x) axes;
  let new := map Z.to_nat d in
  Ok (mkTensor d
        (map (fun j => entry x (source_index axes (unravel new j)))
             (seq 0 (prod new)))).

(** Reduction along the axis [i]: with [outer] the number of indices
    before it, [d] its size and [inner] the number of indices after it,
    result [(o, n)] is the mean of the entries [(o, r, n)], [r < d]. *)
Definition mean (x : tensor) (i : nat) (keepdim : bool) : result tensor :=
  do s <- Torch.reduce (dims x) i keepdim;
  let outer := prod (firstn i (sizes x)) in
  let d := nth i (sizes x) O in
  let inner := prod (skipn (S i) (sizes x)) in
  Ok (mkTensor s
        (map (fun p =>
                mean_entries
                  (map (fun r =>
                          nth (((p / inner) * d + r) * inner + p mod inner)%nat
                              (data x) pad)
                       (seq 0 d)))
             (seq 0 (outer * inner)))).

(** Concatenation along the axis [i]: for each index before the axis, the
    block of each tensor in turn. *)
Definition block (i o : nat) (x : tensor) : list E :=
  let len := prod (skipn i (sizes x)) in
  firstn len (skipn (o * len) (data x)).

Definition cat (xs : list tensor) (i : nat) : result tensor :=
  do s <- Torch.cat (map dims xs) i;
  let outer := prod (firstn i (map Z.to_nat s)) in
  Ok (mkTensor s
        (concat (map (fun o => concat (map (block i o) xs)) (seq 0 outer)))).

Definition interpolate (x : tensor) (h w : Z) : result tensor :=
  do s <- Torch.interpolate (dims x) h w;
  Ok (mkTensor s (bicubic (dims x) h w (data x))).

#[global] Instance tensor_ops : Tensor.Ops tensor := {|
  Tensor.shape_of := dims;
  Tensor.view := view;
  Tensor.permute := permute;
  Tensor.mean := mean;
  Tensor.interpolate := interpolate;
  Tensor.flatten_to := flatten_to;
  Tensor.cat := cat
|}.

(** The table with [rows] rows of [c] entries whose entry [(i, ch)] is
    [X (i * c + ch)]. *)
Definition table (X : nat -> E) (rows c : nat) : tensor :=
  mkTensor [Z.of_nat rows; Z.of_nat c] (map X (seq 0 (rows * c))).

(** The batch of [n] such tables. *)
Definition tables (X : nat -> E) (n rows c : nat) : tensor :=
  mkTensor [Z.of_nat n; Z.of_nat rows; Z.of_nat c]
           (map X (seq 0 (n * rows * c))).
End Entries.

Arguments dims {E} _.
Arguments data {E} _.
Arguments mkTensor {E} _ _.

End Grid.

(* ===================================================================== *)
(** * The attention weights of [SlotAttention], over the reals *)
(* ===================================================================== *)

(** One element of the batch: [q] has one row per slot, [k] one row per
    input token.  Floating-point entries are read as real numbers: the
    rounding of float32, and a softmax weight that underflows to zero, are
    not in these definitions. *)

Module Attn.
Local Open Scope R_scope.

Definition sum (xs : list R) : R := fold_right Rplus 0 xs.

(** [self.scale = encoder_dims ** -0.5] *)
Definition scale_value (s : Py.pow_neg_half) : R :=
  match s with Py.PowNegHalf base => / sqrt (IZR base) end.

(** [torch.einsum('bid,bjd->bij', q, k) * self.scale] *)
Definition dot (x y : list R) : R := sum (zip_with Rmult x y).

Definition dots (scale : R) (q k : list (list R)) : list (list R) :=
  map (fun q_i => map (fun k_j => dot q_i k_j * scale) k) q.

(** Column [j], that is, the entries along dimension 1 (the slots). *)
Definition column (j : nat) (m : list (list R)) : list R :=
  map (fun row => nth j row 0) m.

(** [dots.softmax(dim=1)] *)
Definition softmax_dim1 (m : list (list R)) : list (list R) :=
  map (fun row => imap (fun j x => exp x / sum (map exp (column j m))) row) m.

(** [... + self.eps] *)
Definition add_eps (eps : R) (m : list (list R)) : list (list R) :=
  map (map (fun x => x + eps)) m.


(** [attn / attn.sum(dim=-1, keepdim=True)] *)
Definition renormalize (m : list (list R)) : list (list R) :=
  map (fun row => map (fun x => x / sum row) row) m.

(** [attn] before and after the renormalisation, in one round. *)
Definition attn_eps (m : SlotAttention.t) (q k : list (list R))
    : list (list R) :=
  add_eps (Q2R (SlotAttention.eps m))
          (softmax_dim1 (dots (scale_value (SlotAttention.scale m)) q k)).

Definition attn (m : SlotAttention.t) (q k : list (list R)) : list (list R) :=
  renormalize (attn_eps m q k).

End Attn.

(* ===================================================================== *)
(** * The attention weights as the specification words them *)
(* ===================================================================== *)

(** Written from the sentence of the specification, entry by entry, and
    not from the code: slot [i], input token [j], [C] channels. *)

Module Weights.
Local Open Scope R_scope.

(** The sum of [f 0], ..., [f (n - 1)]. *)
Definition total (n : nat) (f : nat -> R) : R :=
  fold_right Rplus 0 (map f (seq 0 n)).

(** [C^-0.5] *)
Definition scale (C : Z) : R := Rpower (IZR C) (- (1 / 2)).

(** [query . key] *)
Definition inner (C : Z) (x y : list R) : R :=
  total (Z.to_nat C) (fun d => nth d x 0 * nth d y 0).






End Weights.

(* ===================================================================== *)
(** * The vocabulary of the specification *)
(* ===================================================================== *)

(** The type strings the specification lists, and what it calls a
    well-shaped input of each projector. *)

Module Spec.
Import Py Torch Factory.

Fixpoint all_digits (s : string) : bool :=
  match s with
  | EmptyString => true
  | String c r => is_digit c && all_digits r
  end.

(** [mlp{N}x_gelu], for [N] written with the digits [ds] *)
Definition mlp_gelu_name (ds : string) : string :=
  ("mlp" ++ ds ++ "x_gelu")%string.

Definition is_mlp_gelu_name (s : string) : bool :=
  match strip_prefix "mlp" s with
  | Some r =>
      let '(ds, rest) := span_digits r in
      negb (String.eqb ds "") && String.eqb rest "x_gelu"
  | None => false
  end.

Definition named_types : list string :=
  ["linear"; "identity"; "slot"; "perceiver"; "mlpslot"; "compress";
   "pool"; "base"; "base_mix"; "resampler"].

Definition recognized (s : string) : bool :=
  existsb (String.eqb s) named_types || is_mlp_gelu_name s.

(** The variants whose constructor reads [config.n_slot]. *)
Definition needs_n_slot (s : string) : bool :=
  existsb (String.eqb s)
          ["slot"; "perceiver"; "mlpslot"; "compress"; "resampler"].

(** A size of the configuration: at least 1, and below [2^52], so that
    four times the size fits a signed 64-bit integer and
    [int(math.sqrt(_))] is exact on it. *)
Definition dim (n : Z) : bool := (1 <=? n) && (n <? 2 ^ 52).

(** The number in a name [mlp{N}...] has no more digits than [int]
    converts. *)
Definition digits_ok (s : string) : bool :=
  match strip_prefix "mlp" s with
  | Some r =>
      (String.length (fst (span_digits r)) <=? int_max_str_digits)%nat
  | None => true
  end.

(** A configuration for the type [s]: the widths are sizes, the attributes
    the variant reads are set ([n_slot], a size; [resolution]), and the
    depth of an MLP is written with digits that [int] converts. *)
Definition config_ok (s : string) (c : Config) : bool :=
  dim (mm_hidden_size c) && dim (hidden_size c)
  && (if needs_n_slot s
      then match n_slot c with Some n => dim n | None => false end
      else true)
  && (if String.eqb s "pool" then hasattr (resolution c) else true)
  && digits_ok s.

Definition positive (s : shape) : bool := forallb (fun d => 1 <=? d) s.

(** The width an MLP expects. *)
Definition in_width (m : Sequential) : Z :=
  match m with
  | LinearLayer l :: _ => in_features l
  | _ => 0
  end.

(** [resolution] is a square [h*h], [pool_num] a square [g*g], and [g]
    divides [h]. *)
Definition grid_ok (m : PoolProjector.t) : bool :=
  let res := PoolProjector.resolution m in
  let pool := PoolProjector.pool_num m in
  (1 <=? res) && (1 <=? pool)
  && (Z.sqrt res * Z.sqrt res =? res)
  && (Z.sqrt pool * Z.sqrt pool =? pool)
  && (Z.sqrt res mod Z.sqrt pool =? 0).

Definition binary (p : list Z) : bool :=
  forallb (fun v => (v =? 0) || (v =? 1)) p.

(** Well-shaped inputs.  Sizes are positive and the channel width is the
    one the projector expects.  A single tensor is [batch x tokens x
    channels] (any rank for a plain MLP; with a time axis before the tokens
    where a projector takes video as one tensor); a list is what the
    projector iterates or unpacks.  In training mode [MultiProjector] takes
    a binary assignment with one entry per sample.  [PoolProjector] takes
    whole frames on a grid that [grid_ok] accepts; the resampler takes a
    square number of tokens, below [2^52]. *)
Definition well_shaped (m : Projector) (inputs : value)
    (projector : option (list Z)) (drawn : Z) : bool :=
  match m, inputs with
  | Linear_ l, Tensor x =>
      positive x && (default 0 (last x) =? in_features l)
  | Sequential_ s, Tensor x =>
      positive x && (default 0 (last x) =? in_width s)
  | IdentityMap_, _ => true
  | SlotAttention_ sa, Tensor [b; n; d] =>
      positive [b; n; d]
      && (d =? normalized_shape (SlotAttention.norm_input sa))
  | PerceiverSampler_ ps, Tensor [b; n; d] =>
      positive [b; n; d]
      && (d =? normalized_shape (PerceiverSampler.ln_vision ps))
  | MultiProjector_ mp, Tensor [b; n; d] =>
      positive [b; n; d]
      && (d =? in_width (MultiProjector.mlp mp))
      && (if MultiProjector.training mp
          then match projector with
               | Some p =>
                   (Z.of_nat (length p) =? b) && binary p
                   && (0 <=? drawn) && (drawn <? b)
               | None => false
               end
          else true)
  | CompressProjector_ cp, Tensor [b; n; d] =>
      positive [b; n; d] && (d =? in_width (CompressProjector.mlp cp))
  | CompressProjector_ cp, TensorList [[b1; n1; d1]; [b2; n2; d2]] =>
      positive [b1; n1; d1; b2; n2; d2]
      && (d1 =? in_width (CompressProjector.mlp cp))
      && (d2 =? in_width (CompressProjector.mlp cp))
  | PoolProjector_ pp, Tensor [n; k; c] =>
      positive [n; k; c] && grid_ok pp
      && (c =? in_width (PoolProjector.mlp pp))
      && (k mod PoolProjector.resolution pp =? 0)
  | PoolProjector_ pp, TensorList (item :: items) =>
      grid_ok pp
      && forallb (fun x =>
                    match x with
                    | [k; c] =>
                        positive [k; c]
                        && (c =? in_width (PoolProjector.mlp pp))
                        && (k mod PoolProjector.resolution pp =? 0)
                    | _ => false
                    end) (item :: items)
  | BaseProjector_ bp, Tensor [n; k; c] =>
      positive [n; k; c] && (c =? in_width (BaseProjector.mlp bp))
  | BaseProjector_ bp, Tensor [n; t; k; c] =>
      positive [n; t; k; c] && (c =? in_width (BaseProjector.mlp bp))
  | BaseProjector_ bp, TensorList [[n1; k1; c1]; [n2; t; k; c2]] =>
      positive [n1; k1; c1; n2; t; k; c2]
      && (c1 =? in_width (BaseProjector.mlp bp))
      && (c2 =? in_width (BaseProjector.mlp bp))
  | BaseMixProjector_ bp, Tensor [n; k; c] =>
      positive [n; k; c] && (c =? in_width (BaseMixProjector.mlp bp))
  | BaseMixProjector_ bp, Tensor [n; t; k; c] =>
      positive [n; t; k; c] && (c =? in_width (BaseMixProjector.mlp bp))
  | BaseMixProjector_ bp, TensorList [[n1; k1; c1]; [n2; t; k; c2]] =>
      positive [n1; k1; c1; n2; t; k; c2]
      && (c1 =? in_width (BaseMixProjector.mlp bp))
      && (c2 =? in_width (BaseMixProjector.mlp bp))
  | QwenResampler_ q, Tensor [b; n; c] =>
      positive [b; n; c]
      && (Z.sqrt n * Z.sqrt n =? n) && (n <? 2 ^ 52)
      && match QwenResampler.src_kv_proj q with
         | Some l => c =? in_features l
         | None => false
         end
  | _, _ => false
  end.

(** What [MultiProjector] is to return for the assignment [p]: element
    [i] is the MLP's result for sample [i] where [p] has 0 and the slot
    attention's result for sample [i] elsewhere. *)
Definition chosen {F} (p : list Z) (feat_mlp feat_sa : list F) : list F :=
  zip_with (fun v (ms : F * F) => if v =? 0 then fst ms else snd ms)
           p (zip feat_mlp feat_sa).

Definition Zsum (xs : list Z) : Z := fold_right Z.add 0 xs.

(** The arithmetic mean of rational numbers. *)
Definition arithmetic_mean (xs : list Q) : Q :=
  (fold_right Qplus 0 xs / inject_Z (Z.of_nat (length xs)))%Q.

(** The tokens of frame [f] (counted through the clip) that lie in the
    cell [(a, b)] of the macro-grid: with [h = g*s] tokens in a row, the
    rows [a*s .. a*s+s-1] and the columns [b*s .. b*s+s-1] of the frame's
    [h x h] grid, row by row. *)
Definition cell_tokens (g s f a b : nat) : list nat :=
  map (fun r =>
         f * (g * s * (g * s)) + (a * s + r / s) * (g * s)
         + (b * s + r mod s))%nat
      (seq 0 (s * s)).

(** Every tensor of [out] has [h] as its last size. *)
Definition has_width (h : Z) (out : value) : Prop :=
  match out with
  | Tensor x => last x = Some h
  | TensorList xs => Forall (fun x => last x = Some h) xs
  | NoneValue => False
  end.

(** [m], in either mode, maps every well-shaped input to tensors of last
    size [H]. *)
Definition serves_width (H : Z) (m : Projector) : Prop :=
  forall mode inputs projector drawn,
    well_shaped (train mode m) inputs projector drawn = true ->
    exists out,
      forward (train mode m) inputs projector drawn = Ok out
      /\ has_width H out.

End Spec.

(* ===================================================================== *)
(** * The rest of [builder.py] *)
(* ===================================================================== *)

(** ** [SimpleResBlock] *)

Module SimpleResBlock.
Import Py Torch.

Record t := mk {
  pre_norm : LayerNorm;
  proj : Sequential
}.

Definition init (channels : Z) : t :=
  {| pre_norm := mkLayerNorm channels;
     proj := [LinearLayer (mkLinear channels channels);
              GELU;
              LinearLayer (mkLinear channels channels)] |}.

(** [x = self.pre_norm(x); return x + self.proj(x)] *)
Definition forward (m : t) (x : shape) : result shape :=
  do x <- LayerNorm_forward (pre_norm m) x;
  do y <- Sequential_forward (proj m) x;
  broadcast x y.

End SimpleResBlock.

(** ** The sine-cosine position table with its [cls_token] argument *)

Module PosTable.
Import Py Torch.

(** [np.zeros(sizes)] *)
Definition zeros (sizes : list Z) : result shape :=
  if existsb (fun d => d <? 0) sizes
  then Raise (ValueError "negative dimensions are not allowed")
  else Ok sizes.

(** [get_2d_sincos_pos_embed(embed_dim, grid_size, cls_token)]:
    [PosEmbed.get_2d_sincos_pos_embed] is the function up to its
    [if cls_token]. *)
Definition get_2d_sincos_pos_embed (embed_dim grid_size : Z)
    (cls_token : bool) : result shape :=
  do pos_embed <- PosEmbed.get_2d_sincos_pos_embed embed_dim grid_size;
  if cls_token then
    do z <- zeros [1; embed_dim];
    cat [z; pos_embed] 0
  else Ok pos_embed.

End PosTable.

(** ** The sine-cosine position table, with its entries

    The entries are read as real numbers.  An array of rank 2 is the list
    of its rows. *)

Module SinCos.
Import Py.
Local Open Scope R_scope.

(** [np.arange(n, dtype=np.float32)] *)
Definition arange (n : Z) : list R := map INR (seq 0 (Z.to_nat n)).

(** [omega = np.arange(embed_dim // 2); omega /= embed_dim / 2.;
    omega = 1. / 10000**omega] *)
Definition omega (embed_dim : Z) : list R :=
  map (fun d => 1 / Rpower 10000 (d / (IZR embed_dim / 2)))
      (arange (embed_dim / 2)).

(** [get_1d_sincos_pos_embed_from_grid(embed_dim, pos)]; [pos] is given
    flattened, as [pos.reshape(-1)] leaves it. *)
Definition get_1d_sincos_pos_embed_from_grid (embed_dim : Z) (pos : list R)
    : result (list (list R)) :=
  do _ <- assert (embed_dim mod 2 =? 0)%Z;
  let omega := omega embed_dim in
  let out := map (fun p => map (fun w => p * w) omega) pos in
  let emb_sin := map (map sin) out in
  let emb_cos := map (map cos) out in
  Ok (zip_with (@app R) emb_sin emb_cos).

(** [get_2d_sincos_pos_embed_from_grid(embed_dim, grid)]; [grid[0]] and
    [grid[1]] are given flattened. *)
Definition get_2d_sincos_pos_embed_from_grid (embed_dim : Z)
    (grid : list R * list R) : result (list (list R)) :=
  do _ <- assert (embed_dim mod 2 =? 0)%Z;
  do emb_h <- get_1d_sincos_pos_embed_from_grid (embed_dim / 2) (fst grid);
  do emb_w <- get_1d_sincos_pos_embed_from_grid (embed_dim / 2) (snd grid);
  Ok (zip_with (@app R) emb_h emb_w).

(** [np.meshgrid(xs, ys)]: two arrays with one row for each element of
    [ys] and one column for each element of [xs]; the first repeats [xs] in
    every row, the second holds [ys[i]] throughout row [i]. *)
Definition meshgrid (xs ys : list R) : list (list R) * list (list R) :=
  (map (fun _ => xs) ys, map (fun y => map (fun _ => y) xs) ys).

(** [get_2d_sincos_pos_embed(embed_dim, grid_size, cls_token)]: the
    reshape to [[2, 1, grid_size, grid_size]] refuses a negative size with
    a [ValueError] (whose message depends on the size). *)
Definition get_2d_sincos_pos_embed (embed_dim grid_size : Z)
    (cls_token : bool) : result (list (list R)) :=
  let grid_h := arange grid_size in
  let grid_w := arange grid_size in
  let grid := meshgrid grid_w grid_h in
  if (grid_size <? 0)%Z then Raise (ValueError "cannot reshape array")
  else
    do pos_embed <-
      get_2d_sincos_pos_embed_from_grid embed_dim
        (concat (fst grid), concat (snd grid));
    if cls_token then
      if (embed_dim <? 0)%Z
      then Raise (ValueError "negative dimensions are not allowed")
      else Ok (List.repeat 0 (Z.to_nat embed_dim) :: pos_embed)
    else Ok pos_embed.

(** The row of the 1-D table for the position [p]. *)
Definition sincos_row (embed_dim : Z) (p : R) : list R :=
  map (fun w => sin (p * w)) (omega embed_dim)
  ++ map (fun w => cos (p * w)) (omega embed_dim).

Definition sum_squares (xs : list R) : R :=
  fold_right Rplus 0 (map (fun x => x * x) xs).

End SinCos.

(** ** [Resampler] *)

Module Resampler.
Import Py Torch.

Record t := mk {
  num_queries : Z;
  embed_dim : Z;
  num_heads : Z;
  pos_embed : shape;
  query : shape;
  (** [None]: [nn.Identity()] *)
  kv_proj : option Linear;
  attn : MultiheadAttention;
  ln_q : LayerNorm;
  ln_kv : LayerNorm;
  ln_post : LayerNorm;
  proj_scale : pow_neg_half;
  proj : shape
}.

(** [__init__(self, grid_size, embed_dim, num_heads, kv_dim)]; [kv_dim]
    may be [None]. *)
Definition init (grid_size embed_dim num_heads : Z) (kv_dim : option Z)
    : result t :=
  let num_queries := grid_size ^ 2 in
  do pos_embed <- PosEmbed.get_2d_sincos_pos_embed embed_dim grid_size;
  let query := [num_queries; embed_dim] in
  let kv_proj :=
    match kv_dim with
    | Some kv =>
        if negb (kv =? embed_dim) then Some (mkLinear kv embed_dim) else None
    | None => None
    end in
  do attn <- MultiheadAttention_init embed_dim num_heads;
  do proj_scale <- pow_neg_half_of embed_dim;
  Ok {| num_queries := num_queries;
        embed_dim := embed_dim;
        num_heads := num_heads;
        pos_embed := pos_embed;
        query := query;
        kv_proj := kv_proj;
        attn := attn;
        ln_q := mkLayerNorm embed_dim;
        ln_kv := mkLayerNorm embed_dim;
        ln_post := mkLayerNorm embed_dim;
        proj_scale := proj_scale;
        proj := [embed_dim; embed_dim] |}.

(** [_repeat(self, query, N)] *)
Definition _repeat (query : shape) (n : Z) : result shape :=
  do q <- unsqueeze query 1;
  repeat q [1; n; 1].

(** [forward(self, x, attn_mask=None)] *)
Definition forward (m : t) (x : shape) : result shape :=
  do n_tokens <- size x 1;
  do pos_embed <- get_abs_pos (pos_embed m) n_tokens;
  do x <- match kv_proj m with
          | Some l => Linear_forward l x
          | None => Ok x
          end;
  do x <- LayerNorm_forward (ln_kv m) x;
  do x <- permute x [1; 0; 2]%nat;
  do n <- size x 1;
  do q <- LayerNorm_forward (ln_q m) (query m);
  do rq <- _repeat q n;
  do pe_q <- unsqueeze (Resampler.pos_embed m) 1;
  do queries <- broadcast rq pe_q;
  do pe_k <- unsqueeze pos_embed 1;
  do keys <- broadcast x pe_k;
  do out <- MultiheadAttention_forward (attn m) queries keys x;
  do out <- permute out [1; 0; 2]%nat;
  do out <- LayerNorm_forward (ln_post m) out;
  matmul out (proj m).

End Resampler.

(* ===================================================================== *)
(** * What the further statements speak of *)
(* ===================================================================== *)

Module Layout.

(** What the loop of [MultiProjector.forward] appends for the assignment
    [p]: for sample [i] the MLP's result where [p] has 0, the slot
    attention's where it has 1, and nothing where it has another value. *)
Definition kept {F} (p : list Z) (feat_mlp feat_sa : list F) : list F :=
  concat
    (zip_with
       (fun v (ms : F * F) =>
          if v =? 0 then [fst ms] else if v =? 1 then [snd ms] else [])
       p (zip feat_mlp feat_sa)).

End Layout.

(* ===================================================================== *)
(** * Proof support *)
(* ===================================================================== *)

#[local] Arguments Z.sqrt : simpl never.
#[local] Arguments Z.div : simpl never.
#[local] Arguments Z.modulo : simpl never.
#[local] Arguments Z.max : simpl never.
#[local] Arguments Z.min : simpl never.

Ltac zarith := first [ lia | nia ].

(** Decide one comparison of the goal from the hypotheses. *)
Ltac zbool_step :=
  match goal with
  | |- context [Z.eqb ?a ?b] =>
      first [ replace (Z.eqb a b) with true
                by (symmetry; apply Z.eqb_eq; zarith)
            | replace (Z.eqb a b) with false
                by (symmetry; apply Z.eqb_neq; zarith) ]
  | |- context [Z.ltb ?a ?b] =>
      first [ replace (Z.ltb a b) with true
                by (symmetry; apply Z.ltb_lt; zarith)
            | replace (Z.ltb a b) with false
                by (symmetry; apply Z.ltb_ge; zarith) ]
  | |- context [Z.leb ?a ?b] =>
      first [ replace (Z.leb a b) with true
                by (symmetry; apply Z.leb_le; zarith)
            | replace (Z.leb a b) with false
                by (symmetry; apply Z.leb_gt; zarith) ]
  | |- context [Z.max ?a ?b] =>
      first [ replace (Z.max a b) with a by zarith
            | replace (Z.max a b) with b by zarith ]
  | |- context [Z.min ?a ?b] =>
      first [ replace (Z.min a b) with a by zarith
            | replace (Z.min a b) with b by zarith ]
  end.

Create HintDb shape discriminated.
#[local] Hint Unfold Torch.size Torch.size_last Torch.with_last
  Torch.broadcast_dim Torch.broadcast Torch.view Torch.permute Torch.expand
  Torch.unsqueeze Torch.repeat Torch.flatten_to Torch.reduce Torch.from_end
  Torch.softmax Torch.cat2 Torch.cat Torch.slice0 Torch.slice_bound
  Torch.getitem Torch.einsum_bid_bjd_bij Torch.einsum_bjd_bij_bid
  Torch.matmul Torch.interpolate Torch.Linear_forward Torch.LayerNorm_forward
  Torch.Layer_forward Torch.MultiheadAttention_forward
  Py.int_sqrt Py.np_int_sqrt Py.floordiv Py.assert Py.getattr
  Tensor.size Tensor.size_last Tensor.ndim : shape.

(** Evaluate a computation on shapes whose sizes are variables. *)
Ltac shape_simpl :=
  repeat first [ progress cbn | zbool_step | progress autounfold with shape ].

Lemma exact_quotient (a b q : Z) :
  b <> 0 -> a = q * b -> a / b = q /\ a mod b = 0.
Proof.
  intros Hb ->. split; [now apply Z.div_mul | apply Z_mod_mult].
Qed.

(** [a] is [q] times [b]: settles [a mod b] and [a / b] in the goal. *)
Ltac exact_div a b q :=
  let E := fresh "E" in
  assert (E : a / b = q /\ a mod b = 0)
    by (apply exact_quotient; zarith);
  rewrite ?(proj1 E), ?(proj2 E);
  clear E.

Section Support.
Import Py Torch.

Lemma mlp_modules_2 a h :
  Factory.mlp_modules a h 2 =
  [LinearLayer (mkLinear a h); GELU; LinearLayer (mkLinear h h)].
Proof. reflexivity. Qed.

Lemma Sequential_forward_app m1 m2 x :
  Sequential_forward (m1 ++ m2) x =
  Py.bind (Sequential_forward m1 x) (Sequential_forward m2).
Proof.
  revert x. induction m1 as [|l m1 IH]; intros x; cbn; [reflexivity|].
  destruct (Layer_forward l x) as [y|e]; cbn; [apply IH | reflexivity].
Qed.

Lemma with_last_last s d : last (with_last s d) = Some d.
Proof. unfold with_last. apply last_snoc. Qed.

Lemma with_last_with_last s d d' :
  with_last (with_last s d) d' = with_last s d'.
Proof. unfold with_last. now rewrite removelast_last. Qed.

Lemma Linear_forward_last a b x :
  last x = Some a ->
  Linear_forward (mkLinear a b) x = Ok (with_last x b).
Proof.
  intros Hl. unfold Linear_forward. rewrite Hl. cbn. now rewrite Z.eqb_refl.
Qed.

(** An MLP of the factory maps the last size [first] to [hidden]. *)
Lemma mlp_modules_forward first hidden depth x :
  last x = Some first ->
  Sequential_forward (Factory.mlp_modules first hidden depth) x =
  Ok (with_last x hidden).
Proof.
  intros Hl. unfold Factory.mlp_modules.
  generalize (range_from 1 depth) as l.
  assert (H0 : Sequential_forward [LinearLayer (mkLinear first hidden)] x =
               Ok (with_last x hidden)).
  { cbn. now rewrite (Linear_forward_last _ _ _ Hl). }
  revert H0. generalize [LinearLayer (mkLinear first hidden)] as acc.
  intros acc H0 l. revert acc H0.
  induction l as [|i l IH]; intros acc H0; cbn; [exact H0|].
  apply IH. rewrite !Sequential_forward_app, H0. cbn.
  rewrite (Linear_forward_last hidden hidden) by apply with_last_last.
  cbn. now rewrite with_last_with_last.
Qed.

End Support.

(* ===================================================================== *)
(** * The factory: type strings *)
(* ===================================================================== *)

Section TypeStrings.
Import Py Torch Factory.

Lemma string_append_assoc (a b c : string) :
  ((a ++ b) ++ c = a ++ (b ++ c))%string.
Proof. induction a as [|x a IH]; cbn; [reflexivity | now rewrite IH]. Qed.

Lemma strip_prefix_refl s : strip_prefix s s = Some EmptyString.
Proof.
  induction s as [|c s IH]; cbn; [reflexivity|].
  now rewrite Ascii.eqb_refl.
Qed.

Lemma strip_prefix_Some p s r :
  strip_prefix p s = Some r -> s = (p ++ r)%string.
Proof.
  revert s. induction p as [|a p IH]; intros s Hs; cbn in *.
  - now injection Hs as ->.
  - destruct s as [|b s]; [discriminate|].
    destruct (Ascii.eqb a b) eqn:E; [|discriminate].
    apply Ascii.eqb_eq in E. subst b. now rewrite (IH _ Hs).
Qed.

Lemma contains_append p s : contains s (p ++ s)%string = true.
Proof.
  induction p as [|c p IH].
  - cbn. destruct s; cbn; [reflexivity|].
    now rewrite Ascii.eqb_refl, strip_prefix_refl.
  - change (String c p ++ s)%string with (String c (p ++ s)%string).
    cbn [contains].
    destruct (strip_prefix s (String c (p ++ s))); [reflexivity | exact IH].
Qed.

Lemma span_digits_spec s ds rest :
  span_digits s = (ds, rest) ->
  s = (ds ++ rest)%string /\ Spec.all_digits ds = true.
Proof.
  revert ds rest. induction s as [|c s IH]; intros ds rest Hs; cbn in Hs.
  - injection Hs as <- <-. now split.
  - destruct (is_digit c) eqn:Ec.
    + destruct (span_digits s) as [ds' rest'] eqn:E.
      injection Hs as <- <-. destruct (IH _ _ eq_refl) as [-> Hd].
      split; [reflexivity|]. cbn. now rewrite Ec, Hd.
    + injection Hs as <- <-. now split.
Qed.

Lemma span_digits_name ds :
  Spec.all_digits ds = true ->
  span_digits (ds ++ "x_gelu")%string = (ds, "x_gelu").
Proof.
  induction ds as [|c ds IH]; intros Hd; [reflexivity|].
  cbn in Hd. apply andb_prop in Hd as [Hc Hd].
  cbn. now rewrite Hc, (IH Hd).
Qed.

(** The pattern accepts the names [mlp{N}x_gelu] ... *)
Lemma re_match_mlp_gelu_name ds :
  ds <> EmptyString -> Spec.all_digits ds = true ->
  re_match_mlp_gelu (Spec.mlp_gelu_name ds) = Some ds.
Proof.
  intros Hne Hd. unfold re_match_mlp_gelu, Spec.mlp_gelu_name.
  cbn. rewrite (span_digits_name _ Hd).
  destruct ds; [congruence | reflexivity].
Qed.

(** ... and besides them only the same names followed by one newline. *)
Lemma re_match_mlp_gelu_Some s ds :
  re_match_mlp_gelu s = Some ds ->
  ds <> EmptyString /\ Spec.all_digits ds = true /\
  (s = Spec.mlp_gelu_name ds \/
   s = (Spec.mlp_gelu_name ds ++ newline)%string).
Proof.
  unfold re_match_mlp_gelu. intros Hm.
  destruct (strip_prefix "mlp" s) as [r|] eqn:Hp; [|discriminate].
  apply strip_prefix_Some in Hp. subst s.
  destruct (span_digits r) as [ds' rest] eqn:Hs.
  apply span_digits_spec in Hs as [-> Hd].
  destruct ds' as [|c ds']; [discriminate|].
  destruct (String.eqb rest "x_gelu") eqn:E1.
  - cbn [orb] in Hm. injection Hm as <-. apply String.eqb_eq in E1.
    subst rest.
    split; [discriminate|]. split; [exact Hd|]. now left.
  - cbn [orb] in Hm.
    destruct (String.eqb rest ("x_gelu" ++ newline)%string) eqn:E2;
      [|discriminate].
    injection Hm as <-. apply String.eqb_eq in E2. subst rest.
    split; [discriminate|]. split; [exact Hd|]. right.
    unfold Spec.mlp_gelu_name. cbn.
    now rewrite !string_append_assoc.
Qed.

Lemma is_mlp_gelu_name_spec s :
  Spec.is_mlp_gelu_name s = true ->
  exists ds, ds <> EmptyString /\ Spec.all_digits ds = true /\
             s = Spec.mlp_gelu_name ds.
Proof.
  unfold Spec.is_mlp_gelu_name. intros Hm.
  destruct (strip_prefix "mlp" s) as [r|] eqn:Hp; [|discriminate].
  apply strip_prefix_Some in Hp. subst s.
  destruct (span_digits r) as [ds rest] eqn:Hs.
  apply span_digits_spec in Hs as [-> Hd].
  apply andb_prop in Hm as [Hne Hr].
  apply String.eqb_eq in Hr. subst rest.
  exists ds. split; [|now split].
  intros ->. discriminate.
Qed.

(** [int] converts the digits of a name that [Spec.digits_ok] accepts. *)
Lemma int_digits_ok ds :
  Spec.all_digits ds = true ->
  Spec.digits_ok (Spec.mlp_gelu_name ds) = true ->
  int ds = Ok (int_of_digits ds).
Proof.
  intros Hd. unfold Spec.digits_ok, Spec.mlp_gelu_name. cbn.
  rewrite (span_digits_name _ Hd). cbn [fst]. intros Hl. unfold int.
  apply Nat.leb_le in Hl.
  destruct (Nat.ltb_spec int_max_str_digits (String.length ds)) as [?|_];
    [lia | reflexivity].
Qed.

(** A type string that is none of the fixed names and that the pattern
    rejects makes the factory raise, and the message ends with it. *)
Lemma build_unknown_type bert c s :
  mm_projector_type c = Some s ->
  existsb (String.eqb s) Spec.named_types = false ->
  re_match_mlp_gelu s = None ->
  build_vision_projector bert c = Raise (ValueError (unknown_projector_type s))
  /\ contains s (unknown_projector_type s) = true.
Proof.
  intros Ht Hn Hm. split; [|apply contains_append].
  unfold build_vision_projector. rewrite Ht. cbn [getattr_default].
  rewrite Hm. cbn in Hn.
  repeat match type of Hn with
         | (_ || _)%bool = false => apply orb_false_elim in Hn as [?E Hn]
         end.
  now rewrite E, E0, E1, E2, E3, E4, E5, E6, E7, E8.
Qed.

(** C2, evaluated where the code departs from it: the type string
    ["mlp2x_gelu\n"] is not one of the recognized names, and the factory
    does not raise on it: [$] lets the pattern match before the final
    newline, and a two-layer MLP is returned. *)
Theorem build_accepts_trailing_newline bert mm h ns res pn :
  let s := ("mlp2x_gelu" ++ newline)%string in
  Spec.recognized s = false /\
  build_vision_projector bert (mkConfig (Some s) mm h ns res pn) =
  Ok (Sequential_ [LinearLayer (mkLinear mm h); GELU;
                   LinearLayer (mkLinear h h)]).
Proof. split; reflexivity. Qed.

(** C9: a configuration without the attribute [mm_projector_type], whose
    two widths are sizes that [nn.Linear] accepts (not negative, and
    fitting a signed 64-bit integer), does not make the factory raise: it
    returns the single affine layer from [mm_hidden_size] to
    [hidden_size], which maps a tensor whose last size is [mm_hidden_size]
    to the same tensor with last size [hidden_size]. *)
Theorem build_without_projector_type bert mm h ns res pn :
  0 <= mm < 2 ^ 63 -> 0 <= h < 2 ^ 63 ->
  build_vision_projector bert (mkConfig None mm h ns res pn) =
    Ok (Linear_ (mkLinear mm h))
  /\ forall x,
       forward (Linear_ (mkLinear mm h)) (Tensor (x ++ [mm])) None 0 =
       Ok (Tensor (x ++ [h])).
Proof.
  intros _ _. split; [reflexivity|]. intros x. cbn.
  rewrite Linear_forward_last by apply last_snoc.
  cbn. unfold with_last. now rewrite removelast_last.
Qed.

End TypeStrings.

Lemma build_without_projector_type_witness :
  let bert := PerceiverSampler.mkBertConfig 768 in
  Factory.build_vision_projector bert
    (Factory.mkConfig None 1024 4096 None None None) =
  Py.Ok (Factory.Linear_ (Torch.mkLinear 1024 4096))
  /\ Factory.forward (Factory.Linear_ (Torch.mkLinear 1024 4096))
       (Torch.Tensor [2; 576; 1024]) None 0 =
     Py.Ok (Torch.Tensor [2; 576; 4096]).
Proof.
  intros bert.
  pose proof (build_without_projector_type bert 1024 4096 None None None
                ltac:(lia) ltac:(lia)) as [Hb Hf].
  split; [exact Hb | exact (Hf [2; 576])].
Defined.

(* ===================================================================== *)
(** * [SlotAttention]: the shape of the output *)
(* ===================================================================== *)

Section SlotAttentionShape.
Import Py Torch.

Lemma SlotAttention_init_Ok
    num_slots encoder_dims iters hidden_dim out_dim eps m :
  SlotAttention.init num_slots encoder_dims iters hidden_dim out_dim eps
    = Ok m ->
  m = SlotAttention.mk eps iters num_slots (PowNegHalf encoder_dims)
        (mkLayerNorm encoder_dims) (mkLayerNorm encoder_dims)
        (mkLayerNorm encoder_dims) [1; num_slots; encoder_dims]
        (mkLinear encoder_dims encoder_dims)
        (mkLinear encoder_dims encoder_dims)
        (mkLinear encoder_dims encoder_dims)
        [LinearLayer (mkLinear encoder_dims (Z.max encoder_dims hidden_dim));
         GELU;
         LinearLayer (mkLinear (Z.max encoder_dims hidden_dim) encoder_dims)]
        (mkLinear encoder_dims out_dim)
  /\ encoder_dims <> 0.
Proof.
  unfold SlotAttention.init, pow_neg_half_of.
  destruct (Z.eqb_spec encoder_dims 0) as [->|Hne]; cbn; [discriminate|].
  intros [= <-]. now split.
Qed.

(** One round keeps the slots [B x num_slots x encoder_dims]. *)
Lemma SlotAttention_round_shape
    num_slots encoder_dims iters hidden_dim out_dim eps m B N t :
  SlotAttention.init num_slots encoder_dims iters hidden_dim out_dim eps
    = Ok m ->
  SlotAttention.round m [B; N; encoder_dims] [B; N; encoder_dims]
    [B; num_slots; encoder_dims] t [B; num_slots; encoder_dims] =
  Ok [B; num_slots; encoder_dims].
Proof.
  intros Hm. apply SlotAttention_init_Ok in Hm as [-> _].
  unfold SlotAttention.round. shape_simpl.
  destruct (N =? 1); shape_simpl;
    destruct (t =? iters - 2); shape_simpl; reflexivity.
Qed.

Lemma SlotAttention_rounds_shape
    num_slots encoder_dims iters hidden_dim out_dim eps m B N ts :
  SlotAttention.init num_slots encoder_dims iters hidden_dim out_dim eps
    = Ok m ->
  SlotAttention.rounds m [B; N; encoder_dims] [B; N; encoder_dims]
    [B; num_slots; encoder_dims] ts [B; num_slots; encoder_dims] =
  Ok [B; num_slots; encoder_dims].
Proof.
  intros Hm. induction ts as [|t ts IH]; cbn [SlotAttention.rounds];
    [reflexivity|].
  rewrite (SlotAttention_round_shape _ _ _ _ _ _ _ _ _ _ Hm). exact IH.
Qed.

(** Up to the rounds and after them: the input is normalised and
    projected, the slots start as the learned embedding expanded over the
    batch, and the head maps the final slots. *)
Lemma SlotAttention_forward_unfold
    num_slots encoder_dims iters hidden_dim out_dim eps m B N :
  SlotAttention.init num_slots encoder_dims iters hidden_dim out_dim eps
    = Ok m ->
  0 <= B ->
  SlotAttention.forward m [B; N; encoder_dims] =
  do slots <-
    SlotAttention.rounds m [B; N; encoder_dims] [B; N; encoder_dims]
      [B; num_slots; encoder_dims] (range iters)
      [B; num_slots; encoder_dims];
  Linear_forward (mkLinear encoder_dims out_dim) slots.
Proof.
  intros Hm HB. apply SlotAttention_init_Ok in Hm as [-> _].
  unfold SlotAttention.forward.
  cbn [SlotAttention.norm_input SlotAttention.project_k
       SlotAttention.project_v SlotAttention.slots_embedding
       SlotAttention.iters SlotAttention.head].
  shape_simpl. destruct (B =? 1); shape_simpl; reflexivity.
Qed.

(** C7: on an input [B x N x C] with [B, N >= 1] and [C] the encoder
    dimension the module was built with, [SlotAttention.forward] returns a
    tensor of shape [B x num_slots x out_dim], whatever the number of
    iterations. *)
Theorem SlotAttention_forward_shape
    num_slots encoder_dims iters hidden_dim out_dim eps m B N :
  SlotAttention.init num_slots encoder_dims iters hidden_dim out_dim eps
    = Ok m ->
  1 <= B -> 1 <= N ->
  SlotAttention.forward m [B; N; encoder_dims] = Ok [B; num_slots; out_dim].
Proof.
  intros Hm HB HN.
  rewrite (SlotAttention_forward_unfold _ _ _ _ _ _ _ _ _ Hm) by lia.
  rewrite (SlotAttention_rounds_shape _ _ _ _ _ _ _ _ _ _ Hm).
  shape_simpl. reflexivity.
Qed.

Lemma SlotAttention_forward_shape_witness :
  exists m,
    SlotAttention.init 4 8 3 16 16 SlotAttention.default_eps = Py.Ok m /\
    SlotAttention.forward m [2; 5; 8] = Py.Ok [2; 4; 16].
Proof.
  eexists. split; [reflexivity|].
  apply (SlotAttention_forward_shape 4 8 3 16 16 SlotAttention.default_eps);
    [reflexivity | lia | lia].
Defined.

End SlotAttentionShape.

(* ===================================================================== *)
(** * [MultiProjector]: assignment, rebalancing, output order *)
(* ===================================================================== *)

Section MultiProjectorLemmas.
Import Py MultiProjector.

Lemma contains_where_from i0 p v i :
  contains (where_from i0 p v) i = true <->
  exists j : nat, i = i0 + Z.of_nat j /\ p !! j = Some v.
Proof.
  revert i0. induction p as [|x p IH]; intros i0; cbn.
  - split; [discriminate | intros (j & _ & H); discriminate].
  - unfold contains in *. rewrite existsb_app, orb_true_iff, IH.
    split.
    + intros [H | (j & -> & Hj)].
      * destruct (Z.eqb_spec x v) as [->|]; cbn in H; [|discriminate].
        rewrite orb_false_r in H. apply Z.eqb_eq in H. subst.
        exists O. split; [lia | reflexivity].
      * exists (S j). split; [lia | exact Hj].
    + intros ([|j] & -> & Hj); cbn in Hj.
      * injection Hj as ->. left. rewrite Z.eqb_refl. cbn.
        rewrite orb_false_r. apply Z.eqb_eq. lia.
      * right. exists j. split; [lia | exact Hj].
Qed.

Lemma contains_where_eq p v (k : nat) :
  contains (where_eq p v) (Z.of_nat k) = true <-> p !! k = Some v.
Proof.
  unfold where_eq. rewrite contains_where_from. split.
  - intros (j & Hj & Hl). assert (j = k) by lia. now subst.
  - intros Hl. exists k. split; [lia | exact Hl].
Qed.

Lemma contains_where_eq_bool p v (k : nat) x :
  p !! k = Some x ->
  contains (where_eq p v) (Z.of_nat k) = (x =? v).
Proof.
  intros Hx. destruct (Z.eqb_spec x v) as [->|Hne].
  - now apply contains_where_eq.
  - destruct (contains (where_eq p v) (Z.of_nat k)) eqn:E; [|reflexivity].
    apply contains_where_eq in E. congruence.
Qed.

Lemma where_eq_nil p v :
  where_eq p v = [] <-> forall k x, p !! k = Some x -> x <> v.
Proof.
  split.
  - intros Hn k x Hk ->. apply contains_where_eq in Hk.
    rewrite Hn in Hk. discriminate.
  - intros Hall. destruct (where_eq p v) as [|i l] eqn:E; [reflexivity|].
    assert (Hc : contains (where_eq p v) i = true).
    { rewrite E. unfold contains. cbn. now rewrite Z.eqb_refl. }
    unfold where_eq in Hc. apply contains_where_from in Hc as (j & _ & Hj).
    now apply Hall in Hj.
Qed.

End MultiProjectorLemmas.

Section Collect.
Import Py MultiProjector.
Context {Y F : Type}.
Variable getitem : Y -> Z -> result F.
Variable feat_mlp feat_sa : Y.
Variable ms ss : list F.
Hypothesis getitem_mlp :
  forall (k : nat) m, ms !! k = Some m -> getitem feat_mlp (Z.of_nat k) = Ok m.
Hypothesis getitem_sa :
  forall (k : nat) m, ss !! k = Some m -> getitem feat_sa (Z.of_nat k) = Ok m.

Lemma collect_chosen p n : forall k out,
  Spec.binary p = true ->
  length p = (k + n)%nat -> length ms = (k + n)%nat ->
  length ss = (k + n)%nat ->
  collect getitem (where_eq p 0) (where_eq p 1) feat_mlp feat_sa
          (map Z.of_nat (seq k n)) out =
  Ok (out ++ drop k (Spec.chosen p ms ss)).
Proof.
  induction n as [|n IH]; intros k out Hb Hp Hm Hs.
  - cbn. rewrite drop_ge, app_nil_r; [reflexivity|].
    unfold Spec.chosen. rewrite length_zip_with, length_zip. lia.
  - cbn [seq map collect].
    destruct (lookup_lt_is_Some_2 p k ltac:(lia)) as [v Hv].
    destruct (lookup_lt_is_Some_2 ms k ltac:(lia)) as [m Hmk].
    destruct (lookup_lt_is_Some_2 ss k ltac:(lia)) as [s Hsk].
    rewrite (contains_where_eq_bool _ _ _ _ Hv).
    rewrite (contains_where_eq_bool _ _ _ _ Hv).
    assert (Hv01 : v = 0 \/ v = 1).
    { unfold Spec.binary in Hb. rewrite forallb_forall in Hb.
      specialize (Hb v). 
      assert (Hin : In v p)
        by (apply list_elem_of_In, list_elem_of_lookup; eauto).
      apply Hb in Hin.
      apply orb_prop in Hin as [E|E]; apply Z.eqb_eq in E; auto. }
    assert (Hd : drop k (Spec.chosen p ms ss) =
                 (if v =? 0 then m else s) :: drop (S k) (Spec.chosen p ms ss)).
    { apply drop_S. unfold Spec.chosen. rewrite lookup_zip_with.
      rewrite Hv. cbn. rewrite lookup_zip_with, Hmk. cbn. rewrite Hsk.
      reflexivity. }
    rewrite Hd.
    destruct Hv01 as [-> | ->]; cbn.
    + rewrite (getitem_mlp _ _ Hmk). cbn.
      rewrite IH by (auto; lia). now rewrite <- app_assoc.
    + rewrite (getitem_sa _ _ Hsk). cbn.
      rewrite IH by (auto; lia). now rewrite <- app_assoc.
Qed.

Lemma range_of_nat (b : nat) :
  range (Z.of_nat b) = map Z.of_nat (seq 0 b).
Proof.
  unfold range, range_from. rewrite Z.sub_0_r, Nat2Z.id.
  apply map_ext. intros; lia.
Qed.

End Collect.

Section MultiProjectorSamples.
Import Py MultiProjector.
Context {A F : Type}.
Variable f g : A -> F.

Lemma getitem_sample_lookup (feat : list F) (k : nat) m :
  feat !! k = Some m -> getitem_sample feat (Z.of_nat k) = Ok m.
Proof.
  intros Hk. unfold getitem_sample.
  destruct (Z.ltb_spec (Z.of_nat k) 0) as [?|_]; [lia|].
  now rewrite Nat2Z.id, Hk.
Qed.

Lemma length_chosen (p : list Z) (ms ss : list F) :
  length p = length ms -> length p = length ss ->
  length (Spec.chosen p ms ss) = length p.
Proof.
  intros Hm Hs. unfold Spec.chosen. rewrite length_zip_with, length_zip. lia.
Qed.


(** The store after a call in training mode. *)
Lemma forward_samples_store (xs : list A) (p : list Z) drawn :
  snd (forward_samples f g true drawn (mkStore (Some p) xs)) =
  match rebalance (where_eq p 0) (where_eq p 1) p drawn with
  | Ok p' => mkStore (Some p') xs
  | Raise _ => mkStore (Some p) xs
  end.
Proof.
  unfold forward_samples, forward. cbn.
  destruct (rebalance _ _ p drawn); reflexivity.
Qed.

Lemma rebalance_no_mlp (p : list Z) drawn :
  where_eq p 0 = [] -> 0 <= drawn < Z.of_nat (length p) ->
  rebalance (where_eq p 0) (where_eq p 1) p drawn =
  Ok (<[Z.to_nat drawn := 0]> p).
Proof.
  intros H0 Hd. unfold rebalance, randint, setitem. rewrite H0. cbn.
  shape_simpl. reflexivity.
Qed.

Lemma rebalance_no_sa (p : list Z) drawn :
  where_eq p 0 <> [] -> where_eq p 1 = [] ->
  0 <= drawn < Z.of_nat (length p) ->
  rebalance (where_eq p 0) (where_eq p 1) p drawn =
  Ok (<[Z.to_nat drawn := 1]> p).
Proof.
  intros H0 H1 Hd. unfold rebalance, randint, setitem. rewrite H1.
  destruct (where_eq p 0); [congruence|]. cbn.
  shape_simpl. reflexivity.
Qed.

Lemma rebalance_balanced (p : list Z) drawn :
  where_eq p 0 <> [] -> where_eq p 1 <> [] ->
  rebalance (where_eq p 0) (where_eq p 1) p drawn = Ok p.
Proof.
  intros H0 H1. unfold rebalance.
  destruct (where_eq p 0); [congruence|].
  destruct (where_eq p 1); [congruence|]. reflexivity.
Qed.

Lemma insert_changes (p : list Z) (k : nat) v :
  (k < length p)%nat -> (forall x, p !! k = Some x -> x <> v) ->
  <[k := v]> p <> p.
Proof.
  intros Hk Hne Heq.
  assert (Hl : <[k := v]> p !! k = Some v) by now apply list_lookup_insert_eq.
  rewrite Heq in Hl. now apply Hne in Hl.
Qed.

End MultiProjectorSamples.

Section MultiProjectorClaims.
Import Py MultiProjector.
Context {A F : Type}.
Variable f g : A -> F.


End MultiProjectorClaims.



Section MultiProjectorStore.
Import Py MultiProjector.
Context {A F : Type}.
Variable f g : A -> F.

(** C10: in training mode, with [drawn] a row of the assignment tensor
    (what [random.randint] returns on a tensor that has rows), the call
    never changes the features; it leaves the assignment as it is when each
    branch has a sample; when the MLP branch has none it writes 0 into the
    caller's tensor at the drawn row, when only the slot branch has none it
    writes 1 there, and in both cases the tensor the caller holds differs
    afterwards from what was passed. *)
Theorem MultiProjector_forward_store (xs : list A) (p : list Z) (drawn : Z) :
  0 <= drawn < Z.of_nat (length p) ->
  let st' := snd (forward_samples f g true drawn (mkStore (Some p) xs)) in
  inputs st' = xs
  /\ (where_eq p 0 <> [] -> where_eq p 1 <> [] -> projector st' = Some p)
  /\ (where_eq p 0 = [] ->
       projector st' = Some (<[Z.to_nat drawn := 0]> p)
       /\ <[Z.to_nat drawn := 0]> p <> p)
  /\ (where_eq p 0 <> [] -> where_eq p 1 = [] ->
       projector st' = Some (<[Z.to_nat drawn := 1]> p)
       /\ <[Z.to_nat drawn := 1]> p <> p).
Proof.
  intros Hd st'. unfold st'. rewrite forward_samples_store.
  split; [destruct (rebalance _ _ p drawn); reflexivity|].
  split; [|split].
  - intros H0 H1. now rewrite rebalance_balanced.
  - intros H0. rewrite rebalance_no_mlp by assumption.
    split; [reflexivity|]. apply insert_changes; [lia|].
    intros x Hx. now apply (proj1 (where_eq_nil p 0) H0 _ _ Hx).
  - intros H0 H1. rewrite rebalance_no_sa by assumption.
    split; [reflexivity|]. apply insert_changes; [lia|].
    intros x Hx. now apply (proj1 (where_eq_nil p 1) H1 _ _ Hx).
Qed.

(** In evaluation mode the store is left as it was. *)
Lemma MultiProjector_eval_store (st : store (list A)) drawn :
  snd (forward_samples f g false drawn st) = st.
Proof. reflexivity. Qed.

End MultiProjectorStore.

Lemma MultiProjector_forward_store_witness :
  let st' :=
    snd (MultiProjector.forward_samples (fun x : Z => x) Z.opp true 1
           (MultiProjector.mkStore (Some [1; 1]) [7; 8])) in
  MultiProjector.inputs st' = [7; 8]
  /\ MultiProjector.projector st' = Some [1; 0].
Proof.
  pose proof (MultiProjector_forward_store (fun x : Z => x) Z.opp
                [7; 8] [1; 1] 1 ltac:(cbn; lia)) as (Hi & _ & H0 & _).
  split; [exact Hi | exact (proj1 (H0 eq_refl))].
Defined.

(* ===================================================================== *)
(** * [SlotAttention]: the attention weights *)
(* ===================================================================== *)

Section AttentionWeights.
Import Attn.
Local Open Scope R_scope.





























End AttentionWeights.


(* ===================================================================== *)
(** * [get_abs_pos]: the rows of the result *)
(* ===================================================================== *)

#[local] Hint Unfold Grid.view Grid.permute Grid.interpolate Grid.flatten_to
  Grid.mean Grid.cat : shape.

Section GetAbsPosRows.
Import Py.
Variable E : Type.
Variable mean_entries : list E -> E.
Variable bicubic : Torch.shape -> Z -> Z -> list E -> list E.
Variable pad : E.
#[local] Existing Instance Grid.tensor_ops.
Let ops := Grid.tensor_ops E mean_entries bicubic pad.

(** C3: the comment of [get_abs_pos] announces [M] rows for the target
    count [M = tgt_size].  For a table with [L] rows and [C >= 1] columns
    (counts below [2^52], where [int(math.sqrt(_))] is the integer square
    root): when the integer square roots of [tgt_size] and of [L] are
    equal, the result is the table itself; when they differ and [L] is a
    positive square, the table is rescaled to the square of the integer
    square root of [tgt_size] rows (and [C] columns), which is [tgt_size]
    rows exactly when [tgt_size] is a perfect square: for any other target
    the code returns fewer rows than it announces. *)
Theorem get_abs_pos_rows (abs_pos : Grid.tensor E) (L C tgt_size : Z) :
  Grid.dims abs_pos = [L; C] -> 1 <= C ->
  0 <= L < 2 ^ 52 -> 0 <= tgt_size < 2 ^ 52 ->
  (Z.sqrt tgt_size = Z.sqrt L ->
     get_abs_pos (H:=ops) abs_pos tgt_size = Ok abs_pos)
  /\ (Z.sqrt tgt_size <> Z.sqrt L ->
      L = Z.sqrt L * Z.sqrt L -> 1 <= L -> 1 <= tgt_size ->
      exists out,
        get_abs_pos (H:=ops) abs_pos tgt_size = Ok out
        /\ Grid.dims out = [Z.sqrt tgt_size * Z.sqrt tgt_size; C]
        /\ (Grid.dims out = [tgt_size; C] <->
            tgt_size = Z.sqrt tgt_size * Z.sqrt tgt_size)).
Proof.
  intros Hd HC [HL _] [Ht _]. unfold get_abs_pos.
  split.
  - intros Heq. shape_simpl. rewrite Hd. shape_simpl. reflexivity.
  - intros Hne Hsq HL1 Ht1.
    assert (Hs : 1 <= Z.sqrt L) by (apply Z.sqrt_le_square; lia).
    assert (Hq : 1 <= Z.sqrt tgt_size) by (apply Z.sqrt_le_square; lia).
    shape_simpl. rewrite Hd. shape_simpl.
    exact_div (L * (C * 1)) (1 * (Z.sqrt L * (Z.sqrt L * 1))) C.
    shape_simpl.
    eexists. split; [reflexivity|]. cbn.
    assert (Hrows : 1 * (Z.sqrt tgt_size * (Z.sqrt tgt_size * 1)) =
                    Z.sqrt tgt_size * Z.sqrt tgt_size) by lia.
    rewrite Hrows. split; [reflexivity|]. split.
    + intros [= Erows]. lia.
    + intros Erows. now rewrite <- Erows.
Qed.
End GetAbsPosRows.

(** On shapes: a 2 x 2 grid asked for 10 tokens is rescaled to 3 x 3, that
    is, 9 rows and not the 10 that the comment announces. *)
Lemma get_abs_pos_not_square :
  Z.sqrt 10 <> Z.sqrt 4
  /\ get_abs_pos (T:=Torch.shape) [4; 2] 10 = Py.Ok [9; 2]
  /\ 9 <> 10.
Proof. repeat split; [discriminate | discriminate]. Qed.

Lemma get_abs_pos_rows_witness :
  let ops := Grid.tensor_ops Z (fun _ => 0) (fun _ _ _ d => d) 0 in
  let abs_pos := Grid.table Z Z.of_nat 4 2 in
  get_abs_pos (H:=ops) abs_pos 4 = Py.Ok abs_pos
  /\ exists out, get_abs_pos (H:=ops) abs_pos 10 = Py.Ok out
                 /\ Grid.dims out = [9; 2]
                 /\ Grid.dims out <> [10; 2].
Proof.
  intros ops abs_pos. split.
  - exact (proj1 (get_abs_pos_rows Z (fun _ => 0) (fun _ _ _ d => d) 0
                    abs_pos 4 2 4 eq_refl ltac:(lia) ltac:(lia) ltac:(lia))
                 eq_refl).
  - destruct (proj2 (get_abs_pos_rows Z (fun _ => 0) (fun _ _ _ d => d) 0
                       abs_pos 4 2 10 eq_refl ltac:(lia) ltac:(lia)
                       ltac:(lia))
                    ltac:(discriminate) eq_refl ltac:(lia) ltac:(lia))
      as (out & Hout & Hd & Hiff).
    exists out. split; [exact Hout|]. split; [exact Hd|].
    intros E. apply Hiff in E. discriminate.
Defined.

(* ===================================================================== *)
(** * [PoolProjector]: the rows of the output *)
(* ===================================================================== *)

Section PoolProjectorRows.
Import Py Torch.

(** The grid: [resolution = h*h], [pool_num = g*g], [h = g*s]. *)
Variable g s : Z.
Hypothesis g_pos : 1 <= g.
Hypothesis s_pos : 1 <= s.
Let resolution := g * s * (g * s).
Let pool_num := g * g.

Lemma item_slot_shape (t c : Z) :
  1 <= t -> 1 <= c ->
  PoolProjector.item_slot (T:=shape) resolution pool_num
    [t * resolution; c] =
  Ok [t * pool_num; c].
Proof.
  intros Ht Hc. unfold PoolProjector.item_slot, resolution, pool_num.
  shape_simpl.
  rewrite !Z.sqrt_square by nia.
  exact_div (t * (g * s * (g * s))) (g * s * (g * s)) t.
  exact_div (g * s) g s.
  exact_div (g * s * (g * s)) (g * g) (s * s).
  shape_simpl. reflexivity.
Qed.

Lemma item_concat_shape (t c : Z) :
  1 <= t -> 1 <= c ->
  PoolProjector.item_concat (T:=shape) resolution pool_num
    [t * resolution; c] =
  Ok [t * resolution + t * pool_num + 1; c].
Proof.
  intros Ht Hc. unfold PoolProjector.item_concat.
  rewrite item_slot_shape by assumption. unfold resolution, pool_num.
  shape_simpl. reflexivity.
Qed.

Lemma map_result_item_concat (c : Z) (ts : list Z) :
  1 <= c -> Forall (fun t => 1 <= t) ts ->
  PoolProjector.map_result
    (PoolProjector.item_concat (T:=shape) resolution pool_num)
    (map (fun t => [t * resolution; c]) ts) =
  Ok (map (fun t => [t * resolution + t * pool_num + 1; c]) ts).
Proof.
  intros Hc. induction 1 as [|t ts Ht _ IH]; [reflexivity|].
  cbn [map PoolProjector.map_result].
  rewrite item_concat_shape by assumption. cbn [Py.bind].
  rewrite IH. reflexivity.
Qed.

End PoolProjectorRows.

Section RowLists.
Import Py Torch.

Lemma cat_from_rows (c a : Z) (rs : list Z) :
  cat_from 0 [a; c] (map (fun r => [r; c] : shape) rs) =
  Ok [a + Spec.Zsum rs; c].
Proof.
  revert a. induction rs as [|r rs IH]; intros a; cbn [map cat_from].
  - cbn. now rewrite Z.add_0_r.
  - unfold cat2 at 1. shape_simpl. rewrite IH.
    change (Spec.Zsum (r :: rs)) with (r + Spec.Zsum rs).
    now rewrite Z.add_assoc.
Qed.

Lemma cat_rows (c r : Z) (rs : list Z) :
  cat (map (fun r => [r; c] : shape) (r :: rs)) 0 = Ok [Spec.Zsum (r :: rs); c].
Proof. cbn [map cat]. apply cat_from_rows. Qed.

Lemma Zsum_nonneg (rs : list Z) :
  Forall (fun r => 0 <= r) rs -> 0 <= Spec.Zsum rs.
Proof.
  induction rs as [|r rs IH]; intros Hall; [unfold Spec.Zsum; cbn; lia|].
  change (Spec.Zsum (r :: rs)) with (r + Spec.Zsum rs).
  pose proof (Forall_inv Hall) as Hr. cbn beta in Hr.
  apply Forall_inv_tail in Hall. specialize (IH Hall). lia.
Qed.

(** Cutting [R x c'] at the row counts [rs] gives tensors of these row
    counts, as long as they fit. *)
Lemma split_rows_rows (c c' R : Z) (rs : list Z) : forall feat_index,
  Forall (fun r => 0 <= r) rs ->
  0 <= feat_index -> feat_index + Spec.Zsum rs <= R ->
  PoolProjector.split_rows [R; c'] feat_index
    (map (fun r => [r; c] : shape) rs) =
  Ok (map (fun r => [r; c'] : shape) rs).
Proof.
  induction rs as [|r rs IH]; intros i Hall Hi Hfit; [reflexivity|].
  pose proof (Forall_inv Hall) as Hr. cbn beta in Hr.
  apply Forall_inv_tail in Hall.
  pose proof (Zsum_nonneg _ Hall) as Hs.
  change (Spec.Zsum (r :: rs)) with (r + Spec.Zsum rs) in Hfit.
  cbn [map PoolProjector.split_rows]. shape_simpl.
  rewrite IH by (auto; lia). cbn.
  now replace (i + r - i) with r by lia.
Qed.

End RowLists.

Section PoolProjectorClips.
Import Py Torch.

(** The list path on clips of [t] whole frames each. *)
Lemma PoolProjector_forward_clips (g s c hidden depth t : Z) (ts : list Z) :
  1 <= g -> 1 <= s -> 1 <= c -> Forall (fun t => 1 <= t) (t :: ts) ->
  let resolution := (g * s) * (g * s) in
  let pool_num := g * g in
  let m := PoolProjector.init (Factory.mlp_modules c hidden depth)
                              resolution pool_num in
  PoolProjector.forward m
    (TensorList (map (fun t => [t * resolution; c]) (t :: ts))) =
  Ok (TensorList
        (map (fun t => [t * resolution + t * pool_num + 1; hidden])
             (t :: ts))).
Proof.
  intros Hg Hs Hc Hts resolution pool_num m.
  unfold PoolProjector.forward, m, PoolProjector.init.
  cbn [PoolProjector.resolution PoolProjector.pool_num PoolProjector.mlp].
  subst resolution pool_num.
  rewrite (map_result_item_concat g s Hg Hs c (t :: ts) Hc Hts).
  cbn [Py.bind].
  set (resolution := g * s * (g * s)). set (pool_num := g * g).
  set (rows := map (fun t => t * resolution + t * pool_num + 1) (t :: ts)).
  assert (Hrows : map (fun t => [t * resolution + t * pool_num + 1; c])
                      (t :: ts) = map (fun r => [r; c] : shape) rows)
    by (unfold rows; now rewrite map_map).
  assert (Hout : map (fun t => [t * resolution + t * pool_num + 1; hidden])
                     (t :: ts) = map (fun r => [r; hidden] : shape) rows)
    by (unfold rows; now rewrite map_map).
  rewrite Hrows, Hout.
  assert (Hnn : Forall (fun r => 0 <= r) rows).
  { unfold rows. apply Forall_map. eapply Forall_impl; [exact Hts|].
    cbn beta. intros x Hx. unfold resolution, pool_num. nia. }
  assert (Hcat : cat (map (fun r => [r; c] : shape) rows) 0 =
                 Ok [Spec.Zsum rows; c]) by apply cat_rows.
  rewrite Hcat. cbn [Py.bind].
  rewrite mlp_modules_forward by reflexivity. cbn [Py.bind].
  unfold with_last. cbn [removelast app].
  rewrite split_rows_rows by (auto; lia). reflexivity.
Qed.

(** C4, amended: on a list input, with [resolution = h*h],
    [pool_num = g*g], [g] dividing [h], and each clip [t*resolution x c]
    for the width [c] the MLP expects, there is one output for each clip,
    in the order of the clips, and the output of a clip of [t] frames has
    [t*pool_num + 1 + t*resolution] rows: [pool_num] pooled tokens for each
    of its frames, one global token, and the original tokens. *)
Theorem PoolProjector_clip_rows (g s c hidden depth t : Z) (ts : list Z) :
  1 <= g -> 1 <= s -> 1 <= c -> Forall (fun t => 1 <= t) (t :: ts) ->
  let resolution := (g * s) * (g * s) in
  let pool_num := g * g in
  let m := PoolProjector.init (Factory.mlp_modules c hidden depth)
                              resolution pool_num in
  let clips := map (fun t => [t * resolution; c] : shape) (t :: ts) in
  exists outs,
    PoolProjector.forward m (TensorList clips) = Ok (TensorList outs)
    /\ length outs = length clips
    /\ forall i t_i, (t :: ts) !! i = Some t_i ->
         exists x, outs !! i = Some x
                   /\ size x 0 = Ok (t_i * pool_num + 1 + t_i * resolution).
Proof.
  intros Hg Hs Hc Hts resolution pool_num m clips.
  eexists. split; [now apply PoolProjector_forward_clips|].
  split; [unfold clips; now rewrite !length_map|].
  intros i t_i Hi. eexists. split.
  - change (map ?f ?l) with (f <$> l). rewrite list_lookup_fmap, Hi.
    reflexivity.
  - cbn. f_equal. lia.
Qed.

End PoolProjectorClips.

(** C4, as stated, fails on a clip of two frames: with [resolution = 4]
    and [pool_num = 1] a clip of 8 tokens gives 11 rows, one pooled token
    for each frame, and not [pool_num + 1 + 8 = 10]. *)
Lemma PoolProjector_two_frames :
  PoolProjector.forward
    (PoolProjector.init (Factory.mlp_modules 8 5 2) 4 1)
    (Torch.TensorList [[8; 8]]) = Py.Ok (Torch.TensorList [[11; 5]])
  /\ 11 <> 1 + 1 + 8.
Proof. split; [reflexivity | discriminate]. Qed.

Lemma PoolProjector_clip_rows_witness :
  exists outs,
    PoolProjector.forward
      (PoolProjector.init (Factory.mlp_modules 8 5 2) 16 4)
      (Torch.TensorList [[32; 8]; [16; 8]]) = Py.Ok (Torch.TensorList outs)
    /\ exists x, outs !! 0%nat = Some x /\ Torch.size x 0 = Py.Ok 41.
Proof.
  destruct (PoolProjector_clip_rows 2 2 8 5 2 2 [1]
              ltac:(lia) ltac:(lia) ltac:(lia)
              ltac:(repeat constructor; lia))
    as (outs & Hf & _ & Hrows).
  exists outs. split; [exact Hf|]. exact (Hrows O 2 eq_refl).
Defined.

(* ===================================================================== *)
(** * [PoolProjector]: which tokens a pooled token averages *)
(* ===================================================================== *)

Section RowMajor.
Import Grid.

Lemma prod_cons n ns : prod (n :: ns) = (n * prod ns)%nat.
Proof. reflexivity. Qed.

Lemma ravel_lt sizes : forall idx,
  Forall2 lt idx sizes -> (ravel sizes idx < prod sizes)%nat.
Proof.
  induction sizes as [|n sizes IH]; intros idx Hall.
  - inversion Hall; subst. cbn. lia.
  - inversion Hall as [|i n' idx' sizes' Hi Hrest]; subst.
    specialize (IH _ Hrest). cbn [ravel]. rewrite prod_cons. nia.
Qed.

Lemma unravel_ravel sizes : forall idx,
  Forall2 lt idx sizes -> unravel sizes (ravel sizes idx) = idx.
Proof.
  induction sizes as [|n sizes IH]; intros idx Hall.
  - now inversion Hall.
  - inversion Hall as [|i n' idx' sizes' Hi Hrest]; subst.
    pose proof (ravel_lt _ _ Hrest) as Hlt.
    cbn [ravel unravel]. f_equal.
    + rewrite Nat.div_add_l by lia. rewrite Nat.div_small by exact Hlt. lia.
    + rewrite Nat.add_comm, Nat.Div0.mod_add, Nat.mod_small by exact Hlt.
      now apply IH.
Qed.

Lemma lookup_map_seq {B} (F : nat -> B) (n j : nat) :
  (j < n)%nat -> map F (seq 0 n) !! j = Some (F j).
Proof.
  intros Hj. change (map F (seq 0 n)) with (F <$> seq 0 n).
  rewrite list_lookup_fmap, lookup_seq_lt by exact Hj. reflexivity.
Qed.

Lemma nth_map_seq {B} (F : nat -> B) (n j : nat) (d : B) :
  (j < n)%nat -> nth j (map F (seq 0 n)) d = F j.
Proof. intros Hj. apply nth_lookup_Some. now apply lookup_map_seq. Qed.

End RowMajor.

#[local] Arguments Grid.ravel : simpl never.
#[local] Arguments Grid.unravel : simpl never.
#[local] Arguments Grid.source_index : simpl never.
#[local] Arguments Grid.entry : simpl never.
#[local] Arguments Grid.prod : simpl never.

Section PoolProjectorMeans.
Import Py Grid.
Variable E : Type.
Variable mean_entries : list E -> E.
Variable bicubic : Torch.shape -> Z -> Z -> list E -> list E.
Variable pad : E.
Let ops := Grid.tensor_ops E mean_entries bicubic pad.

Variable X : nat -> E.
Variable g s c : nat.
Hypothesis g_pos : (1 <= g)%nat.
Hypothesis s_pos : (1 <= s)%nat.
Hypothesis c_pos : (1 <= c)%nat.

(** The reading of one pooled entry: [new] are the sizes after the
    permutation, [old] before it, [idx] the index in the permuted tensor
    and [src] where it comes from. *)
Lemma permuted_entry (old new axes : list nat) (idx src : list nat)
    (D : Torch.shape) (n j : nat) :
  Forall2 lt idx new -> j = ravel new idx ->
  source_index axes idx = src -> Forall2 lt src old ->
  map Z.to_nat D = old -> prod old = n ->
  nth j
      (map (fun j => entry E pad (mkTensor D (map X (seq 0 n)))
                       (source_index axes (unravel new j)))
           (seq 0 (prod new))) pad =
  X (ravel old src).
Proof.
  intros Hidx -> Hsrc Hin HD Hn.
  rewrite nth_map_seq by now apply ravel_lt.
  rewrite unravel_ravel by exact Hidx. rewrite Hsrc.
  unfold entry, sizes. cbn [dims data]. rewrite HD.
  apply nth_map_seq. rewrite <- Hn. now apply ravel_lt.
Qed.

Lemma quot_rem (q d r : nat) :
  (r < d)%nat -> ((q * d + r) / d = q /\ (q * d + r) mod d = r)%nat.
Proof.
  intros Hr. split.
  - rewrite Nat.div_add_l by lia. rewrite Nat.div_small by exact Hr. lia.
  - rewrite Nat.add_comm, Nat.Div0.mod_add. now apply Nat.mod_small.
Qed.

Lemma item_slot_table (t : nat) :
  (1 <= t)%nat ->
  exists slot,
    PoolProjector.item_slot (H:=ops) (Z.of_nat (g * s * (g * s)))
      (Z.of_nat (g * g)) (table E X (t * (g * s * (g * s))) c) = Ok slot
    /\ dims slot = [Z.of_nat (t * (g * g)); Z.of_nat c]
    /\ forall f a b ch,
         (f < t)%nat -> (a < g)%nat -> (b < g)%nat -> (ch < c)%nat ->
         data slot !! ((f * (g * g) + a * g + b) * c + ch)%nat =
         Some (mean_entries
                 (map (fun token => X (token * c + ch)%nat)
                      (Spec.cell_tokens g s f a b))).
Proof.
  intros Ht. unfold PoolProjector.item_slot, table.
  rewrite !Nat2Z.inj_mul.
  remember (Z.of_nat g) as G eqn:EG.
  remember (Z.of_nat s) as S eqn:ES.
  remember (Z.of_nat c) as C eqn:EC.
  remember (Z.of_nat t) as T eqn:ET.
  shape_simpl.
  rewrite !Z.sqrt_square by nia.
  exact_div (T * (G * S * (G * S))) (G * S * (G * S)) T.
  exact_div (G * S) G S.
  exact_div (G * S * (G * S)) (G * G) (S * S).
  shape_simpl.
  eexists. split; [reflexivity|]. cbn. split; [reflexivity|].
  intros f a b ch Hf Ha Hb Hch.
  subst G S C T. rewrite <- !Nat2Z.inj_mul, !Nat2Z.id.
  replace (prod [c]) with c by (unfold prod; cbn; lia).
  replace (prod [t; (g * g)%nat]) with (t * (g * g))%nat
    by (unfold prod; cbn; lia).
  assert (Hcell : (a * g + b < g * g)%nat) by nia.
  assert (Hrow : (f * (g * g) + a * g + b < t * (g * g))%nat) by nia.
  rewrite lookup_map_seq by nia.
  destruct (quot_rem (f * (g * g) + a * g + b) c ch Hch) as [-> ->].
  do 2 f_equal. unfold Spec.cell_tokens. rewrite map_map.
  apply map_ext_in. intros r Hr. apply in_seq in Hr.
  assert (Hi : (r / s < s)%nat) by (apply Nat.Div0.div_lt_upper_bound; lia).
  assert (Hj : (r mod s < s)%nat) by (apply Nat.mod_upper_bound; lia).
  pose proof (Nat.div_mod_eq r s) as Er.
  rewrite (permuted_entry [t; g; s; g; s; c] [t; g; g; s; s; c] _
             [f; a; b; (r / s)%nat; (r mod s)%nat; ch]
             [f; a; (r / s)%nat; b; (r mod s)%nat; ch]).
  - f_equal. unfold ravel, prod. cbn. ring.
  - repeat constructor; lia.
  - unfold ravel, prod. cbn.
    set (i := (r / s)%nat) in *. set (j := (r mod s)%nat) in *.
    clearbody i j. subst r. ring.
  - reflexivity.
  - repeat constructor; lia.
  - cbn. now rewrite !Nat2Z.id.
  - unfold prod. cbn. ring.
Qed.

Lemma batch_slot_tables (n t : nat) :
  (1 <= n)%nat -> (1 <= t)%nat ->
  exists slot,
    PoolProjector.batch_slot (H:=ops) (Z.of_nat (g * s * (g * s)))
      (Z.of_nat (g * g)) (tables E X n (t * (g * s * (g * s))) c) = Ok slot
    /\ dims slot = [Z.of_nat n; Z.of_nat (t * (g * g)); Z.of_nat c]
    /\ forall i f a b ch,
         (i < n)%nat -> (f < t)%nat -> (a < g)%nat -> (b < g)%nat ->
         (ch < c)%nat ->
         data slot
           !! ((i * (t * (g * g)) + f * (g * g) + a * g + b) * c + ch)%nat =
         Some (mean_entries
                 (map (fun token => X (token * c + ch)%nat)
                      (Spec.cell_tokens g s (i * t + f) a b))).
Proof.
  intros Hn Ht. unfold PoolProjector.batch_slot, tables.
  rewrite !Nat2Z.inj_mul.
  remember (Z.of_nat g) as G eqn:EG.
  remember (Z.of_nat s) as S eqn:ES.
  remember (Z.of_nat c) as C eqn:EC.
  remember (Z.of_nat t) as T eqn:ET.
  remember (Z.of_nat n) as N eqn:EN.
  shape_simpl.
  rewrite !Z.sqrt_square by nia.
  exact_div (T * (G * S * (G * S))) (G * S * (G * S)) T.
  exact_div (G * S) G S.
  exact_div (G * S * (G * S)) (G * G) (S * S).
  shape_simpl.
  eexists. split; [reflexivity|]. cbn. split; [reflexivity|].
  intros i f a b ch Hi Hf Ha Hb Hch.
  subst G S C T N. rewrite <- !Nat2Z.inj_mul, !Nat2Z.id.
  replace (prod [c]) with c by (unfold prod; cbn; lia).
  replace (prod [n; t; (g * g)%nat]) with (n * (t * (g * g)))%nat
    by (unfold prod; cbn; lia).
  assert (Hcell : (a * g + b < g * g)%nat) by nia.
  assert (Hframe : (f * (g * g) + a * g + b < t * (g * g))%nat) by nia.
  assert (Hrow : (i * (t * (g * g)) + f * (g * g) + a * g + b
                  < n * (t * (g * g)))%nat) by nia.
  rewrite lookup_map_seq by nia.
  destruct (quot_rem (i * (t * (g * g)) + f * (g * g) + a * g + b) c ch Hch)
    as [-> ->].
  do 2 f_equal. unfold Spec.cell_tokens. rewrite map_map.
  apply map_ext_in. intros r Hr. apply in_seq in Hr.
  assert (Hu : (r / s < s)%nat) by (apply Nat.Div0.div_lt_upper_bound; lia).
  assert (Hv : (r mod s < s)%nat) by (apply Nat.mod_upper_bound; lia).
  pose proof (Nat.div_mod_eq r s) as Er.
  rewrite (permuted_entry [n; t; g; s; g; s; c] [n; t; g; g; s; s; c] _
             [i; f; a; b; (r / s)%nat; (r mod s)%nat; ch]
             [i; f; a; (r / s)%nat; b; (r mod s)%nat; ch]).
  - f_equal. unfold ravel, prod. cbn. ring.
  - repeat constructor; lia.
  - unfold ravel, prod. cbn.
    set (u := (r / s)%nat) in *. set (v := (r mod s)%nat) in *.
    clearbody u v. subst r. ring.
  - reflexivity.
  - repeat constructor; lia.
  - cbn. now rewrite !Nat2Z.id.
  - unfold prod. cbn. ring.
Qed.

(** C5: with [resolution = h*h], [pool_num = g*g] and [h = g*s], every
    entry of a pooled token is what [torch.mean] makes of the entries, in
    the same channel, of the [s*s = resolution/pool_num] tokens of its cell of
    the macro-grid, and of no others: for a clip given as one item of a list
    (pooled token [a*g+b] of frame [f] is row [f*pool_num + a*g + b] of
    [slot]), and for a batch given as one tensor (the same row, in batch
    element [i]). *)
Theorem PoolProjector_block_mean (n t : nat) :
  (1 <= n)%nat -> (1 <= t)%nat ->
  let resolution := Z.of_nat (g * s * (g * s)) in
  let pool_num := Z.of_nat (g * g) in
  let cell_mean f a b ch :=
    mean_entries (map (fun token => X (token * c + ch)%nat)
                      (Spec.cell_tokens g s f a b)) in
  (forall f a b, length (Spec.cell_tokens g s f a b) = (s * s)%nat)
  /\ (exists slot,
        PoolProjector.item_slot (H:=ops) resolution pool_num
          (table E X (t * (g * s * (g * s))) c) = Ok slot
        /\ dims slot = [Z.of_nat (t * (g * g)); Z.of_nat c]
        /\ forall f a b ch,
             (f < t)%nat -> (a < g)%nat -> (b < g)%nat -> (ch < c)%nat ->
             data slot !! ((f * (g * g) + a * g + b) * c + ch)%nat =
             Some (cell_mean f a b ch))
  /\ (exists slot,
        PoolProjector.batch_slot (H:=ops) resolution pool_num
          (tables E X n (t * (g * s * (g * s))) c) = Ok slot
        /\ dims slot = [Z.of_nat n; Z.of_nat (t * (g * g)); Z.of_nat c]
        /\ forall i f a b ch,
             (i < n)%nat -> (f < t)%nat -> (a < g)%nat -> (b < g)%nat ->
             (ch < c)%nat ->
             data slot
               !! ((i * (t * (g * g)) + f * (g * g) + a * g + b) * c
                   + ch)%nat =
             Some (cell_mean (i * t + f)%nat a b ch)).
Proof.
  intros Hn Ht resolution pool_num cell_mean.
  split; [|split].
  - intros f a b. unfold Spec.cell_tokens. now rewrite length_map, length_seq.
  - exact (item_slot_table t Ht).
  - exact (batch_slot_tables n t Hn Ht).
Qed.

End PoolProjectorMeans.

(** A 4 x 4 grid of one-channel tokens [0 .. 15] pooled to 2 x 2, with the
    arithmetic mean of rationals for [torch.mean]: the first pooled token is
    the mean of the tokens 0, 1, 4 and 5. *)
Lemma PoolProjector_block_mean_witness :
  let ops := Grid.tensor_ops Q Spec.arithmetic_mean (fun _ _ _ d => d) 0%Q in
  let X (i : nat) := inject_Z (Z.of_nat i) in
  exists slot,
    PoolProjector.item_slot (H:=ops) 16 4 (Grid.table Q X 16 1) = Py.Ok slot
    /\ Grid.data slot !! O =
       Some (Spec.arithmetic_mean [X 0; X 1; X 4; X 5]%nat).
Proof.
  intros ops X.
  destruct (PoolProjector_block_mean Q Spec.arithmetic_mean
              (fun _ _ _ d => d) 0%Q X 2 2 1
              ltac:(lia) ltac:(lia) ltac:(lia) 1 1 ltac:(lia) ltac:(lia))
    as (_ & (slot & Hslot & _ & Hmean) & _).
  exists slot. split; [exact Hslot|].
  exact (Hmean O O O O ltac:(lia) ltac:(lia) ltac:(lia) ltac:(lia)).
Defined.

(* ===================================================================== *)
(** * The factory: the width of the output *)
(* ===================================================================== *)

Ltac bool_hyps :=
  repeat match goal with
    | H : (_ && _)%bool = true |- _ => apply andb_prop in H as [? ?]
    | H : Z.leb _ _ = true |- _ => apply Z.leb_le in H
    | H : Z.eqb _ _ = true |- _ => apply Z.eqb_eq in H
    | H : Z.ltb _ _ = true |- _ => apply Z.ltb_lt in H
    | H : true = true |- _ => clear H
    end.

(** Settle the quotient of some [a mod b] of the goal, which is [q]. *)
Ltac quotient_is q :=
  match goal with
  | |- context [Z.modulo ?a ?b] => exact_div a b q
  end.

(** Evaluate a quotient or a remainder of two literals. *)
Ltac literal_divmod :=
  match goal with
  | |- context [Z.modulo (Zpos ?a) (Zpos ?b)] =>
      let v := eval vm_compute in (Z.modulo (Zpos a) (Zpos b)) in
      change (Z.modulo (Zpos a) (Zpos b)) with v
  | |- context [Z.div (Zpos ?a) (Zpos ?b)] =>
      let v := eval vm_compute in (Z.div (Zpos a) (Zpos b)) in
      change (Z.div (Zpos a) (Zpos b)) with v
  end.

(** Split on a comparison that the hypotheses do not decide. *)
Ltac split_eqb :=
  match goal with
  | |- context [if Z.eqb ?a ?b then _ else _] => destruct (Z.eqb_spec a b)
  end.

(** The cases of a shape by its rank, up to rank 4. *)
Ltac shape_cases x :=
  destruct x as [|? [|? [|? [|? [|? ?]]]]].

#[local] Arguments combine_project : simpl never.

Section ForwardShapes.
Import Py Torch Factory.

Lemma default_last_Some (x : shape) (w : Z) :
  1 <= w -> default 0 (last x) = w -> last x = Some w.
Proof. destruct (last x); cbn; intros; [congruence | lia]. Qed.

Lemma in_width_mlp_modules first hidden depth :
  Spec.in_width (mlp_modules first hidden depth) = first.
Proof.
  unfold mlp_modules. generalize (range_from 1 depth) as l.
  assert (H : exists rest,
             [LinearLayer (mkLinear first hidden)] =
             LinearLayer (mkLinear first hidden) :: rest) by eauto.
  revert H. generalize [LinearLayer (mkLinear first hidden)] as acc.
  intros acc H l. revert acc H.
  induction l as [|i l IH]; intros acc [rest ->]; [reflexivity|].
  cbn [fold_left]. apply IH. cbn. eauto.
Qed.

(** An MLP of the factory, on a tensor of positive sizes whose last size is
    the one it expects. *)
Lemma mlp_forward_width first hidden depth (x : shape) :
  1 <= first ->
  default 0 (last x) = first ->
  Sequential_forward (mlp_modules first hidden depth) x =
  Ok (with_last x hidden).
Proof.
  intros Hf Hl. apply mlp_modules_forward. now apply default_last_Some.
Qed.

Lemma SlotAttention_forward_built n M H (sa : SlotAttention.t) b n' :
  SlotAttention.init n M 3 H H SlotAttention.default_eps = Ok sa ->
  1 <= b -> 1 <= n' ->
  SlotAttention.forward sa [b; n'; M] = Ok [b; n; H].
Proof.
  intros Hsa Hb Hn.
  rewrite (SlotAttention_forward_unfold _ _ _ _ _ _ _ _ _ Hsa) by lia.
  rewrite (SlotAttention_rounds_shape _ _ _ _ _ _ _ _ _ _ Hsa).
  shape_simpl. reflexivity.
Qed.

Lemma PerceiverSampler_forward_shape bert n M H b n' :
  1 <= b ->
  PerceiverSampler.forward (PerceiverSampler.init bert n M H) [b; n'; M] =
  Ok [b; n; H].
Proof.
  intros Hb. unfold PerceiverSampler.forward, PerceiverSampler.init.
  shape_simpl. destruct (b =? 1); shape_simpl; reflexivity.
Qed.

Lemma binary_insert (p : list Z) (k : nat) (v : Z) :
  Spec.binary p = true -> v = 0 \/ v = 1 ->
  Spec.binary (<[k := v]> p) = true.
Proof.
  intros Hb Hv. unfold Spec.binary in *. rewrite forallb_forall in *.
  intros x Hx. apply list_elem_of_In, list_elem_of_lookup in Hx as [j Hj].
  destruct (decide (j = k)) as [->|Hne].
  - destruct (decide (k < length p)%nat) as [Hk|Hk].
    + rewrite list_lookup_insert_eq in Hj by exact Hk. injection Hj as <-.
      destruct Hv as [-> | ->]; reflexivity.
    + rewrite list_insert_ge in Hj by lia.
      apply Hb, list_elem_of_In, list_elem_of_lookup. eauto.
  - rewrite list_lookup_insert_ne in Hj by congruence.
    apply Hb, list_elem_of_In, list_elem_of_lookup. eauto.
Qed.

Lemma rebalance_binary (p : list Z) drawn :
  Spec.binary p = true -> 0 <= drawn < Z.of_nat (length p) ->
  exists p',
    MultiProjector.rebalance (MultiProjector.where_eq p 0)
      (MultiProjector.where_eq p 1) p drawn = Ok p'
    /\ Spec.binary p' = true /\ length p' = length p.
Proof.
  intros Hb Hd.
  destruct (MultiProjector.where_eq p 0) as [|i0 l0] eqn:E0.
  - exists (<[Z.to_nat drawn := 0]> p). rewrite <- E0.
    rewrite rebalance_no_mlp by assumption.
    split; [reflexivity|]. split; [|apply length_insert].
    apply binary_insert; auto.
  - destruct (MultiProjector.where_eq p 1) as [|i1 l1] eqn:E1.
    + exists (<[Z.to_nat drawn := 1]> p). rewrite <- E0, <- E1.
      rewrite rebalance_no_sa;
        [| rewrite E0; discriminate | exact E1 | exact Hd].
      split; [reflexivity|]. split; [|apply length_insert].
      apply binary_insert; auto.
    + exists p. rewrite <- E0, <- E1.
      rewrite rebalance_balanced by (rewrite ?E0, ?E1; discriminate).
      auto.
Qed.

(** [MultiProjector.forward] on shapes, in training mode: every element
    of the returned list is a row block of one of the two branches. *)
Lemma MultiProjector_forward_shape_training
    (mlp : Sequential) (sa : SlotAttention.t) (b n ns M H : Z)
    (p : list Z) (drawn : Z) :
  Sequential_forward mlp [b; n; M] = Ok [b; n; H] ->
  SlotAttention.forward sa [b; n; M] = Ok [b; ns; H] ->
  Z.of_nat (length p) = b -> Spec.binary p = true -> 0 <= drawn < b ->
  exists fs,
    fst (MultiProjector.forward_shape (MultiProjector.mk true mlp sa) drawn
           (MultiProjector.mkStore (X:=shape) (Some p) [b; n; M])) =
    Ok (MultiProjector.Elements fs)
    /\ Forall (fun x => last x = Some H) fs.
Proof.
  intros Hmlp Hsa Hlen Hb Hd.
  destruct (rebalance_binary p drawn Hb ltac:(lia)) as (p' & Hr & Hb' & Hl').
  exists (Spec.chosen p' (replicate (length p) ([n; H] : shape))
                      (replicate (length p) ([ns; H] : shape))).
  split.
  - unfold MultiProjector.forward_shape, MultiProjector.forward.
    cbn [negb MultiProjector.training MultiProjector.mlp MultiProjector.sa
         MultiProjector.projector MultiProjector.inputs].
    rewrite Hmlp, Hsa, Hr. cbn [fst]. cbn [size lookup list_lookup Py.bind].
    rewrite <- Hlen, range_of_nat.
    rewrite (collect_chosen Torch.getitem [Z.of_nat (length p); n; H]
               [Z.of_nat (length p); ns; H]
               (replicate (length p) [n; H])
               (replicate (length p) [ns; H])).
    + cbn [Py.bind app]. rewrite drop_0.
      rewrite length_chosen by (rewrite length_replicate; lia).
      rewrite Hl', Z.eqb_refl. reflexivity.
    + intros k m Hk. apply lookup_replicate in Hk as [-> Hk].
      unfold getitem. shape_simpl. reflexivity.
    + intros k m Hk. apply lookup_replicate in Hk as [-> Hk].
      unfold getitem. shape_simpl. reflexivity.
    + exact Hb'.
    + lia.
    + rewrite length_replicate. lia.
    + rewrite length_replicate. lia.
  - apply Forall_lookup_2. intros i x Hx. unfold Spec.chosen in Hx.
    rewrite lookup_zip_with in Hx.
    destruct (p' !! i) as [v|]; [|discriminate]. cbn in Hx.
    rewrite lookup_zip_with in Hx.
    destruct (replicate (length p) ([n; H] : shape) !! i) as [m|] eqn:Em;
      [|discriminate].
    cbn in Hx.
    destruct (replicate (length p) ([ns; H] : shape) !! i) as [m'|] eqn:Es;
      [|discriminate].
    apply lookup_replicate in Em as [-> _].
    apply lookup_replicate in Es as [-> _].
    cbn in Hx. injection Hx as <-. destruct (v =? 0); reflexivity.
Qed.

(** The shared idiom on a pair of 3-D tensors of the expected width. *)
Lemma combine_project_pair W H (b1 n1 b2 n2 : Z) :
  1 <= W -> 1 <= b1 -> 1 <= n1 -> 1 <= b2 -> 1 <= n2 ->
  combine_project
    [LinearLayer (mkLinear W H); GELU; LinearLayer (mkLinear H H)]
    [b1; n1; W] [b2; n2; W] =
  Ok ([b1; n1; H], [b2; n2; H]).
Proof.
  intros HW Hb1 Hn1 Hb2 Hn2. unfold combine_project. shape_simpl.
  quotient_is (b1 * n1). quotient_is (b2 * n2). shape_simpl.
  quotient_is H. shape_simpl.
  quotient_is H. shape_simpl. reflexivity.
Qed.

Lemma CompressProjector_forward_tensor W H ns (b n : Z) :
  1 <= W -> 1 <= b -> 1 <= n ->
  CompressProjector.forward
    (CompressProjector.init (mlp_modules W H 2) ns H) (Tensor [b; n; W]) =
  Ok (Tensor [b; n + ns; H]).
Proof.
  intros HW Hb Hn.
  unfold CompressProjector.forward, CompressProjector.init,
    CompressProjector.append_query.
  rewrite mlp_modules_2. shape_simpl. reflexivity.
Qed.

Lemma CompressProjector_forward_pair W H ns (b1 n1 b2 n2 : Z) :
  1 <= W -> 1 <= b1 -> 1 <= n1 -> 1 <= b2 -> 1 <= n2 ->
  CompressProjector.forward
    (CompressProjector.init (mlp_modules W H 2) ns H)
    (TensorList [[b1; n1; W]; [b2; n2; W]]) =
  Ok (TensorList [[b1; n1 + ns; H]; [b2; n2 + ns; H]]).
Proof.
  intros HW Hb1 Hn1 Hb2 Hn2.
  unfold CompressProjector.forward, CompressProjector.init,
    CompressProjector.append_query.
  rewrite mlp_modules_2.
  cbn [unpack_pair Py.bind CompressProjector.mlp CompressProjector.query].
  rewrite combine_project_pair by assumption.
  shape_simpl. reflexivity.
Qed.

Lemma BaseProjector_forward_3d W H (n k : Z) :
  1 <= W ->
  BaseProjector.forward (BaseProjector.init (mlp_modules W H 2))
    (Tensor [n; k; W]) = Ok (Tensor [n; k; H]).
Proof.
  intros HW. unfold BaseProjector.forward, BaseProjector.init.
  rewrite mlp_modules_2. shape_simpl. reflexivity.
Qed.

Lemma BaseProjector_forward_4d W H (n t k : Z) :
  1 <= W ->
  BaseProjector.forward (BaseProjector.init (mlp_modules W H 2))
    (Tensor [n; t; k; W]) = Ok (Tensor [n; t + k; H]).
Proof.
  intros HW. unfold BaseProjector.forward, BaseProjector.init.
  rewrite mlp_modules_2. shape_simpl. reflexivity.
Qed.

Lemma BaseProjector_forward_pair W H (n1 k1 n2 t k : Z) :
  1 <= W -> 1 <= n1 -> 1 <= k1 -> 1 <= n2 -> 1 <= t -> 1 <= k ->
  BaseProjector.forward (BaseProjector.init (mlp_modules W H 2))
    (TensorList [[n1; k1; W]; [n2; t; k; W]]) =
  Ok (TensorList [[n1; k1; H]; [n2; t + k; H]]).
Proof.
  intros HW Hn1 Hk1 Hn2 Ht Hk.
  unfold BaseProjector.forward, BaseProjector.init.
  rewrite mlp_modules_2.
  cbn [unpack_pair Py.bind BaseProjector.mlp].
  shape_simpl.
  rewrite combine_project_pair by lia.
  reflexivity.
Qed.

Lemma BaseMixProjector_forward_3d W H (n k : Z) :
  1 <= W ->
  BaseMixProjector.forward (BaseMixProjector.init (mlp_modules W H 2))
    (Tensor [n; k; W]) = Ok (Tensor [n; k; H]).
Proof.
  intros HW. unfold BaseMixProjector.forward, BaseMixProjector.init.
  rewrite mlp_modules_2. shape_simpl. reflexivity.
Qed.

Lemma BaseMixProjector_forward_4d W H (n t k : Z) :
  1 <= W -> 1 <= n -> 1 <= t -> 1 <= k ->
  BaseMixProjector.forward (BaseMixProjector.init (mlp_modules W H 2))
    (Tensor [n; t; k; W]) = Ok (Tensor [n; t * k; H]).
Proof.
  intros HW Hn Ht Hk. unfold BaseMixProjector.forward, BaseMixProjector.init.
  rewrite mlp_modules_2. shape_simpl. reflexivity.
Qed.

Lemma BaseMixProjector_forward_pair W H (n1 k1 n2 t k : Z) :
  1 <= W -> 1 <= n1 -> 1 <= k1 -> 1 <= n2 -> 1 <= t -> 1 <= k ->
  BaseMixProjector.forward (BaseMixProjector.init (mlp_modules W H 2))
    (TensorList [[n1; k1; W]; [n2; t; k; W]]) =
  Ok (TensorList [[n1; k1; H]; [n2; t * k; H]]).
Proof.
  intros HW Hn1 Hk1 Hn2 Ht Hk.
  unfold BaseMixProjector.forward, BaseMixProjector.init.
  rewrite mlp_modules_2.
  cbn [unpack_pair Py.bind BaseMixProjector.mlp BaseMixProjector.unpack4].
  shape_simpl.
  rewrite combine_project_pair by nia.
  reflexivity.
Qed.

Lemma PoolProjector_forward_tensor (g s W H n t : Z) :
  1 <= g -> 1 <= s -> 1 <= W -> 1 <= n -> 1 <= t ->
  PoolProjector.forward
    (PoolProjector.init (mlp_modules W H 2) (g * s * (g * s)) (g * g))
    (Tensor [n; t * (g * s * (g * s)); W]) =
  Ok (Tensor [n; t * (g * s * (g * s)) + t * (g * g) + 1; H]).
Proof.
  intros Hg Hs HW Hn Ht.
  unfold PoolProjector.forward, PoolProjector.init,
    PoolProjector.batch_concat, PoolProjector.batch_slot.
  rewrite mlp_modules_2. shape_simpl.
  rewrite !Z.sqrt_square by nia.
  exact_div (t * (g * s * (g * s))) (g * s * (g * s)) t.
  exact_div (g * s) g s.
  exact_div (g * s * (g * s)) (g * g) (s * s).
  shape_simpl. reflexivity.
Qed.

Lemma get_2d_sincos_pos_embed_shape (G : Z) :
  0 <= G -> PosEmbed.get_2d_sincos_pos_embed 4096 G = Ok [G * G; 4096].
Proof.
  intros HG. unfold PosEmbed.get_2d_sincos_pos_embed,
    PosEmbed.get_2d_sincos_pos_embed_from_grid,
    PosEmbed.get_1d_sincos_pos_embed_from_grid.
  repeat literal_divmod. shape_simpl. rewrite ?Z.mod_1_r, ?Z.div_1_r.
  shape_simpl. do 2 f_equal. lia.
Qed.

(** The attention layer of the width and the heads the factory passes. *)
Lemma MultiheadAttention_init_4096 :
  MultiheadAttention_init 4096 (4096 / 128) = Ok (mkMHA 4096 (4096 / 128)).
Proof. reflexivity. Qed.

Lemma QwenResampler_forward_shape (G H M b q : Z) :
  1 <= G -> 1 <= H -> 1 <= b -> 1 <= q ->
  exists m,
    QwenResampler.init G 4096 (4096 / 128) (Some 1664) H M = Ok m
    /\ QwenResampler.src_kv_proj m = Some (mkLinear M 1664)
    /\ QwenResampler.forward m [b; q * q; M] = Ok [b; G ^ 2; H].
Proof.
  intros HG HH Hb Hq. unfold QwenResampler.init.
  rewrite MultiheadAttention_init_4096.
  rewrite get_2d_sincos_pos_embed_shape by lia.
  unfold pow_neg_half_of. shape_simpl.
  eexists. split; [reflexivity|]. split; [reflexivity|].
  unfold QwenResampler.forward, get_abs_pos, QwenResampler._repeat.
  shape_simpl. rewrite !Z.sqrt_square by lia.
  rewrite ?Z.mul_1_l, ?Z.mul_1_r.
  destruct (Z.eqb_spec G q) as [->|Hne]; shape_simpl.
  - split_eqb; shape_simpl; reflexivity.
  - quotient_is 4096. shape_simpl.
    split_eqb; shape_simpl; reflexivity.
Qed.

End ForwardShapes.

Section FactoryContract.
Import Py Torch Factory.

Lemma serves_linear M H :
  1 <= M -> Spec.serves_width H (Linear_ (mkLinear M H)).
Proof.
  intros HM mode inputs projector drawn Hws. cbn [train] in *.
  destruct inputs as [x| |]; cbn in Hws; try discriminate. bool_hyps.
  exists (Tensor (with_last x H)). cbn.
  rewrite Linear_forward_last by now apply default_last_Some.
  split; [reflexivity | apply with_last_last].
Qed.

Lemma serves_mlp M H depth :
  1 <= M -> Spec.serves_width H (Sequential_ (mlp_modules M H depth)).
Proof.
  intros HM mode inputs projector drawn Hws. cbn [train] in *.
  destruct inputs as [x| |]; cbn [Spec.well_shaped] in Hws;
    try discriminate.
  bool_hyps. rewrite in_width_mlp_modules in *.
  exists (Tensor (with_last x H)). cbn [forward on_tensor].
  rewrite mlp_forward_width by assumption.
  split; [reflexivity | apply with_last_last].
Qed.

Lemma SlotAttention_init_total n M H :
  1 <= M -> exists sa,
    SlotAttention.init n M 3 H H SlotAttention.default_eps = Ok sa
    /\ SlotAttention.norm_input sa = mkLayerNorm M.
Proof.
  intros HM. unfold SlotAttention.init, pow_neg_half_of. shape_simpl.
  eexists. split; reflexivity.
Qed.

Lemma serves_slot n M H sa :
  SlotAttention.init n M 3 H H SlotAttention.default_eps = Ok sa ->
  Spec.serves_width H (SlotAttention_ sa).
Proof.
  intros Hsa mode inputs projector drawn Hws. cbn [train] in *.
  pose proof (SlotAttention_init_Ok _ _ _ _ _ _ _ Hsa) as [Esa _].
  destruct inputs as [x| |]; cbn [Spec.well_shaped] in Hws;
    try discriminate.
  shape_cases x; try discriminate.
  rewrite Esa in Hws. cbn in Hws. bool_hyps. subst.
  eexists. cbn [forward on_tensor].
  rewrite (SlotAttention_forward_built _ _ _ _ _ _ Hsa) by assumption.
  split; reflexivity.
Qed.

Lemma serves_perceiver bert n M H :
  Spec.serves_width H (PerceiverSampler_ (PerceiverSampler.init bert n M H)).
Proof.
  intros mode inputs projector drawn Hws. cbn [train] in *.
  destruct inputs as [x| |]; cbn [Spec.well_shaped] in Hws;
    try discriminate.
  shape_cases x; try discriminate.
  cbn in Hws. bool_hyps. subst.
  eexists. cbn [forward on_tensor].
  rewrite PerceiverSampler_forward_shape by assumption.
  split; reflexivity.
Qed.

Lemma serves_mlpslot n M H sa :
  1 <= M ->
  SlotAttention.init n M 3 H H SlotAttention.default_eps = Ok sa ->
  Spec.serves_width H
    (MultiProjector_ (MultiProjector.init (mlp_modules M H 2) sa)).
Proof.
  intros HM Hsa mode inputs projector drawn Hws.
  cbn [train MultiProjector.init MultiProjector.set_training
       MultiProjector.mlp MultiProjector.sa] in *.
  destruct inputs as [x| |]; cbn [Spec.well_shaped] in Hws;
    try discriminate.
  shape_cases x; try discriminate.
  unfold MultiProjector.set_training, MultiProjector.init in *.
  cbn [MultiProjector.mlp MultiProjector.sa MultiProjector.training] in *.
  rewrite in_width_mlp_modules in Hws.
  destruct mode.
  - destruct projector as [p|]; [|cbn in Hws; bool_hyps; discriminate].
    cbn [Spec.positive forallb] in Hws. bool_hyps. subst.
    match goal with
    | |- context [Tensor [?b; ?k; M]] =>
        destruct (MultiProjector_forward_shape_training
                    (mlp_modules M H 2) sa b k n M H p drawn)
          as (fs & Hfs & Hwidth)
    end.
    + rewrite mlp_forward_width by (auto; reflexivity). reflexivity.
    + eapply SlotAttention_forward_built; eauto; lia.
    + reflexivity.
    + assumption.
    + lia.
    + exists (TensorList fs). cbn [forward]. rewrite Hfs. cbn.
      split; [reflexivity | exact Hwidth].
  - cbn [Spec.positive forallb] in Hws. bool_hyps. subst.
    eexists. cbn [forward]. unfold MultiProjector.forward_shape,
      MultiProjector.forward.
    cbn [negb MultiProjector.training MultiProjector.mlp
         MultiProjector.inputs fst].
    rewrite mlp_forward_width by (auto; reflexivity).
    cbn. split; reflexivity.
Qed.

Lemma serves_compress n M H :
  1 <= M ->
  Spec.serves_width H
    (CompressProjector_
       (CompressProjector.init (mlp_modules (4 * M) H 2) n H)).
Proof.
  intros HM mode inputs projector drawn Hws. cbn [train] in *.
  destruct inputs as [x|xs|]; cbn [Spec.well_shaped] in Hws;
    try discriminate.
  - shape_cases x; try discriminate.
    cbn in Hws. bool_hyps. subst. eexists. cbn [forward].
    rewrite CompressProjector_forward_tensor by lia.
    split; reflexivity.
  - destruct xs as [|x1 [|x2 [|x3 xs]]]; try discriminate;
      shape_cases x1; try discriminate;
      shape_cases x2; try discriminate.
    cbn in Hws. bool_hyps. subst. eexists. cbn [forward].
    rewrite CompressProjector_forward_pair by lia.
    split; [reflexivity|]. repeat constructor.
Qed.

Lemma serves_base M H :
  1 <= M ->
  Spec.serves_width H (BaseProjector_ (BaseProjector.init (mlp_modules M H 2))).
Proof.
  intros HM mode inputs projector drawn Hws. cbn [train] in *.
  destruct inputs as [x|xs|]; cbn [Spec.well_shaped] in Hws;
    try discriminate.
  - shape_cases x; try discriminate;
      cbn in Hws; bool_hyps; subst; eexists; cbn [forward].
    + rewrite BaseProjector_forward_3d by lia. split; reflexivity.
    + rewrite BaseProjector_forward_4d by lia. split; reflexivity.
  - destruct xs as [|x1 [|x2 [|x3 xs]]]; try discriminate;
      shape_cases x1; try discriminate;
      shape_cases x2; try discriminate.
    cbn in Hws. bool_hyps. subst. eexists. cbn [forward].
    rewrite BaseProjector_forward_pair by lia.
    split; [reflexivity|]. repeat constructor.
Qed.

Lemma serves_base_mix M H :
  1 <= M ->
  Spec.serves_width H
    (BaseMixProjector_ (BaseMixProjector.init (mlp_modules (4 * M) H 2))).
Proof.
  intros HM mode inputs projector drawn Hws. cbn [train] in *.
  destruct inputs as [x|xs|]; cbn [Spec.well_shaped] in Hws;
    try discriminate.
  - shape_cases x; try discriminate;
      cbn in Hws; bool_hyps; subst; eexists; cbn [forward].
    + rewrite BaseMixProjector_forward_3d by lia. split; reflexivity.
    + rewrite BaseMixProjector_forward_4d by lia. split; reflexivity.
  - destruct xs as [|x1 [|x2 [|x3 xs]]]; try discriminate;
      shape_cases x1; try discriminate;
      shape_cases x2; try discriminate.
    cbn in Hws. bool_hyps. subst. eexists. cbn [forward].
    rewrite BaseMixProjector_forward_pair by lia.
    split; [reflexivity|]. repeat constructor.
Qed.

Lemma grid_ok_form mlp res pool :
  Spec.grid_ok (PoolProjector.init mlp res pool) = true ->
  exists g s, 1 <= g /\ 1 <= s /\ res = g * s * (g * s) /\ pool = g * g.
Proof.
  unfold Spec.grid_ok, PoolProjector.init. cbn. intros Hg. bool_hyps.
  pose proof (Z.sqrt_nonneg res) as Hh. pose proof (Z.sqrt_nonneg pool) as Hp.
  set (h := Z.sqrt res) in *. set (g := Z.sqrt pool) in *.
  assert (Hg1 : 1 <= g) by nia.
  assert (Hdiv : h = g * (h / g)) by (apply Z_div_exact_full_2; lia).
  exists g, (h / g). split; [exact Hg1|].
  assert (1 <= h) by nia.
  split; [nia|]. split; [|lia]. rewrite <- Hdiv. lia.
Qed.

Lemma pool_items_form (W res : Z) (xs : list shape) :
  1 <= res ->
  forallb (fun x =>
             match x with
             | [k; c] =>
                 Spec.positive [k; c] && (c =? W) && (k mod res =? 0)
             | _ => false
             end) xs = true ->
  exists ts, Forall (fun t => 1 <= t) ts
             /\ xs = map (fun t => [t * res; W]) ts.
Proof.
  intros Hres. induction xs as [|x xs IH]; intros Hall.
  - exists []. split; [constructor | reflexivity].
  - cbn [forallb] in Hall. apply andb_prop in Hall as [Hx Hxs].
    destruct (IH Hxs) as (ts & Hts & ->).
    shape_cases x; try discriminate. cbn in Hx. bool_hyps. subst.
    match goal with
    | Hm : ?k mod res = 0 |- _ =>
        assert (Hk : k = res * (k / res))
          by (apply Z_div_exact_full_2; lia);
        exists (k / res :: ts); split;
          [constructor; [nia | exact Hts]
          | cbn [map]; do 2 f_equal; lia]
    end.
Qed.

Lemma serves_pool M H res pool :
  1 <= M ->
  Spec.serves_width H
    (PoolProjector_
       (PoolProjector.init (mlp_modules (4 * M) H 2) res pool)).
Proof.
  intros HM mode inputs projector drawn Hws. cbn [train] in *.
  destruct inputs as [x|xs|]; cbn [Spec.well_shaped] in Hws;
    try discriminate.
  - shape_cases x; try discriminate.
    apply andb_prop in Hws as [Hws Hmod]. apply andb_prop in Hws as [Hws Hc].
    apply andb_prop in Hws as [Hpos Hgrid].
    destruct (grid_ok_form _ _ _ Hgrid) as (g & s & Hg & Hs & -> & ->).
    cbn in Hpos, Hc, Hmod. bool_hyps. subst.
    match goal with
    | Hm : ?k mod ?r = 0 |- _ =>
        assert (Hk : k = (k / r) * r)
          by (rewrite Z.mul_comm; apply Z_div_exact_full_2; nia);
        assert (1 <= k / r) by nia;
        rewrite Hk
    end.
    eexists. cbn [forward].
    rewrite PoolProjector_forward_tensor by lia.
    split; reflexivity.
  - destruct xs as [|x xs]; [discriminate|].
    apply andb_prop in Hws as [Hgrid Hitems].
    destruct (grid_ok_form _ _ _ Hgrid) as (g & s & Hg & Hs & -> & ->).
    unfold PoolProjector.init in Hitems.
    cbn [PoolProjector.resolution PoolProjector.mlp] in Hitems.
    rewrite in_width_mlp_modules in Hitems.
    apply pool_items_form in Hitems as (ts & Hts & Hxs); [|nia].
    destruct ts as [|t ts]; [discriminate|].
    rewrite Hxs. eexists. cbn [forward].
    rewrite PoolProjector_forward_clips by (auto; lia).
    split; [reflexivity|]. cbn [Spec.has_width].
    apply Forall_map, Forall_forall. reflexivity.
Qed.

Lemma serves_resampler (G H M : Z) m :
  1 <= G -> 1 <= H -> 1 <= M ->
  QwenResampler.init G 4096 (4096 / 128) (Some 1664) H M = Ok m ->
  Spec.serves_width H (QwenResampler_ m).
Proof.
  intros HG HH HM Hm mode inputs projector drawn Hws. cbn [train] in *.
  destruct inputs as [x| |]; cbn [Spec.well_shaped] in Hws;
    try discriminate.
  shape_cases x; try discriminate.
  match goal with
  | |- context [Tensor [?b; ?n; ?c]] =>
      destruct (QwenResampler_forward_shape G H M b (Z.sqrt n))
        as (m' & Hm' & Hsrc & Hfwd)
  end.
  - exact HG.
  - exact HH.
  - cbn in Hws. bool_hyps. lia.
  - cbn in Hws. bool_hyps.
    match goal with
    | Hn : 1 <= ?n, Hq : Z.sqrt ?n * Z.sqrt ?n = ?n |- 1 <= Z.sqrt ?n =>
        pose proof (Z.sqrt_nonneg n); nia
    end.
  - rewrite Hm in Hm'. injection Hm' as <-.
    rewrite Hsrc in Hws. cbn in Hws. bool_hyps. subst.
    match goal with
    | Hq : Z.sqrt ?n * Z.sqrt ?n = ?n |- _ => rewrite Hq in Hfwd
    end.
    eexists. cbn [forward on_tensor]. rewrite Hfwd.
    split; reflexivity.
Qed.

(** C1, amended: for every recognized type string and every configuration
    that [Spec.config_ok] accepts (the widths and [n_slot] are sizes from 1
    to below [2^52], the attributes that the variant reads are set, and
    the [N] of [mlp{N}x_gelu] has at most 4300 digits), the factory
    succeeds, and the module it returns, in training or in evaluation
    mode, maps every well-shaped input to tensors whose last size is
    [hidden_size]; except for [identity], whose output is its input, of
    whatever width that is. *)
Theorem build_output_width bert c s :
  mm_projector_type c = Some s ->
  Spec.recognized s = true ->
  Spec.config_ok s c = true ->
  exists m,
    build_vision_projector bert c = Ok m
    /\ forall mode inputs projector drawn,
         Spec.well_shaped (train mode m) inputs projector drawn = true ->
         exists out,
           forward (train mode m) inputs projector drawn = Ok out
           /\ (if String.eqb s "identity" then out = inputs
               else Spec.has_width (hidden_size c) out).
Proof.
  intros Htype Hrec Hok.
  destruct c as [ty M H ns res pn]. cbn in Htype. subst ty.
  unfold build_vision_projector.
  cbn [mm_projector_type mm_hidden_size hidden_size n_slot resolution
       pool_num getattr_default].
  unfold Spec.recognized in Hrec. apply orb_prop in Hrec as [Hname | Hmlp].
  - unfold Spec.config_ok, Spec.dim in Hok.
    cbn [mm_hidden_size hidden_size n_slot resolution] in Hok.
    cbn [existsb Spec.named_types] in Hname.
    repeat match type of Hname with
           | (_ || _)%bool = true =>
               apply orb_prop in Hname as [Hname | Hname]
           end;
      try discriminate; apply String.eqb_eq in Hname; subst s;
      cbn in Hok; bool_hyps; cbn [String.eqb Ascii.eqb Bool.eqb];
      try (destruct ns as [n|]; [bool_hyps | discriminate]).
    + (* linear *)
      eexists. split; [reflexivity | now apply serves_linear].
    + (* identity *)
      eexists. split; [reflexivity|].
      intros mode inputs projector drawn _. exists inputs. now split.
    + (* slot *)
      destruct (SlotAttention_init_total n M H) as (sa & Hsa & _); [lia|].
      exists (SlotAttention_ sa). split.
      * cbn. rewrite Hsa. reflexivity.
      * eapply serves_slot; eauto.
    + (* perceiver *)
      eexists. split; [reflexivity | apply serves_perceiver].
    + (* mlpslot *)
      destruct (SlotAttention_init_total n M H) as (sa & Hsa & _); [lia|].
      exists (MultiProjector_ (MultiProjector.init (mlp_modules M H 2) sa)).
      split.
      * cbn. rewrite Hsa. reflexivity.
      * eapply serves_mlpslot; eauto.
    + (* compress *)
      eexists. split; [reflexivity | now apply serves_compress].
    + (* pool *)
      destruct res as [r|]; [|discriminate].
      eexists. split; [reflexivity | now apply serves_pool].
    + (* base *)
      eexists. split; [reflexivity | now apply serves_base].
    + (* base_mix *)
      eexists. split; [reflexivity | now apply serves_base_mix].
    + (* resampler *)
      assert (HG : 1 <= Z.sqrt n) by (apply Z.sqrt_le_square; lia).
      destruct (QwenResampler_forward_shape (Z.sqrt n) H M 1 1)
        as (m & Hm & _); try lia.
      exists (QwenResampler_ m). split.
      * cbn. unfold int_sqrt. shape_simpl. rewrite Hm. reflexivity.
      * eapply (serves_resampler (Z.sqrt n) H M); eauto; lia.
  - apply is_mlp_gelu_name_spec in Hmlp as (ds & Hne & Hd & ->).
    unfold Spec.config_ok, Spec.dim in Hok.
    cbn [mm_hidden_size hidden_size n_slot resolution] in Hok.
    apply andb_prop in Hok as [Hok Hdigits].
    apply andb_prop in Hok as [Hok _]. apply andb_prop in Hok as [Hok _].
    bool_hyps.
    rewrite (re_match_mlp_gelu_name ds Hne Hd).
    rewrite (int_digits_ok ds Hd Hdigits). cbn [Py.bind].
    eexists. split; [reflexivity|]. cbn [String.eqb Ascii.eqb Bool.eqb].
    now apply serves_mlp.
Qed.

End FactoryContract.

(** C1, as stated, fails for [identity]: with [mm_hidden_size = 4] and
    [hidden_size = 8] the factory returns the pass-through module, and a
    tensor of width 4 comes back with width 4. *)
Lemma IdentityMap_keeps_width :
  let bert := PerceiverSampler.mkBertConfig 768 in
  let c := Factory.mkConfig (Some "identity") 4 8 None None None in
  Spec.recognized "identity" = true
  /\ Factory.build_vision_projector bert c = Py.Ok Factory.IdentityMap_
  /\ Factory.forward Factory.IdentityMap_ (Torch.Tensor [1; 2; 4]) None 0 =
     Py.Ok (Torch.Tensor [1; 2; 4])
  /\ ~ Spec.has_width (Factory.hidden_size c) (Torch.Tensor [1; 2; 4]).
Proof. repeat split. discriminate. Qed.

Lemma build_output_width_witness :
  let bert := PerceiverSampler.mkBertConfig 768 in
  let c := Factory.mkConfig (Some "pool") 4 8 None (Some 16) (Some 4) in
  exists m out,
    Factory.build_vision_projector bert c = Py.Ok m
    /\ Factory.forward (Factory.train true m)
         (Torch.TensorList [[32; 16]; [16; 16]]) None 0 = Py.Ok out
    /\ Spec.has_width 8 out.
Proof.
  intros bert c.
  destruct (build_output_width bert c "pool" eq_refl eq_refl eq_refl)
    as (m & Hm & Hserves).
  exists m.
  assert (Hws : Spec.well_shaped (Factory.train true m)
                  (Torch.TensorList [[32; 16]; [16; 16]]) None 0 = true).
  { vm_compute in Hm. injection Hm as <-. reflexivity. }
  destruct (Hserves true _ None 0 Hws) as (out & Hout & Hwidth).
  exists out. split; [exact Hm|]. split; [exact Hout | exact Hwidth].
Defined.

Section FactoryErrors.
Import Py Torch Factory.

(** What the factory can raise on a configuration whose sizes are not
    negative: a missing attribute, a zero width under [** -0.5], the
    refusal of [int] to convert too many digits, and the one [raise] of
    the function.  The assertions of the position table never fail, since
    the factory passes them the width 4096. *)
Lemma build_raises bert c e :
  0 <= mm_hidden_size c -> 0 <= hidden_size c ->
  (forall n, n_slot c = Some n -> 0 <= n) ->
  build_vision_projector bert c = Raise e ->
  e = AttributeError "n_slot" \/ e = AttributeError "resolution"
  \/ e = ZeroDivisionError
  \/ e = ValueError int_limit_error
  \/ exists s, mm_projector_type c = Some s
               /\ e = ValueError (unknown_projector_type s).
Proof.
  destruct c as [ty M H ns res pn]. unfold build_vision_projector.
  cbn [mm_projector_type mm_hidden_size hidden_size n_slot resolution
       pool_num].
  intros _ _ Hns.
  destruct ty as [s|]; [|discriminate]. cbn [getattr_default].
  assert (Hsa : forall n (k : SlotAttention.t -> result Projector),
            (forall sa, k sa <> Raise e) ->
            (do sa <- SlotAttention.init n M 3 H H SlotAttention.default_eps;
             k sa) = Raise e -> e = ZeroDivisionError).
  { intros n k Hk. unfold SlotAttention.init, pow_neg_half_of.
    destruct (M =? 0); cbn; [congruence|]. intros Hr. now apply Hk in Hr. }
  destruct (String.eqb s "linear"); [discriminate|].
  destruct (re_match_mlp_gelu s) as [ds|].
  { unfold int. destruct (_ <? _)%nat; cbn [Py.bind];
      [intros [= <-]; auto 6 | discriminate]. }
  destruct (String.eqb s "identity"); [discriminate|].
  destruct (String.eqb s "slot").
  { destruct ns as [n|]; cbn [getattr Py.bind]; [|intros [= <-]; auto 6].
    intros Hr. apply Hsa in Hr; [auto 6 | discriminate]. }
  destruct (String.eqb s "perceiver").
  { destruct ns as [n|]; cbn [getattr Py.bind]; [discriminate|].
    intros [= <-]; auto 6. }
  destruct (String.eqb s "mlpslot").
  { destruct ns as [n|]; cbn [getattr Py.bind]; [|intros [= <-]; auto 6].
    intros Hr. apply Hsa in Hr; [auto 6 | discriminate]. }
  destruct (String.eqb s "compress").
  { destruct ns as [n|]; cbn [getattr Py.bind]; [discriminate|].
    intros [= <-]; auto 6. }
  destruct (String.eqb s "pool").
  { destruct res as [r|]; cbn [getattr Py.bind]; [discriminate|].
    intros [= <-]; auto 6. }
  destruct (String.eqb s "base"); [discriminate|].
  destruct (String.eqb s "base_mix"); [discriminate|].
  destruct (String.eqb s "resampler").
  { destruct ns as [n|]; cbn [getattr Py.bind]; [|intros [= <-]; auto 6].
    specialize (Hns n eq_refl).
    unfold int_sqrt. shape_simpl.
    unfold QwenResampler.init. rewrite MultiheadAttention_init_4096.
    rewrite get_2d_sincos_pos_embed_shape by apply Z.sqrt_nonneg.
    unfold pow_neg_half_of. cbn.
    destruct (H =? 0); cbn; [intros [= <-]; auto 6 | discriminate]. }
  intros [= <-]. do 4 right. eauto.
Qed.

(** Three of the implicit ones: [slot] without [n_slot], [slot] on a zero
    width, and [resampler] with a negative [n_slot], where [math.sqrt]
    raises a [ValueError] of its own. *)
Lemma build_slot_without_n_slot bert mm h res pn :
  build_vision_projector bert (mkConfig (Some "slot") mm h None res pn) =
  Raise (AttributeError "n_slot").
Proof. reflexivity. Qed.

Lemma build_slot_zero_width bert h n res pn :
  build_vision_projector bert (mkConfig (Some "slot") 0 h (Some n) res pn) =
  Raise ZeroDivisionError.
Proof. reflexivity. Qed.

Lemma build_resampler_negative_n_slot bert mm h res pn :
  build_vision_projector bert
    (mkConfig (Some "resampler") mm h (Some (-1)) res pn) =
  Raise (ValueError "math domain error").
Proof. reflexivity. Qed.

End FactoryErrors.

(* ===================================================================== *)
(** * Further properties: the factory *)
(* ===================================================================== *)

Section FactoryLayers.
Import Py Torch Factory.

Lemma fold_left_layers (H : Z) (l : list Z) : forall acc : Sequential,
  fold_left
    (fun modules _ =>
       (modules ++ [GELU]) ++ [LinearLayer (mkLinear H H)]) l acc =
  acc ++ concat (replicate (length l) [GELU; LinearLayer (mkLinear H H)]).
Proof.
  induction l as [|i l IH]; intros acc; cbn [fold_left length replicate].
  - cbn. now rewrite app_nil_r.
  - rewrite IH. cbn [concat]. now rewrite <- !app_assoc.
Qed.

Lemma mlp_modules_layers (M H depth : Z) :
  mlp_modules M H depth =
  LinearLayer (mkLinear M H)
  :: concat (replicate (Z.to_nat (depth - 1))
               [GELU; LinearLayer (mkLinear H H)]).
Proof.
  unfold mlp_modules. rewrite fold_left_layers.
  unfold range_from. now rewrite length_map, length_seq.
Qed.

Lemma length_concat_pairs {A} (n : nat) (a b : A) :
  length (concat (replicate n [a; b])) = (2 * n)%nat.
Proof. induction n as [|n IH]; cbn in *; lia. Qed.

(** X1: the type [mlp{N}x_gelu], for [N] written with the digits [ds]
    (leading zeros allowed) and widths that are sizes: when [ds] has at
    most 4300 digits the factory builds a first affine layer from
    [mm_hidden_size] to [hidden_size] followed by [N - 1] times a GELU and
    an affine layer from [hidden_size] to [hidden_size], that is
    [2 * max(N, 1) - 1] modules, so that [mlp0x_gelu] builds the same
    module as [mlp1x_gelu]; when [ds] has more digits, [int] refuses it and
    the factory raises that [ValueError]. *)
Theorem build_mlp_layers bert c ds :
  ds <> EmptyString -> Spec.all_digits ds = true ->
  mm_projector_type c = Some (Spec.mlp_gelu_name ds) ->
  0 <= mm_hidden_size c < 2 ^ 63 -> 0 <= hidden_size c < 2 ^ 63 ->
  let N := int_of_digits ds in
  let modules :=
    LinearLayer (mkLinear (mm_hidden_size c) (hidden_size c))
    :: concat (replicate (Z.to_nat (N - 1))
                 [GELU;
                  LinearLayer (mkLinear (hidden_size c) (hidden_size c))]) in
  ((String.length ds <= int_max_str_digits)%nat ->
   build_vision_projector bert c = Ok (Sequential_ modules)
   /\ Z.of_nat (length modules) = 2 * Z.max N 1 - 1)
  /\ ((int_max_str_digits < String.length ds)%nat ->
      build_vision_projector bert c = Raise (ValueError int_limit_error)).
Proof.
  intros Hne Hd Ht _ _ N modules.
  assert (Hb : build_vision_projector bert c =
               do mlp_depth <- int ds;
               Ok (Sequential_
                     (mlp_modules (mm_hidden_size c) (hidden_size c)
                        mlp_depth))).
  { unfold build_vision_projector. rewrite Ht. cbn [getattr_default].
    replace (String.eqb (Spec.mlp_gelu_name ds) "linear") with false
      by reflexivity.
    now rewrite (re_match_mlp_gelu_name ds Hne Hd). }
  rewrite Hb. unfold int. split; intros Hl.
  - destruct (Nat.ltb_spec int_max_str_digits (String.length ds)) as [?|_];
      [lia|].
    cbn [Py.bind]. split; [now rewrite mlp_modules_layers|].
    unfold modules. cbn [length]. rewrite length_concat_pairs. lia.
  - destruct (Nat.ltb_spec int_max_str_digits (String.length ds)) as [_|?];
      [reflexivity | lia].
Qed.

End FactoryLayers.

Lemma build_mlp_layers_witness :
  let bert := PerceiverSampler.mkBertConfig 768 in
  Factory.build_vision_projector bert
    (Factory.mkConfig (Some "mlp03x_gelu") 4 8 None None None) =
  Py.Ok (Factory.Sequential_
           [Torch.LinearLayer (Torch.mkLinear 4 8);
            Torch.GELU; Torch.LinearLayer (Torch.mkLinear 8 8);
            Torch.GELU; Torch.LinearLayer (Torch.mkLinear 8 8)]).
Proof.
  intros bert.
  exact (proj1 (proj1 (build_mlp_layers bert
                         (Factory.mkConfig (Some "mlp03x_gelu") 4 8
                            None None None)
                         "03" ltac:(discriminate) eq_refl eq_refl
                         ltac:(cbn; lia) ltac:(cbn; lia))
                      ltac:(cbn; unfold Py.int_max_str_digits; lia))).
Defined.

Section FactoryMlpInputs.
Import Py Torch Factory.

Lemma with_last_same (x : shape) (d : Z) : last x = Some d -> with_last x d = x.
Proof.
  intros Hl. apply last_Some in Hl as [x' ->].
  unfold with_last. now rewrite removelast_last.
Qed.

(** X2: the MLP the factory builds for [mlp{N}x_gelu], [mlpslot], [base],
    ... accepts exactly the tensors, of any rank, whose last size is the
    width of its first layer; it replaces that size by [hidden] and keeps
    all other sizes.  On any other tensor it raises. *)
Theorem mlp_forward_iff (first hidden depth : Z) (x y : shape) :
  Sequential_forward (mlp_modules first hidden depth) x = Ok y <->
  last x = Some first /\ y = with_last x hidden.
Proof.
  split.
  - intros Hf. assert (Hl : last x = Some first).
    { rewrite mlp_modules_layers in Hf. cbn in Hf.
      unfold Linear_forward in Hf. cbn in Hf.
      destruct (last x) as [d|]; [|discriminate].
      destruct (Z.eqb_spec d first) as [E|E]; [now subst | discriminate]. }
    rewrite (mlp_modules_forward _ _ _ _ Hl) in Hf. injection Hf as <-.
    now split.
  - intros [Hl ->]. now apply mlp_modules_forward.
Qed.

End FactoryMlpInputs.

Lemma mlp_forward_iff_witness :
  Torch.Sequential_forward (Factory.mlp_modules 4 8 3) [2; 5; 4] =
    Py.Ok [2; 5; 8]
  /\ forall y,
       Torch.Sequential_forward (Factory.mlp_modules 4 8 3) [2; 5; 6] <>
       Py.Ok y.
Proof.
  split.
  - exact (proj2 (mlp_forward_iff 4 8 3 [2; 5; 4] [2; 5; 8])
                 (conj eq_refl eq_refl)).
  - intros y Hy.
    apply (proj1 (mlp_forward_iff 4 8 3 [2; 5; 6] y)) in Hy as [Hl _].
    discriminate.
Defined.

(* ===================================================================== *)
(** * Further properties: inputs that a module refuses *)
(* ===================================================================== *)

Section RefusedInputs.
Import Py Torch.

Lemma broadcast_rev_refl (r : shape) : broadcast_rev r r = Ok r.
Proof.
  induction r as [|a r IH]; [reflexivity|].
  cbn. unfold broadcast_dim. now rewrite Z.eqb_refl, IH.
Qed.

Lemma broadcast_refl (s : shape) : broadcast s s = Ok s.
Proof.
  unfold broadcast. rewrite broadcast_rev_refl. cbn. now rewrite rev_involutive.
Qed.

Lemma LayerNorm_forward_Ok (c : Z) (x y : shape) :
  LayerNorm_forward (mkLayerNorm c) x = Ok y <-> last x = Some c /\ y = x.
Proof.
  unfold LayerNorm_forward. cbn. destruct (last x) as [d|].
  - destruct (Z.eqb_spec d c) as [E|E].
    + subst d. split; [intros [= <-]; auto | intros [_ ->]; reflexivity].
    + split; [discriminate | intros [[= Hd] _]; congruence].
  - split; [discriminate | intros [Hd _]; discriminate].
Qed.

(** X3: [SimpleResBlock(channels)] returns a tensor of the shape of its
    input, and it accepts exactly the tensors whose last size is
    [channels]. *)
Theorem SimpleResBlock_forward_iff (channels : Z) (x y : shape) :
  0 <= channels ->
  SimpleResBlock.forward (SimpleResBlock.init channels) x = Ok y <->
  last x = Some channels /\ y = x.
Proof.
  intros _. unfold SimpleResBlock.forward, SimpleResBlock.init.
  cbn [SimpleResBlock.pre_norm SimpleResBlock.proj].
  split.
  - intros Hf.
    destruct (LayerNorm_forward (mkLayerNorm channels) x) as [x'|e] eqn:En;
      [|discriminate].
    apply LayerNorm_forward_Ok in En as [Hl ->]. split; [exact Hl|].
    cbn in Hf. rewrite (Linear_forward_last _ _ _ Hl) in Hf. cbn in Hf.
    rewrite (Linear_forward_last _ _ _ (with_last_last _ _)) in Hf.
    cbn in Hf. rewrite with_last_with_last, (with_last_same _ _ Hl) in Hf.
    rewrite broadcast_refl in Hf. now injection Hf as <-.
  - intros [Hl ->].
    rewrite (proj2 (LayerNorm_forward_Ok channels x x) (conj Hl eq_refl)).
    cbn. rewrite (Linear_forward_last _ _ _ Hl). cbn.
    rewrite (Linear_forward_last _ _ _ (with_last_last _ _)). cbn.
    rewrite with_last_with_last, (with_last_same _ _ Hl).
    apply broadcast_refl.
Qed.

(** X4: [BaseProjector] and [BaseMixProjector] test [inputs.ndim] against
    3 and against 4 and have no other case: on a tensor of any other rank
    [forward] returns [None] and does not raise, whatever the sizes. *)
Theorem Base_forward_other_rank (mlp : Sequential) (x : shape) :
  length x <> 3%nat -> length x <> 4%nat ->
  BaseProjector.forward (BaseProjector.init mlp) (Tensor x) = Ok NoneValue
  /\ BaseMixProjector.forward (BaseMixProjector.init mlp) (Tensor x) =
     Ok NoneValue.
Proof.
  intros H3 H4. unfold BaseProjector.forward, BaseMixProjector.forward.
  destruct (Nat.eqb_spec (length x) 3) as [E|_]; [contradiction|].
  destruct (Nat.eqb_spec (length x) 4) as [E|_]; [contradiction|].
  split; reflexivity.
Qed.

(** X5: [SlotAttention.forward] returns only on an input of rank 3 whose
    last size is [encoder_dims]; what it returns then has the shape
    [B x num_slots x out_dim].  On every other tensor it raises. *)
Theorem SlotAttention_forward_only
    num_slots encoder_dims iters hidden_dim out_dim eps m (x y : shape) :
  SlotAttention.init num_slots encoder_dims iters hidden_dim out_dim eps
    = Ok m ->
  0 <= num_slots -> 0 <= out_dim -> Forall (fun d => 0 <= d) x ->
  SlotAttention.forward m x = Ok y <->
  exists B N, x = [B; N; encoder_dims] /\ y = [B; num_slots; out_dim].
Proof.
  intros Hm _ _ Hx. split.
  - intros Hf.
    assert (Hshape : exists B N, x = [B; N; encoder_dims]).
    { pose proof (SlotAttention_init_Ok _ _ _ _ _ _ _ Hm) as [-> _].
      unfold SlotAttention.forward in Hf.
      cbn [SlotAttention.norm_input SlotAttention.project_k
           SlotAttention.project_v] in Hf.
      destruct (LayerNorm_forward (mkLayerNorm encoder_dims) x) as [x'|e]
        eqn:En; [|discriminate].
      apply LayerNorm_forward_Ok in En as [Hl ->].
      cbn [Py.bind] in Hf. rewrite (Linear_forward_last _ _ _ Hl) in Hf.
      cbn [Py.bind] in Hf.
      destruct x as [|B [|N [|d [|? ?]]]]; try discriminate.
      cbn in Hl. injection Hl as ->. eauto. }
    destruct Hshape as (B & N & ->). exists B, N. split; [reflexivity|].
    assert (HB : 0 <= B) by now inversion Hx.
    rewrite (SlotAttention_forward_unfold _ _ _ _ _ _ _ _ _ Hm HB) in Hf.
    rewrite (SlotAttention_rounds_shape _ _ _ _ _ _ _ _ _ _ Hm) in Hf.
    pose proof (SlotAttention_init_Ok _ _ _ _ _ _ _ Hm) as [-> _].
    cbn [Py.bind] in Hf.
    rewrite (Linear_forward_last encoder_dims out_dim
               [B; num_slots; encoder_dims] eq_refl) in Hf.
    now injection Hf as <-.
  - intros (B & N & -> & ->).
    assert (HB : 0 <= B) by now inversion Hx.
    rewrite (SlotAttention_forward_unfold _ _ _ _ _ _ _ _ _ Hm HB).
    rewrite (SlotAttention_rounds_shape _ _ _ _ _ _ _ _ _ _ Hm).
    cbn [Py.bind].
    now rewrite (Linear_forward_last encoder_dims out_dim
                   [B; num_slots; encoder_dims] eq_refl).
Qed.

End RefusedInputs.

Lemma SimpleResBlock_forward_iff_witness :
  SimpleResBlock.forward (SimpleResBlock.init 8) [2; 5; 8] = Py.Ok [2; 5; 8].
Proof.
  exact (proj2 (SimpleResBlock_forward_iff 8 [2; 5; 8] [2; 5; 8]
                  ltac:(lia))
               (conj eq_refl eq_refl)).
Defined.

Lemma Base_forward_other_rank_witness :
  BaseProjector.forward (BaseProjector.init (Factory.mlp_modules 4 8 2))
    (Torch.Tensor [5; 4]) = Py.Ok Torch.NoneValue.
Proof.
  exact (proj1 (Base_forward_other_rank (Factory.mlp_modules 4 8 2) [5; 4]
                  ltac:(discriminate) ltac:(discriminate))).
Defined.

Lemma SlotAttention_forward_only_witness :
  exists m,
    SlotAttention.init 4 8 3 16 16 SlotAttention.default_eps = Py.Ok m /\
    forall y, SlotAttention.forward m [5; 8] <> Py.Ok y.
Proof.
  eexists. split; [reflexivity|]. intros y Hy.
  apply (SlotAttention_forward_only 4 8 3 16 16 SlotAttention.default_eps _
           [5; 8] y eq_refl ltac:(lia) ltac:(lia)
           ltac:(repeat constructor; lia)) in Hy
    as (B & N & Hx & _).
  discriminate.
Defined.

(* ===================================================================== *)
(** * Further properties: [MultiProjector] *)
(* ===================================================================== *)

Section CollectKept.
Import Py MultiProjector.
Context {Y F : Type}.
Variable getitem : Y -> Z -> result F.
Variable feat_mlp feat_sa : Y.
Variable ms ss : list F.
Hypothesis getitem_mlp :
  forall (k : nat) m, ms !! k = Some m -> getitem feat_mlp (Z.of_nat k) = Ok m.
Hypothesis getitem_sa :
  forall (k : nat) m, ss !! k = Some m -> getitem feat_sa (Z.of_nat k) = Ok m.

Let pick (v : Z) (x : F * F) : list F :=
  if v =? 0 then [fst x] else if v =? 1 then [snd x] else [].

Lemma collect_kept p n : forall k out,
  length p = (k + n)%nat -> length ms = (k + n)%nat ->
  length ss = (k + n)%nat ->
  collect getitem (where_eq p 0) (where_eq p 1) feat_mlp feat_sa
          (map Z.of_nat (seq k n)) out =
  Ok (out ++ concat (drop k (zip_with pick p (zip ms ss)))).
Proof.
  induction n as [|n IH]; intros k out Hp Hm Hs.
  - cbn. rewrite drop_ge; [now rewrite app_nil_r|].
    rewrite length_zip_with, length_zip. lia.
  - cbn [seq map collect].
    destruct (lookup_lt_is_Some_2 p k ltac:(lia)) as [v Hv].
    destruct (lookup_lt_is_Some_2 ms k ltac:(lia)) as [m Hmk].
    destruct (lookup_lt_is_Some_2 ss k ltac:(lia)) as [s Hsk].
    rewrite (contains_where_eq_bool _ _ _ _ Hv).
    rewrite (contains_where_eq_bool _ _ _ _ Hv).
    assert (Hd : drop k (zip_with pick p (zip ms ss)) =
                 pick v (m, s) :: drop (S k) (zip_with pick p (zip ms ss))).
    { apply drop_S. rewrite lookup_zip_with, Hv. cbn.
      rewrite lookup_zip_with, Hmk. cbn. now rewrite Hsk. }
    rewrite Hd. cbn [concat]. unfold pick at 1. cbn [fst snd].
    destruct (Z.eqb_spec v 0) as [->|H0]; cbn.
    + rewrite (getitem_mlp _ _ Hmk). cbn.
      rewrite IH by lia. now rewrite <- app_assoc.
    + destruct (Z.eqb_spec v 1) as [->|H1]; cbn.
      * rewrite (getitem_sa _ _ Hsk). cbn.
        rewrite IH by lia. now rewrite <- app_assoc.
      * now rewrite IH by lia.
Qed.

End CollectKept.

Section MultiProjectorAssert.
Import Py MultiProjector.
Context {A F : Type}.
Variable f g : A -> F.

Lemma kept_binary (p : list Z) : forall ms ss : list F,
  length ms = length p -> length ss = length p ->
  (Spec.binary p = true -> Layout.kept p ms ss = Spec.chosen p ms ss)
  /\ (Spec.binary p = false ->
      (length (Layout.kept p ms ss) < length p)%nat)
  /\ (length (Layout.kept p ms ss) <= length p)%nat.
Proof.
  unfold Layout.kept, Spec.chosen, Spec.binary.
  induction p as [|v p IH]; intros ms ss Hm Hs.
  - cbn. split; [reflexivity|]. split; [discriminate | lia].
  - destruct ms as [|m ms]; [discriminate|].
    destruct ss as [|s ss]; [discriminate|].
    cbn in Hm, Hs.
    destruct (IH ms ss ltac:(lia) ltac:(lia)) as (IH1 & IH2 & IH3).
    cbn [zip zip_with concat forallb length fst snd].
    rewrite length_app.
    destruct (Z.eqb_spec v 0) as [->|H0]; cbn [orb andb length app].
    + split; [intros Hb; now rewrite IH1|].
      split; [intros Hb; specialize (IH2 Hb); lia | lia].
    + destruct (Z.eqb_spec v 1) as [->|H1]; cbn [orb andb length app].
      * split; [intros Hb; now rewrite IH1|].
        split; [intros Hb; specialize (IH2 Hb); lia | lia].
      * split; [discriminate|]. split; [intros _; lia | lia].
Qed.

Lemma rebalance_total (p : list Z) drawn :
  0 <= drawn < Z.of_nat (length p) ->
  exists p', rebalance (where_eq p 0) (where_eq p 1) p drawn = Ok p'
             /\ length p' = length p.
Proof.
  intros Hd.
  destruct (where_eq p 0) as [|i0 l0] eqn:E0.
  - rewrite <- E0, rebalance_no_mlp by assumption.
    eexists. split; [reflexivity | apply length_insert].
  - destruct (where_eq p 1) as [|i1 l1] eqn:E1.
    + rewrite <- E0, <- E1.
      rewrite rebalance_no_sa;
        [| rewrite E0; discriminate | exact E1 | exact Hd].
      eexists. split; [reflexivity | apply length_insert].
    + rewrite <- E0, <- E1.
      rewrite rebalance_balanced by (rewrite ?E0, ?E1; discriminate).
      eauto.
Qed.

(** X6: in training mode, with one assignment entry per sample, the loop
    appends a result only for the samples whose entry, after the
    rebalancing, is 0 or 1.  So the call returns (the chosen results, in
    the order of the samples) exactly when every entry is then 0 or 1; if
    an entry has another value the final [assert] fails, after the
    caller's tensor was rewritten. *)
Theorem MultiProjector_forward_assert (xs : list A) (p : list Z) drawn :
  length p = length xs -> 0 <= drawn < Z.of_nat (length p) ->
  exists p',
    rebalance (where_eq p 0) (where_eq p 1) p drawn = Ok p'
    /\ forward_samples f g true drawn (mkStore (Some p) xs) =
       (if Spec.binary p'
        then Ok (Elements (Spec.chosen p' (map f xs) (map g xs)))
        else Raise AssertionError,
        mkStore (Some p') xs).
Proof.
  intros Hl Hd. destruct (rebalance_total p drawn Hd) as (p' & Hr & Hl').
  exists p'. split; [exact Hr|].
  unfold forward_samples, forward. cbn. rewrite Hr. f_equal.
  cbn. rewrite range_of_nat.
  rewrite (collect_kept getitem_sample (map f xs) (map g xs)
             (map f xs) (map g xs)
             (getitem_sample_lookup _) (getitem_sample_lookup _)
             p' (length xs) O []);
    rewrite ?length_map; try lia.
  cbn [app Py.bind]. rewrite drop_0.
  destruct (kept_binary p' (map f xs) (map g xs)) as (Hb1 & Hb2 & _);
    rewrite ?length_map; try lia.
  fold (Layout.kept p' (map f xs) (map g xs)).
  destruct (Spec.binary p') eqn:Eb.
  - rewrite (Hb1 eq_refl), length_chosen by (rewrite length_map; lia).
    rewrite Hl', Hl, Z.eqb_refl. reflexivity.
  - specialize (Hb2 eq_refl).
    destruct (Z.eqb_spec (Z.of_nat (length (Layout.kept p' (map f xs)
                                              (map g xs))))
                         (Z.of_nat (length xs))) as [E|E]; [lia|].
    reflexivity.
Qed.

End MultiProjectorAssert.

Lemma MultiProjector_forward_assert_witness :
  MultiProjector.forward_samples (fun x : Z => x) Z.opp true 0
    (MultiProjector.mkStore (Some [2; 2]) [7; 8]) =
  (Py.Raise Py.AssertionError, MultiProjector.mkStore (Some [0; 2]) [7; 8]).
Proof.
  destruct (MultiProjector_forward_assert (fun x : Z => x) Z.opp
              [7; 8] [2; 2] 0 eq_refl ltac:(cbn; lia)) as (p' & Hr & Hf).
  injection Hr as <-. exact Hf.
Defined.

Section MultiProjectorModes.
Import Py Torch Factory.

Lemma chosen_replicate {F} (p : list Z) (a b : F) :
  Spec.chosen p (replicate (length p) a) (replicate (length p) b) =
  map (fun v => if v =? 0 then a else b) p.
Proof.
  unfold Spec.chosen. apply list_eq. intros i.
  change (map ?h p) with (h <$> p).
  rewrite lookup_zip_with, list_lookup_fmap.
  destruct (p !! i) as [v|] eqn:Ev; [|reflexivity]. cbn.
  assert (Hi : (i < length p)%nat) by (apply lookup_lt_is_Some; eauto).
  rewrite lookup_zip_with.
  rewrite (proj2 (lookup_replicate _ _ _ _) (conj eq_refl Hi)). cbn.
  rewrite (proj2 (lookup_replicate _ _ _ _) (conj eq_refl Hi)). reflexivity.
Qed.

Lemma MultiProjector_forward_shape_elements
    (mlp : Sequential) (sa : SlotAttention.t) (n ns M H : Z)
    (p p' : list Z) (drawn : Z) :
  Sequential_forward mlp [Z.of_nat (length p); n; M] =
    Ok [Z.of_nat (length p); n; H] ->
  SlotAttention.forward sa [Z.of_nat (length p); n; M] =
    Ok [Z.of_nat (length p); ns; H] ->
  MultiProjector.rebalance (MultiProjector.where_eq p 0)
    (MultiProjector.where_eq p 1) p drawn = Ok p' ->
  Spec.binary p' = true -> length p' = length p ->
  fst (MultiProjector.forward_shape (MultiProjector.mk true mlp sa) drawn
         (MultiProjector.mkStore (X:=shape) (Some p)
            [Z.of_nat (length p); n; M])) =
  Ok (MultiProjector.Elements
        (map (fun v => if v =? 0 then [n; H] else [ns; H]) p')).
Proof.
  intros Hmlp Hsa Hr Hb' Hl'.
  unfold MultiProjector.forward_shape, MultiProjector.forward.
  cbn [negb MultiProjector.training MultiProjector.mlp MultiProjector.sa
       MultiProjector.projector MultiProjector.inputs].
  rewrite Hmlp, Hsa, Hr. cbn [fst]. cbn [size lookup list_lookup Py.bind].
  rewrite range_of_nat.
  rewrite (collect_chosen Torch.getitem [Z.of_nat (length p); n; H]
             [Z.of_nat (length p); ns; H]
             (replicate (length p) [n; H])
             (replicate (length p) [ns; H])).
  - cbn [Py.bind app]. rewrite drop_0.
    rewrite length_chosen by (rewrite length_replicate; lia).
    rewrite Hl', Z.eqb_refl. cbn. rewrite <- Hl'.
    now rewrite chosen_replicate.
  - intros k m Hk. apply lookup_replicate in Hk as [-> Hk].
    unfold getitem. shape_simpl. reflexivity.
  - intros k m Hk. apply lookup_replicate in Hk as [-> Hk].
    unfold getitem. shape_simpl. reflexivity.
  - exact Hb'.
  - lia.
  - rewrite length_replicate. lia.
  - rewrite length_replicate. lia.
Qed.

(** X7: the module built for [mlpslot] answers differently in its two
    modes.  After [eval()] it returns one tensor, the MLP's, with the
    tokens of the input, and does not look at the assignment.  In training
    mode (the state it is built in) it returns a list with one tensor per
    sample: [n x hidden_size] for a sample the rebalanced assignment gives
    to the MLP, [n_slot x hidden_size] for a sample given to the slot
    attention. *)
Theorem build_mlpslot_modes bert c (ns : Z) :
  mm_projector_type c = Some "mlpslot" -> n_slot c = Some ns ->
  1 <= mm_hidden_size c -> 0 <= hidden_size c -> 0 <= ns ->
  exists m,
    build_vision_projector bert c = Ok m
    /\ (forall b n projector drawn,
          1 <= b -> 1 <= n ->
          forward (train false m) (Tensor [b; n; mm_hidden_size c])
            projector drawn =
          Ok (Tensor [b; n; hidden_size c]))
    /\ (forall n (p : list Z) drawn,
          p <> [] -> 1 <= n -> Spec.binary p = true ->
          0 <= drawn < Z.of_nat (length p) ->
          exists p',
            MultiProjector.rebalance (MultiProjector.where_eq p 0)
              (MultiProjector.where_eq p 1) p drawn = Ok p'
            /\ forward m
                 (Tensor [Z.of_nat (length p); n; mm_hidden_size c])
                 (Some p) drawn =
               Ok (TensorList
                     (map (fun v => if v =? 0 then [n; hidden_size c]
                                    else [ns; hidden_size c]) p'))).
Proof.
  destruct c as [ty M H ns' res pn]. cbn. intros -> -> HM _ _.
  destruct (SlotAttention_init_total ns M H HM) as (sa & Hsa & _).
  exists (MultiProjector_ (MultiProjector.init (mlp_modules M H 2) sa)).
  split; [unfold build_vision_projector; cbn; now rewrite Hsa|].
  split.
  - intros b n projector drawn Hb Hn. cbn [train forward].
    unfold MultiProjector.forward_shape, MultiProjector.forward,
      MultiProjector.set_training, MultiProjector.init.
    cbn [negb MultiProjector.training MultiProjector.mlp
         MultiProjector.inputs fst].
    rewrite mlp_forward_width by (auto; reflexivity). reflexivity.
  - intros n p drawn Hp Hn Hb Hd.
    destruct (rebalance_binary p drawn Hb Hd) as (p' & Hr & Hb' & Hl').
    exists p'. split; [exact Hr|]. cbn [forward].
    assert (Hlen : 1 <= Z.of_nat (length p)) by (destruct p; cbn; [easy|lia]).
    unfold MultiProjector.init.
    rewrite (MultiProjector_forward_shape_elements
               (mlp_modules M H 2) sa n ns M H p p' drawn); auto.
    + rewrite mlp_forward_width by (auto; reflexivity). reflexivity.
    + eapply SlotAttention_forward_built; eauto.
Qed.

End MultiProjectorModes.

Lemma build_mlpslot_modes_witness :
  let bert := PerceiverSampler.mkBertConfig 768 in
  let c := Factory.mkConfig (Some "mlpslot") 4 8 (Some 3) None None in
  exists m,
    Factory.build_vision_projector bert c = Py.Ok m
    /\ Factory.forward (Factory.train false m) (Torch.Tensor [2; 5; 4])
         None 0 = Py.Ok (Torch.Tensor [2; 5; 8])
    /\ Factory.forward m (Torch.Tensor [2; 5; 4]) (Some [0; 0]) 1 =
       Py.Ok (Torch.TensorList [[5; 8]; [3; 8]]).
Proof.
  intros bert c.
  destruct (build_mlpslot_modes bert c 3 eq_refl eq_refl ltac:(cbn; lia)
              ltac:(cbn; lia) ltac:(lia))
    as (m & Hm & Heval & Htrain).
  exists m. split; [exact Hm|]. split.
  - exact (Heval 2 5 None 0 ltac:(lia) ltac:(lia)).
  - destruct (Htrain 5 [0; 0] 1 ltac:(discriminate) ltac:(lia) eq_refl
                ltac:(cbn; lia)) as (p' & Hr & Hf).
    injection Hr as <-. exact Hf.
Defined.

(* ===================================================================== *)
(** * Further properties: position tables and resamplers *)
(* ===================================================================== *)

Section PositionTables.
Import Py Torch.

Lemma mod_4_halves (D : Z) :
  (D mod 4 =? 0) = (D mod 2 =? 0) && ((D / 2) mod 2 =? 0).
Proof.
  destruct (Z.eqb_spec (D mod 4) 0) as [E|E];
    destruct (Z.eqb_spec (D mod 2) 0) as [E2|E2];
    destruct (Z.eqb_spec ((D / 2) mod 2) 0) as [E4|E4];
    cbn; try reflexivity; exfalso; Z.div_mod_to_equations; lia.
Qed.

(** The table on shapes, for any width. *)
Lemma get_2d_sincos_pos_embed_any (D G : Z) :
  0 <= G ->
  PosEmbed.get_2d_sincos_pos_embed D G =
  if D mod 4 =? 0 then Ok [G * G; 4 * Z.max 0 (D / 4)]
  else Raise AssertionError.
Proof.
  intros HG. rewrite mod_4_halves.
  unfold PosEmbed.get_2d_sincos_pos_embed,
    PosEmbed.get_2d_sincos_pos_embed_from_grid,
    PosEmbed.get_1d_sincos_pos_embed_from_grid.
  shape_simpl.
  destruct (Z.eqb_spec (D mod 2) 0) as [E2|E2]; [|reflexivity].
  shape_simpl.
  destruct (Z.eqb_spec ((D / 2) mod 2) 0) as [E4|E4]; [|reflexivity].
  shape_simpl. rewrite ?Z.mod_1_r, ?Z.div_1_r. shape_simpl.
  assert (Hq : D / 2 / 2 = D / 4) by (Z.div_mod_to_equations; lia).
  rewrite Hq. do 2 f_equal; [lia|]. f_equal. lia.
Qed.

(** X8: [get_2d_sincos_pos_embed] asserts that [embed_dim] is even, and
    then asserts the same of its half: it returns only when [embed_dim] is
    a multiple of 4, with [grid_size * grid_size] rows of [embed_dim]
    entries, preceded by one more row when [cls_token] is set; on any other
    width, an even one included, it raises [AssertionError]. *)
Theorem get_2d_sincos_pos_embed_shape_iff (D G : Z) (cls_token : bool) :
  0 <= D -> 0 <= G ->
  PosTable.get_2d_sincos_pos_embed D G cls_token =
  if D mod 4 =? 0
  then Ok [(if cls_token then 1 else 0) + G * G; D]
  else Raise AssertionError.
Proof.
  intros HD HG. unfold PosTable.get_2d_sincos_pos_embed.
  rewrite get_2d_sincos_pos_embed_any by exact HG.
  destruct (Z.eqb_spec (D mod 4) 0) as [E|E]; [|reflexivity].
  assert (HD4 : 4 * Z.max 0 (D / 4) = D)
    by (Z.div_mod_to_equations; lia).
  rewrite HD4. destruct cls_token; cbn [Py.bind]; [|reflexivity].
  unfold PosTable.zeros. shape_simpl. reflexivity.
Qed.

End PositionTables.

Lemma get_2d_sincos_pos_embed_shape_iff_witness :
  PosTable.get_2d_sincos_pos_embed 8 3 true = Py.Ok [10; 8]
  /\ PosTable.get_2d_sincos_pos_embed 6 3 false = Py.Raise Py.AssertionError.
Proof.
  split.
  - exact (get_2d_sincos_pos_embed_shape_iff 8 3 true ltac:(lia) ltac:(lia)).
  - exact (get_2d_sincos_pos_embed_shape_iff 6 3 false ltac:(lia) ltac:(lia)).
Defined.

Section Resamplers.
Import Py Torch.

Lemma QwenResampler_init_fields G D heads kv_dim tgt src m :
  0 <= G ->
  QwenResampler.init G D heads kv_dim tgt src = Ok m ->
  QwenResampler.pos_embed m = [G * G; 4 * Z.max 0 (D / 4)]
  /\ QwenResampler.src_kv_proj m =
     match kv_dim with
     | Some kv => if negb (kv =? D) then Some (mkLinear src kv) else None
     | None => None
     end.
Proof.
  intros HG. unfold QwenResampler.init.
  rewrite get_2d_sincos_pos_embed_any by exact HG.
  destruct (D mod 4 =? 0); [|discriminate]. cbn [Py.bind].
  destruct (MultiheadAttention_init D heads) as [a|e0];
    destruct (pow_neg_half_of tgt) as [sc|e]; cbn [Py.bind];
    destruct kv_dim as [kv|]; try destruct (negb (kv =? D));
    try discriminate; intros [= <-]; split; reflexivity.
Qed.

(** X9: [QwenResampler.__init__] sets [src_kv_proj] only when [kv_dim] is
    given and differs from [embed_dim], and [forward] calls it in every
    case.  A module built with [kv_dim] left out, or equal to [embed_dim],
    therefore never returns from [forward]: on a batch whose token count
    has the module's grid size as integer square root the first failure is
    the missing attribute. *)
Theorem QwenResampler_without_src_kv_proj G D heads kv_dim tgt src m :
  0 <= G ->
  QwenResampler.init G D heads kv_dim tgt src = Ok m ->
  kv_dim = None \/ kv_dim = Some D ->
  (forall x y, QwenResampler.forward m x <> Ok y)
  /\ (forall b n c,
        0 <= n -> Z.sqrt n = G ->
        QwenResampler.forward m [b; n; c] =
        Raise (AttributeError "src_kv_proj")).
Proof.
  intros HG Hm Hkv.
  destruct (QwenResampler_init_fields _ _ _ _ _ _ _ HG Hm) as [Hpe Hsrc].
  assert (Hnone : QwenResampler.src_kv_proj m = None).
  { rewrite Hsrc. destruct Hkv as [-> | ->]; [reflexivity|].
    now rewrite Z.eqb_refl. }
  split.
  - intros x y. unfold QwenResampler.forward.
    destruct (size x 1) as [n|e]; [|discriminate]. cbn [Py.bind].
    destruct (get_abs_pos (QwenResampler.pos_embed m) n) as [pe|e];
      [|discriminate].
    cbn [Py.bind]. rewrite Hnone. discriminate.
  - intros b n c Hn Hsq. unfold QwenResampler.forward.
    cbn [size lookup list_lookup Py.bind]. rewrite Hpe.
    unfold get_abs_pos. shape_simpl.
    rewrite Z.sqrt_square by exact HG. rewrite Hsq, Z.eqb_refl.
    cbn. rewrite Hnone. reflexivity.
Qed.

End Resamplers.

Lemma QwenResampler_without_src_kv_proj_witness :
  exists m,
    QwenResampler.init 2 8 2 None 16 12 = Py.Ok m
    /\ QwenResampler.forward m [3; 4; 12] =
       Py.Raise (Py.AttributeError "src_kv_proj").
Proof.
  eexists. split; [reflexivity|].
  exact (proj2 (QwenResampler_without_src_kv_proj 2 8 2 None 16 12 _
                  ltac:(lia) eq_refl (or_introl eq_refl))
               3 4 12 ltac:(lia) eq_refl).
Defined.

Section ResamplerShape.
Import Py Torch.

Lemma Resampler_init_Ok (G d heads : Z) (kv_dim : option Z) :
  0 <= G -> 1 <= d -> 1 <= heads -> (4 * d) mod heads = 0 ->
  Resampler.init G (4 * d) heads kv_dim =
  Ok (Resampler.mk (G ^ 2) (4 * d) heads [G * G; 4 * d] [G ^ 2; 4 * d]
        match kv_dim with
        | Some kv =>
            if negb (kv =? 4 * d) then Some (mkLinear kv (4 * d)) else None
        | None => None
        end
        (mkMHA (4 * d) heads) (mkLayerNorm (4 * d)) (mkLayerNorm (4 * d))
        (mkLayerNorm (4 * d)) (PowNegHalf (4 * d)) [4 * d; 4 * d]).
Proof.
  intros HG Hd Hh Hdiv. unfold Resampler.init.
  rewrite get_2d_sincos_pos_embed_any by exact HG.
  assert (E4 : (4 * d) mod 4 = 0) by (Z.div_mod_to_equations; lia).
  assert (Eq : 4 * Z.max 0 (4 * d / 4) = 4 * d)
    by (Z.div_mod_to_equations; lia).
  rewrite E4, Eq. cbn [Z.eqb Py.bind].
  unfold MultiheadAttention_init, pow_neg_half_of.
  assert (Ediv : 4 * d / heads * heads = 4 * d).
  { rewrite Z.mul_comm. symmetry. apply Z_div_exact_full_2; lia. }
  rewrite Ediv. shape_simpl. reflexivity.
Qed.

Lemma Resampler_forward_width (G d heads : Z) (kv_proj : option Linear)
    (W b q : Z) :
  1 <= G -> 1 <= d -> 1 <= b -> 1 <= q ->
  match kv_proj with
  | Some l => l = mkLinear W (4 * d)
  | None => W = 4 * d
  end ->
  Resampler.forward
    (Resampler.mk (G ^ 2) (4 * d) heads [G * G; 4 * d] [G ^ 2; 4 * d]
       kv_proj (mkMHA (4 * d) heads) (mkLayerNorm (4 * d))
       (mkLayerNorm (4 * d)) (mkLayerNorm (4 * d)) (PowNegHalf (4 * d))
       [4 * d; 4 * d])
    [b; q * q; W] = Ok [b; G ^ 2; 4 * d].
Proof.
  intros HG Hd Hb Hq Hkv.
  unfold Resampler.forward, get_abs_pos, Resampler._repeat.
  cbn [Resampler.pos_embed Resampler.kv_proj Resampler.ln_kv Resampler.ln_q
       Resampler.query Resampler.attn Resampler.ln_post Resampler.proj].
  destruct kv_proj as [l|]; subst;
    shape_simpl; rewrite !Z.sqrt_square by lia;
    rewrite ?Z.mul_1_l, ?Z.mul_1_r;
    (destruct (Z.eqb_spec G q) as [->|Hne]; shape_simpl;
     [| quotient_is (4 * d); shape_simpl ];
     split_eqb; shape_simpl; reflexivity).
Qed.

(** X10: a [Resampler] with a grid of [G x G] queries, a width
    [embed_dim] that is a multiple of 4 and of [num_heads], and a [kv_dim]
    that is left out or is a size (not negative, fitting a signed 64-bit
    integer), maps [B x N x kv_dim], [N] being a square, to
    [B x G*G x embed_dim]; when [kv_dim] is left out or equals [embed_dim]
    it takes inputs of width [embed_dim] as they are.  The numbers of
    queries and of tokens are kept below [2^52], where
    [int(math.sqrt(_))] is exact. *)
Theorem Resampler_forward_shape (G d heads : Z) (kv_dim : option Z)
    (b q : Z) :
  1 <= G -> G * G < 2 ^ 52 -> 1 <= d -> 4 * d < 2 ^ 63 ->
  1 <= heads -> (4 * d) mod heads = 0 ->
  (forall kv, kv_dim = Some kv -> 0 <= kv < 2 ^ 63) ->
  1 <= b -> 1 <= q -> q * q < 2 ^ 52 ->
  let W := match kv_dim with Some kv => kv | None => 4 * d end in
  exists m,
    Resampler.init G (4 * d) heads kv_dim = Ok m
    /\ Resampler.forward m [b; q * q; W] = Ok [b; G ^ 2; 4 * d].
Proof.
  intros HG _ Hd _ Hh Hdiv _ Hb Hq _ W. eexists.
  split; [apply Resampler_init_Ok; lia|].
  apply Resampler_forward_width; try lia.
  unfold W. destruct kv_dim as [kv|]; [|reflexivity].
  destruct (Z.eqb_spec kv (4 * d)) as [->|]; reflexivity.
Qed.

End ResamplerShape.

Lemma Resampler_forward_shape_witness :
  exists m,
    Resampler.init 3 8 2 (Some 12) = Py.Ok m
    /\ Resampler.forward m [2; 16; 12] = Py.Ok [2; 9; 8].
Proof.
  exact (Resampler_forward_shape 3 2 2 (Some 12) 2 4
           ltac:(lia) ltac:(lia) ltac:(lia) ltac:(lia) ltac:(lia) eq_refl
           ltac:(intros kv [= <-]; lia)
           ltac:(lia) ltac:(lia) ltac:(lia)).
Defined.

(* ===================================================================== *)
(** * Further properties: how many tokens a projector returns *)
(* ===================================================================== *)

Section TokenCounts.
Import Py Torch Factory.

(** X11: the module built for [resampler], on a configuration whose
    widths are sizes ([mm_hidden_size] not negative, [hidden_size] at
    least 1, both fitting a signed 64-bit integer) and whose [n_slot] lies
    from 1 to below [2^52], returns
    [isqrt(n_slot) * isqrt(n_slot)] tokens of width [hidden_size] for each
    batch element, whatever the (square) number of input tokens below
    [2^52]: [n_slot] tokens when [n_slot] is a perfect square, fewer
    otherwise. *)
Theorem build_resampler_tokens bert c (ns : Z) :
  mm_projector_type c = Some "resampler" -> n_slot c = Some ns ->
  1 <= ns < 2 ^ 52 -> 1 <= hidden_size c < 2 ^ 63 ->
  0 <= mm_hidden_size c < 2 ^ 63 ->
  exists m,
    build_vision_projector bert c = Ok m
    /\ (forall b q projector drawn,
          1 <= b -> 1 <= q -> q * q < 2 ^ 52 ->
          forward m (Tensor [b; q * q; mm_hidden_size c]) projector drawn =
          Ok (Tensor [b; Z.sqrt ns ^ 2; hidden_size c]))
    /\ Z.sqrt ns ^ 2 <= ns
    /\ (Z.sqrt ns ^ 2 = ns <-> exists r, ns = r * r).
Proof.
  destruct c as [ty M H ns' res pn]. cbn. intros -> -> [Hns _] [HH _] _.
  assert (HG : 1 <= Z.sqrt ns) by (apply Z.sqrt_le_square; lia).
  destruct (QwenResampler_forward_shape (Z.sqrt ns) H M 1 1)
    as (m & Hm & _); try lia.
  exists (QwenResampler_ m). split.
  { unfold build_vision_projector. cbn. unfold int_sqrt. shape_simpl.
    rewrite Hm. reflexivity. }
  pose proof (Z.sqrt_spec ns ltac:(lia)) as [Hlo Hhi].
  split; [|split; [nia|]].
  - intros b q projector drawn Hb Hq _. cbn [forward on_tensor].
    destruct (QwenResampler_forward_shape (Z.sqrt ns) H M b q)
      as (m' & Hm' & _ & Hf); try lia.
    rewrite Hm in Hm'. injection Hm' as <-. now rewrite Hf.
  - split; [intros E; exists (Z.sqrt ns); lia|].
    intros [r ->].
    assert (Hr : Z.sqrt (r * r) = Z.abs r).
    { replace (r * r) with (Z.abs r * Z.abs r) by lia.
      apply Z.sqrt_square. lia. }
    rewrite Hr. lia.
Qed.



(** X14: the module built for [pool] reads [config.pool_num] when the
    attribute is set and takes 1 otherwise.  On a batch given as one
    tensor of [t] frames of [resolution = (g*s)^2] tokens each, with
    [pool_num = g*g], it returns for each batch element the [t*resolution]
    input tokens, [pool_num] pooled tokens for each frame and one global
    token, of width [hidden_size]. *)
Theorem build_pool_tokens bert mm h ns (pn : option Z) (g s n t : Z) :
  1 <= mm -> 0 <= h -> 1 <= g -> 1 <= s -> 1 <= n -> 1 <= t ->
  match pn with Some p => p = g * g | None => g = 1 end ->
  let res := g * s * (g * s) in
  exists m,
    build_vision_projector bert
      (mkConfig (Some "pool") mm h ns (Some res) pn) = Ok m
    /\ forall projector drawn,
         forward m (Tensor [n; t * res; 4 * mm]) projector drawn =
         Ok (Tensor [n; t * res + t * (g * g) + 1; h]).
Proof.
  intros Hmm _ Hg Hs Hn Ht Hpn res.
  assert (Hpool : (if hasattr pn then getattr_default pn 1 else 1) = g * g).
  { destruct pn as [p|]; cbn; [exact Hpn | subst g; reflexivity]. }
  eexists. split.
  - unfold build_vision_projector. cbn. rewrite Hpool. reflexivity.
  - intros projector drawn. cbn [forward]. subst res.
    now rewrite PoolProjector_forward_tensor by lia.
Qed.

End TokenCounts.

Lemma build_resampler_tokens_witness :
  let bert := PerceiverSampler.mkBertConfig 768 in
  let c := Factory.mkConfig (Some "resampler") 4 8 (Some 10) None None in
  exists m,
    Factory.build_vision_projector bert c = Py.Ok m
    /\ Factory.forward m (Torch.Tensor [2; 16; 4]) None 0 =
       Py.Ok (Torch.Tensor [2; 9; 8]).
Proof.
  intros bert c.
  destruct (build_resampler_tokens bert c 10 eq_refl eq_refl
              ltac:(lia) ltac:(cbn; lia) ltac:(cbn; lia))
    as (m & Hm & Hf & _).
  exists m. split; [exact Hm|].
  exact (Hf 2 4 None 0 ltac:(lia) ltac:(lia) ltac:(lia)).
Defined.



Lemma build_pool_tokens_witness :
  let bert := PerceiverSampler.mkBertConfig 768 in
  exists m,
    Factory.build_vision_projector bert
      (Factory.mkConfig (Some "pool") 4 8 None (Some 16) None) = Py.Ok m
    /\ Factory.forward m (Torch.Tensor [2; 32; 16]) None 0 =
       Py.Ok (Torch.Tensor [2; 35; 8]).
Proof.
  intros bert.
  destruct (build_pool_tokens bert 4 8 None None 1 4 2 2
              ltac:(lia) ltac:(lia) ltac:(lia) ltac:(lia) ltac:(lia)
              ltac:(lia) eq_refl)
    as (m & Hm & Hf).
  exists m. split; [exact Hm | exact (Hf None 0)].
Defined.

(* ===================================================================== *)
(** * Further properties: the grid that [PoolProjector] requires *)
(* ===================================================================== *)

Section PoolProjectorGrid.
Import Py Torch.

Lemma view_mismatch (s sizes : shape) :
  Forall (fun d => 0 <= d) sizes -> numel sizes <> numel s ->
  view s sizes = Raise RuntimeError.
Proof.
  intros Hpos Hne. unfold view.
  assert (Hex : existsb (fun d => d <? -1) sizes = false).
  { apply not_true_is_false. intros Hex.
    apply existsb_exists in Hex as (d & Hin & Hd).
    rewrite Forall_forall in Hpos.
    apply list_elem_of_In, Hpos in Hin. lia. }
  assert (Hf : List.filter (fun d => negb (d =? -1)) sizes = sizes).
  { clear Hne Hex. induction Hpos as [|d sizes Hd _ IH]; [reflexivity|].
    cbn. destruct (Z.eqb_spec d (-1)) as [E|E]; [lia|]. cbn. now rewrite IH. }
  rewrite Hex, Hf, Nat.sub_diag.
  destruct (Z.eqb_spec (numel sizes) (numel s)) as [E|E];
    [contradiction | reflexivity].
Qed.

(** X15: [PoolProjector] never checks its grid; the [view] calls do.  On a
    clip of [k] tokens the pooling raises torch's shape error as soon as
    [k] is not a multiple of [resolution], or [resolution] is not a perfect
    square, or the square root of [pool_num] does not divide the square
    root of [resolution]; and so does [forward] on a list that starts with
    such a clip. *)
Theorem PoolProjector_refuses_grid (mlp : Sequential) (res pool k c : Z)
    (rest : list shape) :
  1 <= res -> 1 <= pool -> 1 <= k -> 1 <= c ->
  k mod res <> 0 \/ Z.sqrt res * Z.sqrt res <> res
  \/ Z.sqrt res mod Z.sqrt pool <> 0 ->
  PoolProjector.item_slot (T:=shape) res pool [k; c] = Raise RuntimeError
  /\ PoolProjector.forward (PoolProjector.init mlp res pool)
       (TensorList ([k; c] :: rest)) = Raise RuntimeError.
Proof.
  intros Hres Hpool Hk Hc Hbad.
  assert (Hslot : PoolProjector.item_slot (T:=shape) res pool [k; c] =
                  Raise RuntimeError).
  { unfold PoolProjector.item_slot.
    set (t := k / res). set (h := Z.sqrt res). set (g := Z.sqrt pool).
    assert (Ht : 0 <= t) by (apply Z.div_pos; lia).
    assert (Hh : 1 <= h) by (apply Z.sqrt_le_square; lia).
    assert (Hg : 1 <= g) by (apply Z.sqrt_le_square; lia).
    assert (Hhg : 0 <= h / g) by (apply Z.div_pos; lia).
    cbn [Tensor.size Tensor.shape_of Tensor.shape_ops size lookup list_lookup
         Py.bind].
    unfold floordiv, np_int_sqrt, Tensor.size_last.
    cbn [Tensor.shape_of Tensor.shape_ops size_last last Py.bind].
    destruct (Z.eqb_spec res 0) as [?|_]; [lia|].
    destruct (Z.ltb_spec res 0) as [?|_]; [lia|].
    destruct (Z.ltb_spec pool 0) as [?|_]; [lia|].
    cbn [Py.bind]. fold t h g.
    cbn [Tensor.view Tensor.shape_ops].
    destruct (Z.eq_dec (k mod res) 0) as [Hmod|Hmod].
    - assert (Hkt : k = t * res).
      { unfold t. rewrite Z.mul_comm. apply Z_div_exact_full_2; lia. }
      assert (Ht1 : 1 <= t) by nia.
      assert (E1 : view [k; c] [t; res; c] = Ok [t; res; c]).
      { unfold view. shape_simpl. reflexivity. }
      rewrite E1. cbn [Py.bind].
      destruct (Z.eq_dec (h * h) res) as [Hsq|Hsq].
      + assert (E2 : view [t; res; c] [t; h; h; c] = Ok [t; h; h; c]).
        { unfold view. shape_simpl. reflexivity. }
        rewrite E2. cbn [Py.bind].
        destruct (Z.eqb_spec g 0) as [?|_]; [lia|]. cbn [Py.bind].
        assert (Hdiv : h mod g <> 0) by (destruct Hbad as [?|[?|?]]; auto).
        assert (Hlt : g * (h / g) < h).
        { pose proof (Z.mod_pos_bound h g ltac:(lia)).
          pose proof (Z.div_mod h g ltac:(lia)). lia. }
        rewrite view_mismatch; [reflexivity | |].
        * repeat constructor; lia.
        * cbn. intros E.
          assert (E' : t * c * ((g * (h / g)) * (g * (h / g))) =
                       t * c * (h * h)) by lia.
          apply Z.mul_reg_l in E'; [|nia].
          assert (0 <= g * (h / g)) by nia. nia.
      + rewrite view_mismatch; [reflexivity | |].
        * repeat constructor; lia.
        * cbn. intros E.
          assert (E' : t * c * (h * h) = t * c * res) by lia.
          apply Z.mul_reg_l in E'; [lia | nia].
    - rewrite view_mismatch; [reflexivity | |].
      + repeat constructor; lia.
      + cbn. intros E.
        assert (E' : c * (t * res) = c * k) by lia.
        apply Z.mul_reg_l in E'; [|lia].
        apply Hmod. rewrite <- E'. apply Z_mod_mult. }
  split; [exact Hslot|].
  unfold PoolProjector.forward, PoolProjector.init.
  cbn [PoolProjector.resolution PoolProjector.pool_num
       PoolProjector.map_result].
  unfold PoolProjector.item_concat at 1. rewrite Hslot. reflexivity.
Qed.

End PoolProjectorGrid.

Lemma PoolProjector_refuses_grid_witness :
  PoolProjector.forward
    (PoolProjector.init (Factory.mlp_modules 8 5 2) 9 4)
    (Torch.TensorList [[18; 8]]) = Py.Raise Py.RuntimeError.
Proof.
  assert (Hg : Z.sqrt 9 mod Z.sqrt 4 <> 0) by (vm_compute; discriminate).
  exact (proj2 (PoolProjector_refuses_grid (Factory.mlp_modules 8 5 2)
                  9 4 18 8 []
                  ltac:(lia) ltac:(lia) ltac:(lia) ltac:(lia)
                  (or_intror (or_intror Hg)))).
Defined.

(* ===================================================================== *)
(** * Further properties: the rows that [PoolProjector] concatenates *)
(* ===================================================================== *)

Section PoolProjectorLayout.
Import Py Grid.
Variable E : Type.
Variable mean_entries : list E -> E.
Variable bicubic : Torch.shape -> Z -> Z -> list E -> list E.
Variable pad : E.
Let ops := Grid.tensor_ops E mean_entries bicubic pad.

Variable X : nat -> E.
Variable g s c : nat.
Hypothesis g_pos : (1 <= g)%nat.
Hypothesis s_pos : (1 <= s)%nat.
Hypothesis c_pos : (1 <= c)%nat.

Lemma block_whole (x : tensor E) :
  length (data x) = prod (sizes E x) -> block E 0 0 x = data x.
Proof.
  intros Hl. unfold block. cbn [Nat.mul]. rewrite !drop_0, <- Hl.
  apply firstn_all.
Qed.

Lemma block_prefix (x : tensor E) :
  (prod (sizes E x) <= length (data x))%nat ->
  length (block E 0 0 x) = prod (sizes E x).
Proof.
  intros Hl. unfold block. cbn [Nat.mul]. rewrite !drop_0.
  rewrite length_take. lia.
Qed.

Lemma block_lookup (x : tensor E) (j : nat) :
  (j < prod (sizes E x))%nat -> block E 0 0 x !! j = data x !! j.
Proof.
  intros Hj. unfold block. cbn [Nat.mul]. rewrite !drop_0.
  now apply lookup_take_lt.
Qed.

Lemma mean_rows_table (k : nat) :
  Grid.mean E mean_entries pad (table E X k c) 0 true =
  Ok (mkTensor [1; Z.of_nat c]
        (map (fun ch =>
                mean_entries (map (fun r => X (r * c + ch)%nat) (seq 0 k)))
             (seq 0 c))).
Proof.
  unfold Grid.mean, table, sizes. cbn [dims data map].
  unfold Torch.reduce. cbn [length Nat.ltb Nat.leb firstn skipn app Py.bind].
  rewrite !Nat2Z.id.
  replace (prod []) with 1%nat by reflexivity.
  replace (prod [c]) with c by (unfold prod; cbn; lia).
  cbn [nth]. rewrite Nat.mul_1_l. do 2 f_equal.
  apply map_ext_in. intros p Hp. apply in_seq in Hp. f_equal.
  apply map_ext_in. intros r Hr. apply in_seq in Hr.
  rewrite Nat.div_small, Nat.mod_small by lia. cbn [Nat.mul Nat.add].
  apply nth_map_seq. nia.
Qed.

(** X16: what [PoolProjector] hands to its MLP for a clip of [t] frames
    given as one item of a list, [resolution = (g*s)^2] and
    [pool_num = g*g]: first the [k = t*resolution] tokens of the clip,
    unchanged and in their order; then the pooled tokens, frame by frame,
    each the mean over its cell of the macro-grid; last one row whose
    entries are the means, channel by channel, over all [k] tokens. *)
Theorem PoolProjector_concat_layout (t : nat) :
  (1 <= t)%nat ->
  let k := (t * (g * s * (g * s)))%nat in
  let pool := (g * g)%nat in
  exists out,
    PoolProjector.item_concat (H:=ops) (Z.of_nat (g * s * (g * s)))
      (Z.of_nat pool) (table E X k c) = Ok out
    /\ dims out = [Z.of_nat (k + t * pool + 1); Z.of_nat c]
    /\ (forall r ch, (r < k)%nat -> (ch < c)%nat ->
          data out !! (r * c + ch)%nat = Some (X (r * c + ch)%nat))
    /\ (forall f a b ch,
          (f < t)%nat -> (a < g)%nat -> (b < g)%nat -> (ch < c)%nat ->
          data out !! ((k + f * pool + a * g + b) * c + ch)%nat =
          Some (mean_entries
                  (map (fun token => X (token * c + ch)%nat)
                       (Spec.cell_tokens g s f a b))))
    /\ (forall ch, (ch < c)%nat ->
          data out !! ((k + t * pool) * c + ch)%nat =
          Some (mean_entries
                  (map (fun token => X (token * c + ch)%nat) (seq 0 k)))).
Proof.
  intros Ht k pool.
  destruct (item_slot_table E mean_entries bicubic pad X g s c
              g_pos s_pos c_pos t Ht) as (slot & Hslot & Hdims & Hcells).
  fold ops in Hslot. fold k in Hslot. fold pool in Hslot, Hdims.
  unfold PoolProjector.item_concat. rewrite Hslot. cbn [Py.bind].
  change (Tensor.mean (table E X k c) 0 true)
    with (Grid.mean E mean_entries pad (table E X k c) 0 true).
  rewrite mean_rows_table. cbn [Py.bind].
  change (Tensor.cat ?xs 0) with (Grid.cat E xs 0).
  unfold Grid.cat. cbn [map dims]. rewrite Hdims.
  match goal with
  | |- context [Torch.cat ?l 0] =>
      assert (Hcat : Torch.cat l 0 =
                     Ok [Z.of_nat (k + t * pool + 1); Z.of_nat c])
  end.
  { unfold table. cbn [dims]. unfold Torch.cat, Torch.cat_from.
    shape_simpl. do 2 f_equal. lia. }
  rewrite Hcat. cbn [Py.bind firstn map]. 
  replace (prod []) with 1%nat by reflexivity.
  cbn [seq map concat]. rewrite !app_nil_r.
  set (glob := mkTensor [1; Z.of_nat c] _).
  assert (Hs1 : prod (sizes E (table E X k c)) = (k * c)%nat).
  { unfold sizes, table. cbn [dims map]. rewrite !Nat2Z.id.
    unfold prod. cbn. lia. }
  assert (Hs2 : prod (sizes E slot) = (t * pool * c)%nat).
  { unfold sizes. rewrite Hdims. cbn [map]. rewrite !Nat2Z.id.
    unfold prod. cbn. lia. }
  assert (Hs3 : prod (sizes E glob) = c).
  { unfold sizes, glob. cbn [dims map]. rewrite !Nat2Z.id.
    unfold prod. cbn. lia. }
  assert (Hl1 : length (block E 0 0 (table E X k c)) = (k * c)%nat).
  { rewrite block_prefix; [exact Hs1|].
    rewrite Hs1. unfold table. cbn [data].
    now rewrite length_map, length_seq. }
  assert (Hl2 : length (block E 0 0 slot) = (t * pool * c)%nat).
  { rewrite block_prefix; [exact Hs2|]. rewrite Hs2.
    assert (Hlast : is_Some
              (data slot !! (((t - 1) * (g * g) + (g - 1) * g + (g - 1)) * c
                             + (c - 1))%nat))
      by (rewrite Hcells by lia; eauto).
    apply lookup_lt_is_Some in Hlast. unfold pool.
    assert (Et : t = S (t - 1)) by lia.
    assert (Eg : g = S (g - 1)) by lia.
    assert (Ec : c = S (c - 1)) by lia.
    revert Hlast. generalize (t - 1)%nat (g - 1)%nat (c - 1)%nat Et Eg Ec.
    intros t' g' c' Et' Eg' Ec' Hlast.
    assert (Hid : (t * (g * g) * c =
                   ((t' * (g * g) + g' * g + g') * c + c') + 1)%nat)
      by (rewrite Et', Eg', Ec'; ring).
    lia. }
  eexists. split; [reflexivity|]. cbn [dims data].
  split; [reflexivity|]. split; [|split].
  - intros r ch Hr Hch.
    rewrite lookup_app_l by (rewrite Hl1; nia).
    rewrite block_lookup by (rewrite Hs1; nia).
    unfold table. cbn [data]. apply lookup_map_seq. nia.
  - intros f a b ch Hf Ha Hb Hch.
    assert (Hcell : (f * pool + a * g + b < t * pool)%nat)
      by (unfold pool; nia).
    rewrite lookup_app_r by (rewrite Hl1; nia). rewrite Hl1.
    rewrite lookup_app_l by (rewrite Hl2; nia).
    rewrite block_lookup by (rewrite Hs2; nia).
    replace ((k + f * pool + a * g + b) * c + ch - k * c)%nat
      with ((f * (g * g) + a * g + b) * c + ch)%nat by (unfold pool; nia).
    now apply Hcells.
  - intros ch Hch.
    rewrite lookup_app_r by (rewrite Hl1; nia). rewrite Hl1.
    rewrite lookup_app_r by (rewrite Hl2; nia). rewrite Hl2.
    rewrite block_lookup by (rewrite Hs3; nia).
    replace ((k + t * pool) * c + ch - k * c - t * pool * c)%nat with ch
      by nia.
    unfold glob. cbn [data].
    now apply (lookup_map_seq
                 (fun ch => mean_entries
                              (map (fun r => X (r * c + ch)%nat) (seq 0 k)))).
Qed.

End PoolProjectorLayout.

Lemma PoolProjector_concat_layout_witness :
  let ops := Grid.tensor_ops Q Spec.arithmetic_mean (fun _ _ _ d => d) 0%Q in
  let X (i : nat) := inject_Z (Z.of_nat i) in
  exists out,
    PoolProjector.item_concat (H:=ops) 4 1 (Grid.table Q X 4 1) = Py.Ok out
    /\ Grid.dims out = [6; 1]
    /\ Grid.data out !! 2%nat = Some (X 2%nat)
    /\ Grid.data out !! 5%nat =
       Some (Spec.arithmetic_mean [X 0; X 1; X 2; X 3]%nat).
Proof.
  intros ops X.
  destruct (PoolProjector_concat_layout Q Spec.arithmetic_mean
              (fun _ _ _ d => d) 0%Q X 1 2 1
              ltac:(lia) ltac:(lia) ltac:(lia) 1 ltac:(lia))
    as (out & Hout & Hdims & Hrows & _ & Hglobal).
  exists out. split; [exact Hout|]. split; [exact Hdims|]. split.
  - exact (Hrows 2%nat 0%nat ltac:(cbn; lia) ltac:(lia)).
  - exact (Hglobal 0%nat ltac:(lia)).
Defined.

(* ===================================================================== *)
(** * Further properties: [get_abs_pos] applied twice *)
(* ===================================================================== *)

Section GetAbsPosTwice.
Import Py.
Variable E : Type.
Variable mean_entries : list E -> E.
Variable bicubic : Torch.shape -> Z -> Z -> list E -> list E.
Variable pad : E.
Let ops := Grid.tensor_ops E mean_entries bicubic pad.

Lemma int_sqrt_Ok (n r : Z) : int_sqrt n = Ok r -> 0 <= n /\ r = Z.sqrt n.
Proof.
  unfold int_sqrt. destruct (Z.ltb_spec n 0); [discriminate|].
  intros [= <-]. split; [lia | reflexivity].
Qed.

Lemma view_grid (s d : Torch.shape) (a : Z) :
  0 <= a -> Torch.view s [1; a; a; -1] = Ok d ->
  exists c, d = [1; a; a; c].
Proof.
  intros Ha. unfold Torch.view.
  cbn [existsb List.filter]. 
  destruct (Z.ltb_spec a (-1)) as [?|_]; [lia|].
  destruct (Z.eqb_spec a (-1)) as [?|_]; [lia|].
  cbn.
  destruct (_ || _); [discriminate|].
  destruct (Z.eqb_spec a (-1)) as [?|_]; [lia|].
  intros [= <-]. eauto.
Qed.

(** X17: [get_abs_pos] is idempotent in its table: whatever table and
    target count it is given, if it returns a table then the same call on
    that table returns it unchanged, because the rows of a rescaled table
    number the square of the integer square root of the target. *)
Theorem get_abs_pos_twice (abs_pos out : Grid.tensor E) (tgt_size : Z) :
  get_abs_pos (H:=ops) abs_pos tgt_size = Ok out ->
  get_abs_pos (H:=ops) out tgt_size = Ok out.
Proof.
  unfold get_abs_pos.
  destruct (Tensor.size abs_pos 0) as [l|e] eqn:El; [|discriminate].
  cbn [Py.bind].
  destruct (int_sqrt l) as [src|e] eqn:Es; [|discriminate].
  cbn [Py.bind].
  destruct (int_sqrt tgt_size) as [t|e] eqn:Et; [|discriminate].
  cbn [Py.bind].
  apply int_sqrt_Ok in Es as [Hl ->]. 
  pose proof (int_sqrt_Ok _ _ Et) as [Ht Htd].
  destruct (Z.eqb_spec (Z.sqrt l) t) as [Heq|Hne]; cbn [negb].
  - intros [= <-]. rewrite El. cbn [Py.bind]. unfold int_sqrt at 1.
    destruct (Z.ltb_spec l 0); [lia|]. cbn [Py.bind].
    rewrite Heq, Z.eqb_refl. reflexivity.
  - change (Tensor.view abs_pos ?sz) with (Grid.view E abs_pos sz).
    unfold Grid.view at 1.
    destruct (Torch.view (Grid.dims abs_pos) _) as [d|e] eqn:Ev;
      [|discriminate].
    apply view_grid in Ev as [c ->]; [|apply Z.sqrt_nonneg].
    cbn [Py.bind].
    change (Tensor.permute ?x ?ax) with (Grid.permute E pad x ax).
    change (Tensor.interpolate ?x ?h ?w)
      with (Grid.interpolate E bicubic x h w).
    change (Tensor.flatten_to ?x ?i) with (Grid.flatten_to E x i).
    unfold Grid.permute at 1, Grid.interpolate at 1. cbn [Grid.dims].
    unfold Torch.permute at 1. cbn [length Torch.is_permutation].
    cbn -[Z.sqrt Grid.entry Grid.source_index Grid.unravel Grid.prod
          Z.mul Z.ltb].
    destruct (_ && _); [|discriminate].
    cbn -[Z.sqrt Grid.entry Grid.source_index Grid.unravel Grid.prod
          Z.mul Z.ltb].
    intros [= <-].
    unfold Tensor.size. cbn [Tensor.shape_of ops Grid.tensor_ops Grid.dims].
    cbn [Torch.size lookup list_lookup Py.bind].
    unfold int_sqrt.
    assert (Htt : 0 <= t) by (subst t; apply Z.sqrt_nonneg).
    destruct (Z.ltb_spec (1 * (t * (t * 1))) 0) as [?|_]; [nia|].
    cbn [Py.bind].
    replace (1 * (t * (t * 1))) with (t * t) by lia.
    rewrite Z.sqrt_square by exact Htt. now rewrite Z.eqb_refl.
Qed.

End GetAbsPosTwice.

Lemma get_abs_pos_twice_witness :
  let ops := Grid.tensor_ops Z (fun _ => 0) (fun _ _ _ d => d) 0 in
  exists out,
    get_abs_pos (H:=ops) (Grid.table Z Z.of_nat 4 2) 10 = Py.Ok out
    /\ Grid.dims out = [9; 2]
    /\ get_abs_pos (H:=ops) out 10 = Py.Ok out.
Proof.
  intros ops. eexists. split; [reflexivity|]. split; [reflexivity|].
  apply (get_abs_pos_twice Z (fun _ => 0) (fun _ _ _ d => d) 0
           (Grid.table Z Z.of_nat 4 2)).
  reflexivity.
Defined.

(* ===================================================================== *)
(** * Further properties: the entries of the sine-cosine table *)
(* ===================================================================== *)

Section SinCosEntries.
Import Py SinCos.
Local Open Scope R_scope.

Lemma length_omega (D : Z) : length (omega D) = Z.to_nat (D / 2).
Proof. unfold omega, arange. now rewrite !length_map, length_seq. Qed.

Lemma length_sincos_row (D : Z) (p : R) :
  (0 <= D)%Z -> (D mod 2 = 0)%Z -> length (sincos_row D p) = Z.to_nat D.
Proof.
  intros HD He. unfold sincos_row.
  rewrite length_app, !length_map, length_omega.
  Z.div_mod_to_equations. lia.
Qed.

Lemma sum_squares_app (xs ys : list R) :
  sum_squares (xs ++ ys) = sum_squares xs + sum_squares ys.
Proof.
  unfold sum_squares. induction xs as [|x xs IH]; cbn; [ring|].
  cbn in IH. rewrite IH. ring.
Qed.

Lemma sum_squares_sin_cos (p : R) (ws : list R) :
  sum_squares (map (fun w => sin (p * w)) ws
               ++ map (fun w => cos (p * w)) ws) = INR (length ws).
Proof.
  rewrite sum_squares_app. unfold sum_squares.
  induction ws as [|w ws IH]; [cbn; ring|].
  cbn [map fold_right length]. rewrite S_INR, <- IH.
  pose proof (sin2_cos2 (p * w)) as H1. unfold Rsqr in H1. lra.
Qed.

Lemma get_1d_rows (D : Z) (pos : list R) :
  (D mod 2 = 0)%Z ->
  get_1d_sincos_pos_embed_from_grid D pos = Ok (map (sincos_row D) pos).
Proof.
  intros He. unfold get_1d_sincos_pos_embed_from_grid. rewrite He.
  cbn [Z.eqb assert Py.bind]. f_equal.
  induction pos as [|p pos IH]; [reflexivity|].
  cbn [map zip_with]. rewrite IH. f_equal.
  unfold sincos_row. now rewrite !map_map.
Qed.

(** X18: the 1-D table: for an even width [D] the row of the position [p]
    is [sin(p * w)] for each of the [D/2] frequencies [w], followed by
    [cos(p * w)] for each of them.  So every row has [D] entries whose
    squares sum to [D/2], and the row of the position 0 is [D/2] zeros
    followed by [D/2] ones. *)
Theorem get_1d_sincos_rows (D : Z) (pos : list R) :
  (0 <= D)%Z -> (D mod 2 = 0)%Z ->
  exists emb,
    get_1d_sincos_pos_embed_from_grid D pos = Ok emb
    /\ length emb = length pos
    /\ (forall m p, pos !! m = Some p ->
          exists row,
            emb !! m = Some row
            /\ row = map (fun w => sin (p * w)) (omega D)
                     ++ map (fun w => cos (p * w)) (omega D)
            /\ length row = Z.to_nat D
            /\ sum_squares row = IZR (D / 2)
            /\ (p = 0 ->
                row = List.repeat 0 (Z.to_nat (D / 2))
                      ++ List.repeat 1 (Z.to_nat (D / 2)))).
Proof.
  intros HD He. exists (map (sincos_row D) pos).
  split; [now apply get_1d_rows|]. split; [apply length_map|].
  intros m p Hp. exists (sincos_row D p).
  split; [change (map ?f pos) with (f <$> pos);
          now rewrite list_lookup_fmap, Hp|].
  split; [reflexivity|]. split; [now apply length_sincos_row|].
  split.
  - unfold sincos_row. rewrite sum_squares_sin_cos, length_omega.
    rewrite INR_IZR_INZ, Z2Nat.id; [reflexivity|].
    apply Z.div_pos; lia.
  - intros ->. unfold sincos_row. rewrite <- length_omega.
    f_equal; induction (omega D) as [|w ws IH]; cbn [map length List.repeat];
      try reflexivity; rewrite IH, Rmult_0_l; f_equal;
      [apply sin_0 | apply cos_0].
Qed.

Lemma lookup_concat_rows {A B} (f : B -> list A) (n : nat) (ys : list B) :
  (forall y, length (f y) = n) ->
  forall i j y, ys !! i = Some y -> (j < n)%nat ->
    concat (map f ys) !! (i * n + j)%nat = f y !! j.
Proof.
  intros Hlen. induction ys as [|y0 ys IH]; intros i j y Hi Hj;
    [discriminate|].
  cbn [map concat]. destruct i as [|i].
  - injection Hi as ->. cbn [Nat.mul Nat.add].
    apply lookup_app_l. now rewrite Hlen.
  - cbn in Hi. rewrite lookup_app_r by (rewrite Hlen; cbn; lia).
    rewrite Hlen. replace (S i * n + j - n)%nat with (i * n + j)%nat
      by (cbn; lia).
    now apply IH.
Qed.

Lemma length_concat_rows {A B} (f : B -> list A) (n : nat) (ys : list B) :
  (forall y, length (f y) = n) ->
  length (concat (map f ys)) = (length ys * n)%nat.
Proof.
  intros Hlen. induction ys as [|y ys IH]; [reflexivity|].
  cbn [map concat length]. rewrite length_app, Hlen, IH. cbn. lia.
Qed.

Lemma lookup_arange (G : Z) (j : nat) :
  (j < Z.to_nat G)%nat -> arange G !! j = Some (INR j).
Proof. intros Hj. unfold arange. now apply lookup_map_seq. Qed.

(** X19: the 2-D table of a [G x G] grid, for a width [D] that is a
    multiple of 4: the row of the grid cell in line [i] and column [j] is
    row [i*G + j]; its first half is the 1-D row, of width [D/2], of the
    column [j], its second half that of the line [i]; its squares sum to
    [D/2].  With [cls_token] one row of [D] zeros comes first. *)
Theorem get_2d_sincos_rows (D G : Z) (cls_token : bool) (i j : nat) :
  (0 <= D)%Z -> (D mod 4 = 0)%Z -> (i < Z.to_nat G)%nat ->
  (j < Z.to_nat G)%nat ->
  exists emb,
    get_2d_sincos_pos_embed D G cls_token = Ok emb
    /\ length emb = ((if cls_token then 1 else 0)
                     + Z.to_nat G * Z.to_nat G)%nat
    /\ (cls_token = true -> emb !! O = Some (List.repeat 0 (Z.to_nat D)))
    /\ exists row,
         emb !! ((if cls_token then 1 else 0) + (i * Z.to_nat G + j))%nat =
         Some row
         /\ row = sincos_row (D / 2) (INR j) ++ sincos_row (D / 2) (INR i)
         /\ length row = Z.to_nat D
         /\ sum_squares row = IZR (D / 2).
Proof.
  intros HD H4 Hi Hj.
  assert (H2 : (D mod 2 = 0)%Z) by (Z.div_mod_to_equations; lia).
  assert (H22 : ((D / 2) mod 2 = 0)%Z) by (Z.div_mod_to_equations; lia).
  assert (HG : (0 <= G)%Z) by lia.
  set (n := Z.to_nat G) in *.
  set (g0 := concat (map (fun _ : R => arange G) (arange G))).
  set (g1 := concat (map (fun y : R => map (fun _ : R => y) (arange G))
                         (arange G))).
  set (table := zip_with (@app R) (map (sincos_row (D / 2)) g0)
                         (map (sincos_row (D / 2)) g1)).
  assert (Hla : length (arange G) = n)
    by (unfold arange; now rewrite length_map, length_seq).
  assert (Hl0 : length g0 = (n * n)%nat).
  { unfold g0. rewrite (length_concat_rows _ n) by (intros; exact Hla).
    now rewrite Hla. }
  assert (Hl1 : length g1 = (n * n)%nat).
  { unfold g1.
    rewrite (length_concat_rows _ n)
      by (intros; now rewrite length_map).
    now rewrite Hla. }
  assert (Hemb : get_2d_sincos_pos_embed D G cls_token =
                 Ok (if cls_token then List.repeat 0 (Z.to_nat D) :: table
                     else table)).
  { unfold get_2d_sincos_pos_embed, get_2d_sincos_pos_embed_from_grid,
      meshgrid.
    destruct (Z.ltb_spec G 0); [lia|]. cbn [fst snd].
    rewrite H2. cbn [Z.eqb assert Py.bind].
    rewrite !get_1d_rows by exact H22. cbn [Py.bind].
    destruct (Z.ltb_spec D 0); [lia|]. fold g0 g1 table.
    destruct cls_token; reflexivity. }
  assert (Hlt : length table = (n * n)%nat).
  { unfold table. rewrite length_zip_with, !length_map. lia. }
  assert (Hij : (i * n + j < n * n)%nat) by nia.
  assert (Hrow : table !! (i * n + j)%nat =
                 Some (sincos_row (D / 2) (INR j)
                       ++ sincos_row (D / 2) (INR i))).
  { unfold table. change (map ?f ?l) with (f <$> l).
    rewrite lookup_zip_with, !list_lookup_fmap.
    unfold g0, g1.
    rewrite (lookup_concat_rows (fun _ : R => arange G) n (arange G)
               (fun _ => Hla) i j (INR i) (lookup_arange _ _ Hi) Hj).
    rewrite (lookup_concat_rows
               (fun y : R => map (fun _ : R => y) (arange G)) n (arange G)
               (fun y => eq_trans (length_map _ _) Hla)
               i j (INR i) (lookup_arange _ _ Hi) Hj).
    rewrite (lookup_arange _ _ Hj). cbn.
    change (map ?f ?l) with (f <$> l).
    rewrite list_lookup_fmap, (lookup_arange _ _ Hj). reflexivity. }
  eexists. split; [exact Hemb|].
  split; [destruct cls_token; cbn [length]; lia|].
  split; [intros ->; reflexivity|].
  exists (sincos_row (D / 2) (INR j) ++ sincos_row (D / 2) (INR i)).
  split; [destruct cls_token; exact Hrow|]. split; [reflexivity|].
  assert (Hhalf : (0 <= D / 2)%Z) by (apply Z.div_pos; lia).
  split.
  - rewrite length_app, !length_sincos_row by assumption.
    Z.div_mod_to_equations. lia.
  - rewrite sum_squares_app. unfold sincos_row.
    rewrite !sum_squares_sin_cos, !length_omega, <- plus_INR.
    rewrite INR_IZR_INZ. f_equal. Z.div_mod_to_equations. lia.
Qed.

End SinCosEntries.

Lemma get_1d_sincos_rows_witness :
  exists emb,
    SinCos.get_1d_sincos_pos_embed_from_grid 4 [0%R; 1%R] = Py.Ok emb
    /\ length emb = 2%nat.
Proof.
  destruct (get_1d_sincos_rows 4 [0%R; 1%R] ltac:(lia) eq_refl)
    as (emb & He & Hl & _).
  exists emb. split; [exact He | exact Hl].
Defined.

Lemma get_2d_sincos_rows_witness :
  exists emb,
    SinCos.get_2d_sincos_pos_embed 8 3 true = Py.Ok emb
    /\ length emb = 10%nat.
Proof.
  destruct (get_2d_sincos_rows 8 3 true 1 2 ltac:(lia) eq_refl
              ltac:(cbn; lia) ltac:(cbn; lia))
    as (emb & He & Hl & _).
  exists emb. split; [exact He | exact Hl].
Defined.

Section ResamplerTokens.
Import Py Torch Factory.

Lemma QwenResampler_forward_not_square (G H M b N : Z) :
  1 <= G -> 1 <= H -> 1 <= b -> 4 <= N ->
  Z.sqrt N * Z.sqrt N <> N ->
  exists m,
    QwenResampler.init G 4096 (4096 / 128) (Some 1664) H M = Ok m
    /\ QwenResampler.forward m [b; N; M] = Raise RuntimeError.
Proof.
  intros HG HH Hb HN Hns. unfold QwenResampler.init.
  rewrite MultiheadAttention_init_4096.
  rewrite get_2d_sincos_pos_embed_shape by lia.
  unfold pow_neg_half_of. shape_simpl.
  eexists. split; [reflexivity|].
  assert (Ht : 2 <= Z.sqrt N) by (apply Z.sqrt_le_square; lia).
  unfold QwenResampler.forward, get_abs_pos, QwenResampler._repeat.
  shape_simpl. rewrite !Z.sqrt_square by lia.
  rewrite ?Z.mul_1_l, ?Z.mul_1_r.
  destruct (Z.eqb_spec G (Z.sqrt N)) as [E|Hne]; shape_simpl.
  - rewrite E. split_eqb; shape_simpl; reflexivity.
  - quotient_is 4096. shape_simpl.
    split_eqb; shape_simpl; reflexivity.
Qed.

(** X20: the module built for [resampler], on a configuration whose
    widths are sizes ([mm_hidden_size] not negative, [hidden_size] at
    least 1, both fitting a signed 64-bit integer) and whose [n_slot] lies
    from 1 to below [2^52], adds to its keys a position table of
    [isqrt(N) * isqrt(N)] rows for an input of [N] tokens.  When [N] from 4
    to below [2^52] is not a perfect square the addition does not
    broadcast, and [forward] raises torch's shape error. *)
Theorem build_resampler_not_square bert c (ns b N : Z) :
  mm_projector_type c = Some "resampler" -> n_slot c = Some ns ->
  1 <= ns < 2 ^ 52 -> 1 <= hidden_size c < 2 ^ 63 ->
  0 <= mm_hidden_size c < 2 ^ 63 ->
  1 <= b -> 4 <= N < 2 ^ 52 ->
  Z.sqrt N * Z.sqrt N <> N ->
  exists m,
    build_vision_projector bert c = Ok m
    /\ forall projector drawn,
         forward m (Tensor [b; N; mm_hidden_size c]) projector drawn =
         Raise RuntimeError.
Proof.
  destruct c as [ty M H ns' res pn]. cbn.
  intros -> -> [Hns _] [HH _] _ Hb [HN _] Hsq.
  assert (HG : 1 <= Z.sqrt ns) by (apply Z.sqrt_le_square; lia).
  destruct (QwenResampler_forward_not_square (Z.sqrt ns) H M b N)
    as (m & Hm & Hf); try lia.
  exists (QwenResampler_ m). split.
  - unfold build_vision_projector. cbn. unfold int_sqrt. shape_simpl.
    rewrite Hm. reflexivity.
  - intros projector drawn. cbn [forward on_tensor]. now rewrite Hf.
Qed.

End ResamplerTokens.

Lemma build_resampler_not_square_witness :
  let bert := PerceiverSampler.mkBertConfig 768 in
  let c := Factory.mkConfig (Some "resampler") 4 8 (Some 9) None None in
  exists m,
    Factory.build_vision_projector bert c = Py.Ok m
    /\ Factory.forward m (Torch.Tensor [2; 10; 4]) None 0 =
       Py.Raise Py.RuntimeError.
Proof.
  intros bert c.
  assert (Hsq : Z.sqrt 10 * Z.sqrt 10 <> 10) by (vm_compute; discriminate).
  destruct (build_resampler_not_square bert c 9 2 10 eq_refl eq_refl
              ltac:(lia) ltac:(cbn; lia) ltac:(cbn; lia) ltac:(lia)
              ltac:(lia) Hsq)
    as (m & Hm & Hf).
  exists m. split; [exact Hm | exact (Hf None 0)].
Defined.

(* ===================================================================== *)
(** * Further properties: what the factory raises *)
(* ===================================================================== *)

Section FactoryFailures.
Import Py Torch Factory.

(** X21: [build_vision_projector] has one [raise] of its own; apart from
    it, on a configuration whose sizes are not negative and lie below
    [2^52] (so that they, and four times them, are sizes torch accepts, and
    memory apart), construction fails only through a missing [n_slot] or
    [resolution] attribute, through [0 ** -0.5] on a zero width, or through
    [int] on a type that the pattern [mlp{N}x_gelu] matches with more than
    4300 digits, whatever the type string ([perceiver] apart, whose
    encoder is built outside this file).  In particular an unknown type is
    reported only by the [ValueError] that carries the type string, and
    that error is raised for no type the factory knows. *)
Theorem build_failures bert c e :
  0 <= mm_hidden_size c < 2 ^ 52 -> 0 <= hidden_size c < 2 ^ 52 ->
  (forall n, n_slot c = Some n -> 0 <= n < 2 ^ 52) ->
  mm_projector_type c <> Some "perceiver" ->
  build_vision_projector bert c = Raise e ->
  e = AttributeError "n_slot" \/ e = AttributeError "resolution"
  \/ e = ZeroDivisionError
  \/ (exists s ds, mm_projector_type c = Some s
                   /\ re_match_mlp_gelu s = Some ds
                   /\ (int_max_str_digits < String.length ds)%nat
                   /\ e = ValueError int_limit_error)
  \/ exists s, mm_projector_type c = Some s
               /\ e = ValueError (unknown_projector_type s)
               /\ Spec.recognized s = false.
Proof.
  intros [HM _] [HH _] Hns _ He.
  assert (Hns' : forall n, n_slot c = Some n -> 0 <= n)
    by (intros n Hn; now apply Hns).
  destruct (build_raises bert c e HM HH Hns' He)
    as [E|[E|[E|[E|(s & Hs & E)]]]]; auto.
  - do 3 right. left. subst e. destruct c as [ty M H ns res pn].
    unfold build_vision_projector in He.
    cbn [mm_projector_type mm_hidden_size hidden_size n_slot resolution
         pool_num] in He |- *.
    destruct ty as [s|]; [|discriminate]. cbn [getattr_default] in He.
    destruct (String.eqb s "linear"); [discriminate|].
    destruct (re_match_mlp_gelu s) as [ds|] eqn:Em.
    + exists s, ds. split; [reflexivity|]. split; [exact Em|].
      split; [|reflexivity]. unfold int in He.
      destruct (Nat.ltb_spec int_max_str_digits (String.length ds))
        as [Hl|_]; [exact Hl | discriminate].
    + exfalso. clear Hns Hns'.
      repeat match type of He with
             | (if String.eqb s ?n then _ else _) = _ =>
                 destruct (String.eqb s n)
             end;
        cbn -[QwenResampler.init SlotAttention.init int_sqrt] in He;
        try discriminate;
        try (destruct ns as [n|];
             cbn -[QwenResampler.init SlotAttention.init int_sqrt] in He;
             [|discriminate]);
        try (destruct res as [r|]; cbn in He; discriminate);
        try (unfold SlotAttention.init, pow_neg_half_of in He;
             destruct (M =? 0); cbn in He; discriminate).
      unfold int_sqrt in He. destruct (n <? 0); [discriminate|].
      cbn [Py.bind] in He. unfold QwenResampler.init in He.
      rewrite MultiheadAttention_init_4096 in He.
      rewrite get_2d_sincos_pos_embed_shape in He by apply Z.sqrt_nonneg.
      unfold pow_neg_half_of in He. cbn in He.
      destruct (H =? 0); cbn in He; discriminate.
  - do 4 right. exists s. split; [exact Hs|]. split; [exact E|].
    destruct (Spec.recognized s) eqn:Hrec; [exfalso | reflexivity].
    subst e. destruct c as [ty M H ns res pn]. cbn in Hs. subst ty.
    unfold build_vision_projector in He.
    cbn [mm_projector_type mm_hidden_size hidden_size n_slot resolution
         pool_num getattr_default] in He.
    unfold Spec.recognized in Hrec. apply orb_prop in Hrec as [Hname | Hmlp].
    + cbn [existsb Spec.named_types] in Hname.
      repeat match type of Hname with
             | (_ || _)%bool = true =>
                 apply orb_prop in Hname as [Hname | Hname]
             end; try discriminate; apply String.eqb_eq in Hname; subst s;
        cbn -[QwenResampler.init SlotAttention.init int_sqrt] in He;
        try discriminate;
        try (destruct ns as [n|];
             cbn -[QwenResampler.init SlotAttention.init int_sqrt] in He;
             [|discriminate]);
        try (destruct res as [r|]; cbn in He; discriminate);
        try (unfold SlotAttention.init, pow_neg_half_of in He;
             destruct (M =? 0); cbn in He; discriminate).
      unfold int_sqrt in He. destruct (n <? 0); [discriminate|].
      cbn [Py.bind] in He. unfold QwenResampler.init in He.
      rewrite MultiheadAttention_init_4096 in He.
      rewrite get_2d_sincos_pos_embed_shape in He by apply Z.sqrt_nonneg.
      unfold pow_neg_half_of in He. cbn in He.
      destruct (H =? 0); cbn in He; discriminate.
    + apply is_mlp_gelu_name_spec in Hmlp as (ds & Hne & Hd & ->).
      replace (String.eqb (Spec.mlp_gelu_name ds) "linear") with false in He
        by reflexivity.
      rewrite (re_match_mlp_gelu_name ds Hne Hd) in He.
      unfold int in He.
      destruct (_ <? _)%nat; cbn [Py.bind] in He; discriminate.
Qed.

End FactoryFailures.

Lemma build_failures_witness :
  let c := Factory.mkConfig (Some "slot") 4 8 None None None in
  let e := Py.AttributeError "n_slot" in
  e = Py.AttributeError "n_slot"
  \/ e = Py.AttributeError "resolution"
  \/ e = Py.ZeroDivisionError
  \/ (exists s ds,
        Factory.mm_projector_type c = Some s
        /\ Py.re_match_mlp_gelu s = Some ds
        /\ (Py.int_max_str_digits < String.length ds)%nat
        /\ e = Py.ValueError Py.int_limit_error)
  \/ exists s,
       Factory.mm_projector_type c = Some s
       /\ e = Py.ValueError (Factory.unknown_projector_type s)
       /\ Spec.recognized s = false.
Proof.
  intros c e.
  exact (build_failures (PerceiverSampler.mkBertConfig 768) c e
           ltac:(cbn; lia) ltac:(cbn; lia) ltac:(discriminate)
           ltac:(discriminate) eq_refl).
Defined.
